(** * GryLin: document pipeline, scam shield, routing and guardian alerts

  A shallow embedding of the non-UI core of the GryLin application
  (TypeScript): the scam detector ([src/lib/scamDetector.ts]), the email
  classifier ([lib/gmail]), the AI response validator and the rate limiter
  ([lib/ai]), the folder router and the scan flow ([stores/itemsStore.ts])
  and the guardian alert store ([stores/guardianStore.ts]) over the local
  storage backend ([src/lib/localStorage.ts]).

  Conventions.  A JavaScript string is a [string] of bytes holding its
  UTF-8 encoding; every keyword and pattern of the program is ASCII apart
  from the rupee sign of one regular expression.  A JavaScript number that
  the program only counts with is a [Z].  An [async] function is a function
  in a state-and-exception monad over the application's world. *)

From Stdlib Require Import ZArith List String Ascii Bool Lia PrimFloat.
Import ListNotations.

Local Open Scope string_scope.
Local Open Scope list_scope.
Local Open Scope Z_scope.

(** String concatenation ([+] and template literals of the source). *)
Infix "+++" := String.append (right associativity, at level 60).

(* ================================================================= *)
(** ** JavaScript strings *)

Module Js.

Definition code (c : ascii) : Z := Z.of_nat (nat_of_ascii c).

Definition inRange (lo hi : Z) (c : ascii) : bool :=
  (lo <=? code c) && (code c <=? hi).

Definition isUpper : ascii -> bool := inRange 65 90.
Definition isDigit : ascii -> bool := inRange 48 57.

(** [String.prototype.toLowerCase], on the ASCII letters; the bytes of a
    character outside ASCII are kept as they are.  On a string of ASCII
    characters this is what JavaScript gives; JavaScript also maps the
    capital letters outside ASCII (the Kelvin sign U+212A to [k]), which
    this function leaves alone. *)
Definition lowerChar (c : ascii) : ascii :=
  if isUpper c then ascii_of_nat (nat_of_ascii c + 32) else c.

Fixpoint toLowerCase (s : string) : string :=
  match s with
  | EmptyString => EmptyString
  | String c r => String (lowerChar c) (toLowerCase r)
  end.

Fixpoint startsWith (s p : string) : bool :=
  match p, s with
  | EmptyString, _ => true
  | String _ _, EmptyString => false
  | String a p', String b s' => Ascii.eqb a b && startsWith s' p'
  end.

(** [s.includes(p)]: [p] occurs in [s] as a substring. *)
Fixpoint includes (s p : string) : bool :=
  startsWith s p ||
  match s with
  | EmptyString => false
  | String _ s' => includes s' p
  end.

Fixpoint join (sep : string) (l : list string) : string :=
  match l with
  | [] => ""
  | [x] => x
  | x :: rest => x +++ sep +++ join sep rest
  end.

Fixpoint takeWhile (p : ascii -> bool) (s : string) : string :=
  match s with
  | EmptyString => EmptyString
  | String c r => if p c then String c (takeWhile p r) else EmptyString
  end.

(** [s.length]: the number of UTF-16 code units of the text, one for each
    character and two for a character of four bytes. *)
Fixpoint len (s : string) : Z :=
  match s with
  | EmptyString => 0
  | String c r =>
      (if inRange 128 191 c then 0 else if inRange 240 255 c then 2 else 1)
      + len r
  end.

Fixpoint rev (s : string) : string :=
  match s with
  | EmptyString => EmptyString
  | String c r => rev r +++ String c EmptyString
  end.

(** *** White space

    The WhiteSpace and LineTerminator characters of ECMAScript, which
    [trim] strips and [\s] matches: the ASCII ones are single bytes, the
    others are the two- and three-byte sequences of U+00A0, U+1680,
    U+2000..U+200A, U+2028, U+2029, U+202F, U+205F, U+3000 and U+FEFF. *)
Definition isSpace1 (c : ascii) : bool :=
  inRange 9 13 c || (code c =? 32).

Definition isSpace2 (c1 c2 : ascii) : bool :=
  (code c1 =? 194) && (code c2 =? 160).

Definition isSpace3 (c1 c2 c3 : ascii) : bool :=
  ((code c1 =? 225) && (code c2 =? 154) && (code c3 =? 128)) ||
  ((code c1 =? 226) && (code c2 =? 128) &&
     (inRange 128 138 c3 || inRange 168 169 c3 || (code c3 =? 175))) ||
  ((code c1 =? 226) && (code c2 =? 129) && (code c3 =? 159)) ||
  ((code c1 =? 227) && (code c2 =? 128) && (code c3 =? 128)) ||
  ((code c1 =? 239) && (code c2 =? 187) && (code c3 =? 191)).

Fixpoint trimStart (s : string) : string :=
  match s with
  | String c1 r1 =>
      if isSpace1 c1 then trimStart r1
      else
        match r1 with
        | String c2 r2 =>
            if isSpace2 c1 c2 then trimStart r2
            else
              match r2 with
              | String c3 r3 =>
                  if isSpace3 c1 c2 c3 then trimStart r3 else s
              | EmptyString => s
              end
        | EmptyString => s
        end
  | EmptyString => s
  end.

(** The same from the end, on the reversed string. *)
Fixpoint trimStartRev (s : string) : string :=
  match s with
  | String c1 r1 =>
      if isSpace1 c1 then trimStartRev r1
      else
        match r1 with
        | String c2 r2 =>
            if isSpace2 c2 c1 then trimStartRev r2
            else
              match r2 with
              | String c3 r3 =>
                  if isSpace3 c3 c2 c1 then trimStartRev r3 else s
              | EmptyString => s
              end
        | EmptyString => s
        end
  | EmptyString => s
  end.

Definition trimEnd (s : string) : string := rev (trimStartRev (rev s)).

(** [String.prototype.trim] *)
Definition trim (s : string) : string := trimEnd (trimStart s).

End Js.

(* ================================================================= *)
(** ** Regular expressions

  The program only asks whether a pattern occurs ([RegExp.prototype.test]),
  so a pattern is its language and matching is by derivatives. *)

Module RegExp.

Inductive regex : Type :=
| Void
| Eps
| Sym (p : ascii -> bool)
| Cat (r s : regex)
| Alt (r s : regex)
| Star (r : regex).

Fixpoint nullable (r : regex) : bool :=
  match r with
  | Void => false
  | Eps => true
  | Sym _ => false
  | Cat r s => nullable r && nullable s
  | Alt r s => nullable r || nullable s
  | Star _ => true
  end.

Definition cat (r s : regex) : regex :=
  match r, s with
  | Void, _ => Void
  | _, Void => Void
  | Eps, _ => s
  | _, Eps => r
  | _, _ => Cat r s
  end.

Definition alt (r s : regex) : regex :=
  match r, s with
  | Void, _ => s
  | _, Void => r
  | _, _ => Alt r s
  end.

Fixpoint deriv (c : ascii) (r : regex) : regex :=
  match r with
  | Void => Void
  | Eps => Void
  | Sym p => if p c then Eps else Void
  | Cat r s =>
      if nullable r then alt (cat (deriv c r) s) (deriv c s)
      else cat (deriv c r) s
  | Alt r s => alt (deriv c r) (deriv c s)
  | Star r' => cat (deriv c r') (Star r')
  end.

(** Some prefix of [s] is in the language of [r]. *)
Fixpoint matchesPrefix (r : regex) (s : string) : bool :=
  nullable r ||
  match s with
  | EmptyString => false
  | String c s' => matchesPrefix (deriv c r) s'
  end.

(** The whole of [s] is in the language of [r]. *)
Fixpoint matchesAll (r : regex) (s : string) : bool :=
  match s with
  | EmptyString => nullable r
  | String c s' => matchesAll (deriv c r) s'
  end.

(** A pattern of the source: its body, and whether it ends in [$]. *)
Record pattern : Type := { body : regex; atEnd : bool }.

Definition re (r : regex) : pattern := {| body := r; atEnd := false |}.
Definition reEnd (r : regex) : pattern := {| body := r; atEnd := true |}.

Fixpoint search (m : regex -> string -> bool) (r : regex) (s : string) : bool :=
  m r s ||
  match s with
  | EmptyString => false
  | String _ s' => search m r s'
  end.

(** [pattern.test(s)]: a match starting at some position of [s]. *)
Definition test (p : pattern) (s : string) : bool :=
  search (if atEnd p then matchesAll else matchesPrefix) (body p) s.

(** Builders for the syntax the source uses. *)
Definition chr (c : ascii) : regex := Sym (Ascii.eqb c).
(** a character under the [i] flag *)
Definition chrI (c : ascii) : regex :=
  Sym (fun x => Ascii.eqb (Js.lowerChar x) (Js.lowerChar c)).
Definition oneOf (cs : string) : regex :=
  Sym (fun x => Js.includes cs (String x EmptyString)).
Definition digit : regex := Sym Js.isDigit.
Fixpoint lit (s : string) : regex :=
  match s with
  | EmptyString => Eps
  | String c s' => Cat (chr c) (lit s')
  end.

Fixpoint litI (s : string) : regex :=
  match s with
  | EmptyString => Eps
  | String c s' => Cat (chrI c) (litI s')
  end.

Definition plus (r : regex) : regex := Cat r (Star r).
Definition opt (r : regex) : regex := Alt r Eps.

Fixpoint times (n : nat) (r : regex) : regex :=
  match n with
  | O => Eps
  | S n' => Cat r (times n' r)
  end.

(** [r{n,}] and [r{n,m}] *)
Definition atLeast (n : nat) (r : regex) : regex := Cat (times n r) (Star r).
Definition between (n m : nat) (r : regex) : regex :=
  Cat (times n r) (times (m - n) (opt r)).

Fixpoint alts (l : list regex) : regex :=
  match l with
  | [] => Void
  | [r] => r
  | r :: rest => Alt r (alts rest)
  end.

Fixpoint cats (l : list regex) : regex :=
  match l with
  | [] => Eps
  | r :: rest => Cat r (cats rest)
  end.

Definition byte (n : Z) : regex := Sym (fun x => Js.code x =? n).

(** [\s]: one white space character ([Js.isSpace1], [Js.isSpace2],
    [Js.isSpace3]) *)
Definition space : regex :=
  alts [ Sym Js.isSpace1;
         cats [ byte 194; byte 160 ];
         cats [ byte 225; byte 154; byte 128 ];
         cats [ byte 226; byte 128;
                Sym (fun x => Js.inRange 128 138 x || Js.inRange 168 169 x
                              || (Js.code x =? 175)) ];
         cats [ byte 226; byte 129; byte 159 ];
         cats [ byte 227; byte 128; byte 128 ];
         cats [ byte 239; byte 187; byte 191 ] ].

End RegExp.

(* ================================================================= *)
(** ** Scam Shield ([src/lib/scamDetector.ts]) *)

Module ScamDetector.
Import RegExp.

Record ScamAnalysis : Type := {
  is_scam : bool;
  risk_score : Z;
  scam_indicators : list string;
  recommendation : string
}.

Definition URGENCY_PATTERNS : list string :=
  [ "account blocked"; "account suspended"; "act now"; "act immediately";
    "verify immediately"; "urgent action required"; "immediate action";
    "your account will be"; "within 24 hours"; "within 48 hours";
    "limited time"; "expires today"; "final notice"; "last warning";
    "failure to respond"; "avoid suspension"; "prevent closure" ].

Definition SENSITIVE_INFO_PATTERNS : list string :=
  [ "password"; "pin number"; "otp"; "one-time password"; "social security";
    "bank account number"; "credit card number"; "cvv"; "security code";
    "login credentials"; "verify your identity"; "confirm your details";
    "update your information"; "click here to verify";
    "click the link below" ].

Definition SUSPICIOUS_DOMAIN_PATTERNS : list pattern :=
  [ re (atLeast 4 digit);
    re (atLeast 2 (chr "-"));
    reEnd (Cat (chr ".")
             (alts (map litI [ "xyz"; "top"; "club"; "work"; "click"; "link";
                               "gq"; "ml"; "cf"; "tk" ])));
    re (alts [ Cat (litI "paypa") (Alt (chrI "l") (chrI "1"));
               cats [ litI "amaz"; Alt (chrI "o") (chrI "0"); chrI "n" ];
               cats [ chrI "g"; times 2 (Alt (chrI "o") (chrI "0"));
                      litI "gle" ];
               cats [ litI "micr"; Alt (chrI "o") (chrI "0"); chrI "s";
                      Alt (chrI "o") (chrI "0"); litI "ft" ];
               cats [ litI "app"; Alt (chrI "l") (chrI "1"); chrI "e" ] ]) ].

(** [email.match(/@([^>]+)/)]: the first [@] that is followed by a
    character other than [>], and after it the longest run of such
    characters. *)
Fixpoint matchDomain (email : string) : option string :=
  match email with
  | EmptyString => None
  | String c rest =>
      if Ascii.eqb c "@" then
        match Js.takeWhile (fun x => negb (Ascii.eqb x ">")) rest with
        | EmptyString => matchDomain rest
        | g => Some g
        end
      else matchDomain rest
  end.

Definition extractDomain (email : string) : string :=
  match matchDomain email with
  | Some g => Js.toLowerCase g
  | None => ""
  end.

Definition detectUrgencyLanguage (content : string) : list string :=
  let lowerContent := Js.toLowerCase content in
  filter (fun pattern => Js.includes lowerContent pattern) URGENCY_PATTERNS.

Definition detectSensitiveInfoRequests (content : string) : list string :=
  let lowerContent := Js.toLowerCase content in
  filter (fun pattern => Js.includes lowerContent pattern)
    SENSITIVE_INFO_PATTERNS.

(** The loop pushes one indicator at the first pattern that matches and
    breaks. *)
Definition detectSuspiciousDomain (sender : string) : list string :=
  let domain := extractDomain sender in
  if existsb (fun pattern => test pattern domain) SUSPICIOUS_DOMAIN_PATTERNS
  then [ "Suspicious domain pattern detected: " +++ domain ]
  else [].

Definition linkPatterns : list pattern :=
  [ re (cats [ litI "click"; plus space; litI "here" ]);
    re (cats [ litI "verify"; plus space; litI "now" ]);
    re (cats [ litI "login"; plus space; litI "here" ]);
    re (cats [ litI "update"; plus space; litI "account" ]) ].

Definition detectMismatchedLinks (content : string) : list string :=
  if existsb (fun pattern => test pattern content) linkPatterns
  then [ "Contains suspicious call-to-action links" ]
  else [].

Definition length {A} (l : list A) : Z := Z.of_nat (List.length l).

Definition detectScam (content sender : string) : ScamAnalysis :=
  let indicators := [] in
  let riskScore := 0 in
  (* urgency language (high weight) *)
  let urgencyIndicators := detectUrgencyLanguage content in
  let '(indicators, riskScore) :=
    if 0 <? length urgencyIndicators then
      (indicators ++
         [ "Urgency language detected: " +++
           Js.join ", " (firstn 3 urgencyIndicators) ],
       riskScore + Z.min (length urgencyIndicators * 15) 40)
    else (indicators, riskScore) in
  (* sensitive info requests (high weight) *)
  let sensitiveIndicators := detectSensitiveInfoRequests content in
  let '(indicators, riskScore) :=
    if 0 <? length sensitiveIndicators then
      (indicators ++
         [ "Requests for sensitive information: " +++
           Js.join ", " (firstn 3 sensitiveIndicators) ],
       riskScore + Z.min (length sensitiveIndicators * 20) 50)
    else (indicators, riskScore) in
  (* suspicious domain (medium weight) *)
  let domainIndicators := detectSuspiciousDomain sender in
  let '(indicators, riskScore) :=
    if 0 <? length domainIndicators then
      (indicators ++ domainIndicators, riskScore + 25)
    else (indicators, riskScore) in
  (* mismatched links (medium weight) *)
  let linkIndicators := detectMismatchedLinks content in
  let '(indicators, riskScore) :=
    if 0 <? length linkIndicators then
      (indicators ++ linkIndicators, riskScore + 15)
    else (indicators, riskScore) in
  (* cap at 100 *)
  let riskScore := Z.min riskScore 100 in
  let isScam := 70 <=? riskScore in
  let recommendation :=
    if 70 <=? riskScore then
      "HIGH RISK: This appears to be a scam. Do not click any links or provide personal information."
    else if 40 <=? riskScore then
      "MEDIUM RISK: Exercise caution. Verify the sender through official channels before taking action."
    else if 20 <=? riskScore then
      "LOW RISK: Some suspicious elements detected. Review carefully before responding."
    else "This message appears to be legitimate." in
  {| is_scam := isScam;
     risk_score := riskScore;
     scam_indicators := indicators;
     recommendation := recommendation |}.

Definition hasScamIndicators (content : string) : bool :=
  let lowerContent := Js.toLowerCase content in
  existsb (fun p => Js.includes lowerContent p) URGENCY_PATTERNS ||
  existsb (fun p => Js.includes lowerContent p) SENSITIVE_INFO_PATTERNS.

End ScamDetector.

(* ================================================================= *)
(** ** Email classification ([lib/gmail]) *)

Module Gmail.
Import RegExp.

Record AttachmentInfo : Type := {
  filename : string;
  mimeType : string;
  size : Z
}.

Record EmailContent : Type := {
  id : string;
  from : string;
  to : string;
  subject : string;
  body : string;
  date : string;
  attachments : list AttachmentInfo
}.

Definition TRANSACTIONAL_KEYWORDS : list string :=
  [ "invoice"; "payment"; "bill"; "receipt"; "transaction"; "charge";
    "amount due"; "balance"; "statement"; "pay now"; "payment due";
    "order confirmation"; "order #"; "shipping"; "delivery"; "tracking";
    "account statement"; "subscription"; "renewal"; "expiring"; "due date";
    "bank"; "credit card"; "transfer"; "deposit"; "tuition"; "fee";
    "warranty"; "appointment"; "booking"; "reservation" ].

Definition PROMOTIONAL_KEYWORDS : list string :=
  [ "unsubscribe"; "newsletter"; "promotion"; "sale"; "discount";
    "offer"; "deal"; "limited time"; "exclusive"; "free shipping";
    "shop now"; "buy now"; "save"; "% off"; "coupon" ].

(** [keywords.reduce((score, keyword) =>
      content.includes(keyword.toLowerCase()) ? score + 1 : score, 0)] *)
Definition keywordScore (content : string) (keywords : list string) : Z :=
  fold_left
    (fun score keyword =>
       if Js.includes content (Js.toLowerCase keyword) then score + 1
       else score)
    keywords 0.

(** [[\d,]+\.?\d*] *)
Definition number : regex :=
  cats [ plus (Alt digit (chr ",")); opt (chr "."); Star digit ].

(** [/\$[\d,]+\.?\d*|\₹[\d,]+\.?\d*|[\d,]+\.?\d*\s*(USD|INR|EUR|GBP)/i] *)
Definition amountPattern : pattern :=
  re (alts [ Cat (chr "$") number;
             Cat (lit "₹") number;
             cats [ number; Star space;
                    alts (map litI [ "USD"; "INR"; "EUR"; "GBP" ]) ] ]).

(** [/\d{1,2}[\/\-]\d{1,2}[\/\-]\d{2,4}|due\s+(by|on|date)/i] *)
Definition datePattern : pattern :=
  re (alts [ cats [ between 1 2 digit; oneOf "/-"; between 1 2 digit;
                    oneOf "/-"; between 2 4 digit ];
             cats [ litI "due"; plus space;
                    alts (map litI [ "by"; "on"; "date" ]) ] ]).

(** [/order\s*#?\s*\d+|invoice\s*#?\s*\d+|confirmation\s*#?\s*\d+/i] *)
Definition orderNumberPattern : pattern :=
  let numbered (word : string) :=
    cats [ litI word; Star space; opt (chr "#"); Star space; plus digit ] in
  re (alts (map numbered [ "order"; "invoice"; "confirmation" ])).

Definition isTransactionalEmail (email : EmailContent) : bool :=
  let content := Js.toLowerCase (subject email +++ " " +++ body email) in
  let promotionalScore := keywordScore content PROMOTIONAL_KEYWORDS in
  if 3 <=? promotionalScore then false
  else
    let transactionalScore := keywordScore content TRANSACTIONAL_KEYWORDS in
    let hasAmount := test amountPattern content in
    let hasDate := test datePattern content in
    let hasOrderNumber := test orderNumberPattern content in
    let score := transactionalScore in
    let score := if hasAmount then score + 2 else score in
    let score := if hasDate then score + 2 else score in
    let score := if hasOrderNumber then score + 3 else score in
    3 <=? score.

End Gmail.

(* ================================================================= *)
(** ** Exceptions *)

(** A thrown value: whether it is an [Error] object, its [message] and,
    for the errors of a database client, its [code]. *)
Record Exn : Type := {
  instanceofError : bool;
  message : string;
  code : option string
}.

(** [new Error(message)] *)
Definition Error (message : string) : Exn :=
  {| instanceofError := true; message := message; code := None |}.

(** The outcome of a call that may throw. *)
Inductive Result (A : Type) : Type :=
| Ok (a : A)
| Throw (e : Exn).
Arguments Ok {A} a.
Arguments Throw {A} e.

(* ================================================================= *)
(** ** Fetching and filtering emails ([lib/gmail]) *)

Module GmailApi.

Record GmailMessage : Type := {
  id : string;
  threadId : string
}.

Section Network.

(** The Gmail API, over the state [N] of the network:
    [getEmailContent(accessToken, messageId)]. *)
Variable N : Type.
Variable getEmailContent : string -> string -> N -> Result Gmail.EmailContent * N.

(** An [async] computation over the network: its promise is fulfilled
    with a value or rejected with what was thrown. *)
Definition Async (A : Type) : Type := N -> Result A * N.

Definition resolve {A} (a : A) : Async A := fun n => (Ok a, n).

(** [const a = await m; k(a)] *)
Definition andThen {A B} (m : Async A) (k : A -> Async B) : Async B :=
  fun n =>
    match m n with
    | (Ok a, n1) => k a n1
    | (Throw e, n1) => (Throw e, n1)
    end.

(** [try { body } catch (error) { handler(error) }] *)
Definition tryCatch {A} (body : Async A) (handler : Exn -> Async A) : Async A :=
  fun n =>
    match body n with
    | (Ok a, n1) => (Ok a, n1)
    | (Throw e, n1) => handler e n1
    end.

(** The body of the loop, for one message; the array
    [transactionalEmails] goes in, and comes out with the content pushed
    or as it was. *)
Definition fetchAndTest (accessToken : string)
  (transactionalEmails : list Gmail.EmailContent) (email : GmailMessage)
  : Async (list Gmail.EmailContent) :=
  tryCatch
    (andThen (getEmailContent accessToken (id email)) (fun content =>
     resolve (if Gmail.isTransactionalEmail content
              then transactionalEmails ++ [ content ]
              else transactionalEmails)))
    (fun _error => (* console.warn *) resolve transactionalEmails).

(** [for (const email of emails) { ... }] *)
Fixpoint forOf (emails : list GmailMessage) (accessToken : string)
  (transactionalEmails : list Gmail.EmailContent)
  : Async (list Gmail.EmailContent) :=
  match emails with
  | [] => resolve transactionalEmails
  | email :: rest =>
      andThen (fetchAndTest accessToken transactionalEmails email)
        (fun pushed => forOf rest accessToken pushed)
  end.

(** [filterTransactionalEmails]: the messages are fetched one after the
    other; a message whose fetch fails is logged and skipped. *)
Definition filterTransactionalEmails (emails : list GmailMessage)
  (accessToken : string) : Async (list Gmail.EmailContent) :=
  forOf emails accessToken [].

End Network.

Arguments resolve {N A} a n.
Arguments andThen {N A B} m k n.
Arguments tryCatch {N A} body handler n.
Arguments fetchAndTest {N} getEmailContent accessToken transactionalEmails
  email n.
Arguments forOf {N} getEmailContent emails accessToken transactionalEmails n.
Arguments filterTransactionalEmails {N} getEmailContent emails accessToken n.

End GmailApi.

(* ================================================================= *)
(** ** Dates (ECMA-262, Date objects)

  A time value is a number of milliseconds since the epoch, in UTC; an
  invalid date has none. *)

Module JsDate.

Definition msPerDay : Z := 86400000.

Definition Day (t : Z) : Z := t / msPerDay.
Definition TimeWithinDay (t : Z) : Z := t mod msPerDay.

Definition isLeap (y : Z) : bool :=
  ((y mod 4 =? 0) && negb (y mod 100 =? 0)) || (y mod 400 =? 0).

Definition DaysInYear (y : Z) : Z := if isLeap y then 366 else 365.

Definition DayFromYear (y : Z) : Z :=
  365 * (y - 1970) + (y - 1969) / 4 - (y - 1901) / 100 + (y - 1601) / 400.

Definition TimeFromYear (y : Z) : Z := msPerDay * DayFromYear y.

(** The year of a day number: the largest [y] with [DayFromYear y <= d],
    found next to the estimate from the mean length of a year. *)
Definition YearFromDay (d : Z) : Z :=
  let e := 1970 + (d * 400) / 146097 in
  if DayFromYear (e + 1) <=? d then e + 1
  else if d <? DayFromYear e then e - 1
  else e.

Definition YearFromTime (t : Z) : Z := YearFromDay (Day t).

Definition DayWithinYear (t : Z) : Z :=
  Day t - DayFromYear (YearFromTime t).

(** Days before month [m] (0 = January) in a year. *)
Definition daysBeforeMonth (leap : bool) (m : Z) : Z :=
  let l := if leap then 1 else 0 in
  match m with
  | 0 => 0
  | 1 => 31
  | 2 => 59 + l
  | 3 => 90 + l
  | 4 => 120 + l
  | 5 => 151 + l
  | 6 => 181 + l
  | 7 => 212 + l
  | 8 => 243 + l
  | 9 => 273 + l
  | 10 => 304 + l
  | 11 => 334 + l
  | _ => 365 + l
  end.

Definition DaysInMonth (y m : Z) : Z :=
  daysBeforeMonth (isLeap y) (m + 1) - daysBeforeMonth (isLeap y) m.

Definition MonthFromTime (t : Z) : Z :=
  let leap := isLeap (YearFromTime t) in
  let d := DayWithinYear t in
  Z.of_nat
    (List.length
       (filter (fun m => daysBeforeMonth leap m <=? d)
          [1; 2; 3; 4; 5; 6; 7; 8; 9; 10; 11])).

Definition DateFromTime (t : Z) : Z :=
  DayWithinYear t
  - daysBeforeMonth (isLeap (YearFromTime t)) (MonthFromTime t) + 1.

Definition HourFromTime (t : Z) : Z := (t / 3600000) mod 24.
Definition MinFromTime (t : Z) : Z := (t / 60000) mod 60.
Definition SecFromTime (t : Z) : Z := (t / 1000) mod 60.
Definition msFromTime (t : Z) : Z := t mod 1000.

(** [MakeDay] for a month in 0..11, and [MakeDate] at midnight. *)
Definition MakeDay (year month date : Z) : Z :=
  DayFromYear year + daysBeforeMonth (isLeap year) month + date - 1.

Definition MakeDate (day time : Z) : Z := day * msPerDay + time.

Definition TimeClip (t : Z) : option Z :=
  if Z.abs t <=? 8640000000000000 then Some t else None.

(** *** The host: what the engine and the device decide *)
Record Host : Type := {
  (** [Date.parse] on a string that is not a date-only ISO form: the other
      ISO forms and the implementation-defined fallback *)
  parseOther : string -> option Z;
  (** offset of local time from UTC, in milliseconds, at a UTC time *)
  LocalTZA : Z -> Z
}.

Definition digitVal (c : ascii) : option Z :=
  if Js.isDigit c then Some (Js.code c - 48) else None.

Definition digits2 (a b : ascii) : option Z :=
  match digitVal a, digitVal b with
  | Some x, Some y => Some (10 * x + y)
  | _, _ => None
  end.

Definition digits4 (a b c d : ascii) : option Z :=
  match digits2 a b, digits2 c d with
  | Some x, Some y => Some (100 * x + y)
  | _, _ => None
  end.

(** The date-only forms of the date-time string format, [YYYY],
    [YYYY-MM] and [YYYY-MM-DD], with the fields in range: year, month
    (1..12) and day of the month. *)
Definition parseDateOnly (s : string) : option (Z * Z * Z) :=
  match s with
  | String y1 (String y2 (String y3 (String y4 rest))) =>
      match digits4 y1 y2 y3 y4 with
      | Some y =>
          match rest with
          | EmptyString => Some (y, 1, 1)
          | String dash1 (String m1 (String m2 rest')) =>
              match digits2 m1 m2 with
              | Some m =>
                  if Ascii.eqb dash1 "-" && (1 <=? m) && (m <=? 12) then
                    match rest' with
                    | EmptyString => Some (y, m, 1)
                    | String dash2 (String d1 (String d2 EmptyString)) =>
                        match digits2 d1 d2 with
                        | Some d =>
                            if Ascii.eqb dash2 "-" && (1 <=? d)
                               && (d <=? DaysInMonth y (m - 1))
                            then Some (y, m, d)
                            else None
                        | None => None
                        end
                    | _ => None
                    end
                  else None
              | None => None
              end
          | _ => None
          end
      | None => None
      end
  | _ => None
  end.

(** [Date.parse]: a date-only form is that day's midnight in UTC. *)
Definition parse (h : Host) (s : string) : option Z :=
  match parseDateOnly s with
  | Some (y, m, d) => TimeClip (MakeDate (MakeDay y (m - 1) d) 0)
  | None =>
      match parseOther h s with
      | Some t => TimeClip t
      | None => None
      end
  end.

Definition LocalTime (h : Host) (t : Z) : Z := t + LocalTZA h t.

(** [Date.prototype.getFullYear]: the year in local time. *)
Definition getFullYear (h : Host) (t : Z) : Z :=
  YearFromTime (LocalTime h t).

Definition digitChar (n : Z) : ascii := ascii_of_nat (Z.to_nat (48 + n mod 10)).

(** [n] in decimal, padded with zeros to [w] digits. *)
Fixpoint pad (w : nat) (n : Z) : string :=
  match w with
  | O => ""
  | S w' => pad w' (n / 10) +++ String (digitChar n) ""
  end.

(** [Date.prototype.toISOString] of a valid date. *)
Definition toISOString (t : Z) : string :=
  let y := YearFromTime t in
  let year :=
    if (0 <=? y) && (y <=? 9999) then pad 4 y
    else (if y <? 0 then "-" else "+") +++ pad 6 (Z.abs y) in
  year +++ "-" +++ pad 2 (MonthFromTime t + 1) +++ "-" +++
  pad 2 (DateFromTime t) +++ "T" +++ pad 2 (HourFromTime t) +++ ":" +++
  pad 2 (MinFromTime t) +++ ":" +++ pad 2 (SecFromTime t) +++ "." +++
  pad 3 (msFromTime t) +++ "Z".

End JsDate.

(* ================================================================= *)
(** ** Dates read from a document ([src/lib/ocr.ts]) *)

Module Ocr.

(** [[-\/]] *)
Definition isSeparator (c : ascii) : bool :=
  Ascii.eqb c "-" || Ascii.eqb c "/".

Definition two (a b : ascii) : string := String a (String b "").

(** [dateStr.match(/^(\d{2})[-\/](\d{2})[-\/](\d{4})$/)]: the groups. *)
Definition matchDDMMYYYY (dateStr : string)
  : option (string * string * string) :=
  match dateStr with
  | String d1 (String d2 (String s1 (String m1 (String m2 (String s2
      (String y1 (String y2 (String y3 (String y4 EmptyString))))))))) =>
      if Js.isDigit d1 && Js.isDigit d2 && isSeparator s1
         && Js.isDigit m1 && Js.isDigit m2 && isSeparator s2
         && Js.isDigit y1 && Js.isDigit y2 && Js.isDigit y3 && Js.isDigit y4
      then Some (two d1 d2, two m1 m2, two y1 y2 +++ two y3 y4)
      else None
  | _ => None
  end.

(** [dateStr.match(/^(\d{2})[-\/](\d{2})[-\/](\d{2})$/)]: the groups, and
    [parseInt] of the last. *)
Definition matchDDMMYY (dateStr : string)
  : option (string * string * string * Z) :=
  match dateStr with
  | String d1 (String d2 (String s1 (String m1 (String m2 (String s2
      (String y1 (String y2 EmptyString))))))) =>
      match JsDate.digits2 y1 y2 with
      | Some n =>
          if Js.isDigit d1 && Js.isDigit d2 && isSeparator s1
             && Js.isDigit m1 && Js.isDigit m2 && isSeparator s2
          then Some (two d1 d2, two m1 m2, two y1 y2, n)
          else None
      | None => None
      end
  | _ => None
  end.

(** [/^\d{4}-\d{2}-\d{2}$/.test(dateStr)] *)
Definition isISODate (dateStr : string) : bool :=
  match dateStr with
  | String y1 (String y2 (String y3 (String y4 (String s1 (String m1
      (String m2 (String s2 (String d1 (String d2 EmptyString))))))))) =>
      Js.isDigit y1 && Js.isDigit y2 && Js.isDigit y3 && Js.isDigit y4
      && Ascii.eqb s1 "-" && Js.isDigit m1 && Js.isDigit m2
      && Ascii.eqb s2 "-" && Js.isDigit d1 && Js.isDigit d2
  | _ => false
  end.

(** DD-MM-YYYY or DD/MM/YYYY to YYYY-MM-DD. *)
Definition convertDateFormat (dateStr : string) : option string :=
  match matchDDMMYYYY dateStr with
  | Some (day, month, year) => Some (year +++ "-" +++ month +++ "-" +++ day)
  | None =>
      match matchDDMMYY dateStr with
      | Some (day, month, yy, n) =>
          let year := if 50 <? n then "19" +++ yy else "20" +++ yy in
          Some (year +++ "-" +++ month +++ "-" +++ day)
      | None => if isISODate dateStr then Some dateStr else None
      end
  end.

End Ocr.

(* ================================================================= *)
(** ** Parsed JSON *)

Module Json.

(** A JavaScript number. *)
Definition number : Type := PrimFloat.float.

(** What [JSON.parse] returns. *)
#[local] Set Warnings "-register-all".
Inductive value : Type :=
| JNull
| JBool (b : bool)
| JNum (n : number)
| JStr (s : string)
| JArr (items : list value)
| JObj (fields : list (string * value)).

Fixpoint assoc (k : string) (fields : list (string * value)) : option value :=
  match fields with
  | [] => None
  | (k', v) :: rest => if String.eqb k k' then Some v else assoc k rest
  end.

(** [data[k]] for a property name that is neither an index nor [length]:
    the value of the field, or [undefined] ([None]). *)
Definition prop (data : value) (k : string) : option value :=
  match data with
  | JObj fields => assoc k fields
  | _ => None
  end.

Inductive type : Type :=
| TUndefined | TObject | TBoolean | TNumber | TString.

Definition typeof (v : option value) : type :=
  match v with
  | None => TUndefined
  | Some JNull => TObject
  | Some (JBool _) => TBoolean
  | Some (JNum _) => TNumber
  | Some (JStr _) => TString
  | Some (JArr _) => TObject
  | Some (JObj _) => TObject
  end.

End Json.


(* ================================================================= *)
(** ** Core data types ([types]) *)

Definition number : Type := Json.number.

Inductive ItemCategory : Type :=
| Finance | Education | Shopping | Health | Career | Other.

Inductive ItemStatus : Type := new | paid | archived.

Inductive SourceType : Type := scan | email | manual.

Inductive GuardianAlertType : Type :=
| deadline_7day | deadline_1day | overdue | scam_warning.

(** The string of a category, as the payload and the store hold it. *)
Definition categoryName (c : ItemCategory) : string :=
  match c with
  | Finance => "Finance"
  | Education => "Education"
  | Shopping => "Shopping"
  | Health => "Health"
  | Career => "Career"
  | Other => "Other"
  end.

Record NotificationSettings : Type := {
  push_notifications_enabled : bool;
  reminder_7day_enabled : bool;
  reminder_1day_enabled : bool
}.

Module Item.
Record t : Type := {
  id : string;
  user_id : string;
  title : string;
  category : ItemCategory;
  amount : option number;
  due_date : option string;
  summary : list string;
  status : ItemStatus;
  image_url : option string;
  is_scam : bool;
  created_at : string;
  folder_id : option string;
  source_type : SourceType;
  email_id : option string;
  email_account_id : option string;
  life_stack_id : option string;
  risk_score : number
}.
End Item.

Module VaultFolder.
Record t : Type := {
  id : string;
  name : string;
  user_id : string;
  created_at : string;
  item_count : option Z
}.
End VaultFolder.

Module GuardianAlert.
Record t : Type := {
  id : string;
  user_id : string;
  item_id : string;
  alert_type : GuardianAlertType;
  trigger_date : string;
  is_dismissed : bool;
  is_sent : bool;
  created_at : string
}.
End GuardianAlert.

Module DocumentAnalysis.
Record t : Type := {
  title : string;
  amount : option number;
  due_date : option string;
  category : ItemCategory;
  summary_bullets : list string;
  is_scam : bool;
  risk_score : option number;
  scam_indicators : option (list string)
}.
End DocumentAnalysis.

(* ================================================================= *)
(** ** The AI service ([lib/ai]): response validation *)

Module Ai.
Import Json.

Definition VALID_CATEGORIES : list ItemCategory :=
  [ Finance; Education; Shopping; Health; Career; Other ].

(** [VALID_CATEGORIES.includes(v)]: the member that [v] is strictly equal
    to, if any. *)
Definition validCategory (v : option value) : option ItemCategory :=
  match v with
  | Some (JStr s) =>
      find (fun c => String.eqb (categoryName c) s) VALID_CATEGORIES
  | _ => None
  end.

(** [items.filter(item => typeof item === 'string')] *)
Definition stringItems (items : list value) : list string :=
  flat_map (fun item => match item with JStr s => [s] | _ => [] end) items.

(** The validator writes [data.amount] and [data.category] back into the
    payload before it reads them for the result; the payload is not used
    again, so the written values are local here. *)
Definition validateDocumentAnalysis (host : JsDate.Host) (response : value)
  : Result DocumentAnalysis.t :=
  match typeof (Some response), response with
  | TObject, JNull => Throw (Error "Invalid AI response: not an object")
  | TObject, data =>
      (* title *)
      match prop data "title" with
      | Some (JStr title) =>
          if String.eqb (Js.trim title) "" then
            Throw (Error
              "Invalid AI response: title must be a non-empty string")
          else
            (* amount *)
            let amount :=
              match prop data "amount" with
              | Some (JNum n) => Some n
              | _ => None
              end in
            (* due_date *)
            let dueDate :=
              match prop data "due_date" with
              | Some (JStr dueDate) =>
                  match JsDate.parse host dueDate with
                  | None => None
                  | Some parsedDate =>
                      let year := JsDate.getFullYear host parsedDate in
                      if (year <? 2000) || (2100 <? year) then None
                      else Some dueDate
                  end
              | _ => None
              end in
            (* category *)
            let category :=
              match validCategory (prop data "category") with
              | Some c => c
              | None => Other
              end in
            (* summary_bullets *)
            let summaryBullets :=
              match prop data "summary_bullets" with
              | Some (JArr items) => stringItems items
              | _ => []
              end in
            let summaryBullets :=
              match summaryBullets with
              | [] => [ "Document scanned successfully" ]
              | _ => summaryBullets
              end in
            let isScam :=
              match prop data "is_scam" with
              | Some (JBool b) => b
              | _ => false
              end in
            Ok {| DocumentAnalysis.title := title;
                  DocumentAnalysis.amount := amount;
                  DocumentAnalysis.due_date := dueDate;
                  DocumentAnalysis.category := category;
                  DocumentAnalysis.summary_bullets := summaryBullets;
                  DocumentAnalysis.is_scam := isScam;
                  DocumentAnalysis.risk_score := None;
                  DocumentAnalysis.scam_indicators := None |}
      | _ =>
          Throw (Error
            "Invalid AI response: title must be a non-empty string")
      end
  | _, _ => Throw (Error "Invalid AI response: not an object")
  end.

End Ai.

(* ================================================================= *)
(** ** The AI service ([lib/ai]): the rate limiter

    [processQueue] is one coroutine; it is suspended either in the timer
    that spaces two requests or in the request it has called.  Callers and
    the coroutine interleave at these points only, so the limiter is a
    machine stepped by two events: a caller calls [queueRequest], or the
    event loop resumes the coroutine. *)

Module RateLimiter.
Section Machine.

(** The outside world that requests act on, and what a request settles
    with: a value, or the reason of its rejection (also when it throws). *)
Variables World Value Reason : Type.

Inductive Outcome : Type :=
| Fulfilled (v : Value)
| Rejected (e : Reason).

(** A request, from its call to the settlement of its promise. *)
Definition Request : Type := World -> Outcome * World.

(** A queue entry.  [resolve] and [reject] settle the promise that
    [queueRequest] returned to the caller; [promise] is the index of that
    promise. *)
Record Entry : Type := {
  request : Request;
  promise : nat
}.

(** Where [processQueue] stands.  The suspended coroutine keeps its
    locals: in the timer, the time [now] that it read and the
    [delayNeeded] that it gave to [setTimeout]. *)
Inductive Worker : Type :=
| Idle
| Sleeping (item : Entry) (now delayNeeded : Z)
| Calling (item : Entry).

Record State : Type := {
  queue : list Entry;
  isProcessing : bool;
  lastRequestTime : Z;
  worker : Worker;
  (** the promises handed out, in order: pending, or settled *)
  promises : list (option Outcome);
  (** the promise of each request called so far, in order *)
  dispatched : list nat;
  world : World
}.

Definition minDelayMs : Z := 2000.

Definition init (w : World) : State :=
  {| queue := []; isProcessing := false; lastRequestTime := 0;
     worker := Idle; promises := []; dispatched := []; world := w |}.

(** [item.resolve(result)] or [item.reject(error)]: a pending promise takes
    the outcome. *)
Fixpoint settle (p : nat) (o : Outcome) (ps : list (option Outcome))
  : list (option Outcome) :=
  match ps, p with
  | [], _ => []
  | None :: rest, O => Some o :: rest
  | x :: rest, O => x :: rest
  | x :: rest, S p' => x :: settle p' o rest
  end.

(** [this.lastRequestTime = Date.now(); await item.request()] *)
Definition call (item : Entry) (now : Z) (s : State) : State :=
  {| queue := queue s; isProcessing := isProcessing s;
     lastRequestTime := now;
     worker := Calling item;
     promises := promises s;
     dispatched := dispatched s ++ [promise item];
     world := world s |}.

(** The head of the [while] loop, and the line after the loop. *)
Definition next (now : Z) (s : State) : State :=
  match queue s with
  | [] =>
      {| queue := []; isProcessing := false;
         lastRequestTime := lastRequestTime s; worker := Idle;
         promises := promises s; dispatched := dispatched s;
         world := world s |}
  | item :: rest =>
      let timeSinceLastRequest := now - lastRequestTime s in
      let delayNeeded := Z.max 0 (minDelayMs - timeSinceLastRequest) in
      let s' :=
        {| queue := rest; isProcessing := isProcessing s;
           lastRequestTime := lastRequestTime s;
           worker := Sleeping item now delayNeeded;
           promises := promises s; dispatched := dispatched s;
           world := world s |} in
      if 0 <? delayNeeded then s' else call item now s'
  end.

Definition processQueue (now : Z) (s : State) : State :=
  if isProcessing s || (Z.of_nat (List.length (queue s)) =? 0) then s
  else
    next now
      {| queue := queue s; isProcessing := true;
         lastRequestTime := lastRequestTime s; worker := worker s;
         promises := promises s; dispatched := dispatched s;
         world := world s |}.

(** [queueRequest(request)] at time [now]: a new promise, whose settling
    functions go to the back of the queue with the request. *)
Definition queueRequest (r : Request) (now : Z) (s : State) : State :=
  let item := {| request := r; promise := List.length (promises s) |} in
  processQueue now
    {| queue := queue s ++ [item]; isProcessing := isProcessing s;
       lastRequestTime := lastRequestTime s; worker := worker s;
       promises := promises s ++ [None]; dispatched := dispatched s;
       world := world s |}.

(** The coroutine is resumed at time [now]: after the timer it calls the
    request; after the request it settles the caller's promise with the
    request's outcome and goes round the loop. *)
Definition resume (now : Z) (s : State) : State :=
  match worker s with
  | Idle => s
  | Sleeping item _ _ => call item now s
  | Calling item =>
      let '(outcome, w) := request item (world s) in
      next now
        {| queue := queue s; isProcessing := isProcessing s;
           lastRequestTime := lastRequestTime s; worker := worker s;
           promises := settle (promise item) outcome (promises s);
           dispatched := dispatched s;
           world := w |}
  end.

Inductive Event : Type :=
| QueueRequest (r : Request) (now : Z)
| Resume (now : Z).

Definition step (s : State) (e : Event) : State :=
  match e with
  | QueueRequest r now => queueRequest r now s
  | Resume now => resume now s
  end.

Definition run (events : list Event) (s : State) : State :=
  fold_left step events s.

(** The requests submitted by a run of events, in order of submission. *)
Definition submitted (events : list Event) : list Request :=
  flat_map (fun e => match e with QueueRequest r _ => [r] | Resume _ => [] end)
    events.

(** The requests run one after the other, each on the world the one before
    left. *)
Fixpoint runAll (rs : list Request) (w : World) : list Outcome * World :=
  match rs with
  | [] => ([], w)
  | r :: rest =>
      let '(o, w1) := r w in
      let '(os, w2) := runAll rest w1 in
      (o :: os, w2)
  end.

End Machine.

Arguments Fulfilled {Value Reason} v.
Arguments Rejected {Value Reason} e.
Arguments request {World Value Reason} e.
Arguments promise {World Value Reason} e.
Arguments Idle {World Value Reason}.
Arguments Sleeping {World Value Reason} item now delayNeeded.
Arguments Calling {World Value Reason} item.
Arguments queue {World Value Reason} s.
Arguments isProcessing {World Value Reason} s.
Arguments lastRequestTime {World Value Reason} s.
Arguments worker {World Value Reason} s.
Arguments promises {World Value Reason} s.
Arguments dispatched {World Value Reason} s.
Arguments world {World Value Reason} s.
Arguments init {World Value Reason} w.
Arguments settle {Value Reason} p o ps.
Arguments call {World Value Reason} item now s.
Arguments next {World Value Reason} now s.
Arguments processQueue {World Value Reason} now s.
Arguments queueRequest {World Value Reason} r now s.
Arguments resume {World Value Reason} now s.
Arguments QueueRequest {World Value Reason} r now.
Arguments Resume {World Value Reason} now.
Arguments step {World Value Reason} s e.
Arguments run {World Value Reason} events s.
Arguments submitted {World Value Reason} events.
Arguments runAll {World Value Reason} rs w.

End RateLimiter.

(* ================================================================= *)
(** ** The application's world

    The stores ([zustand]) and what they act on: the device's
    [AsyncStorage], its clock and random numbers, and the Supabase
    project. *)

Module AlertData.
(** [Omit<GuardianAlert, 'id' | 'created_at'>] *)
Record t : Type := {
  user_id : string;
  item_id : string;
  alert_type : GuardianAlertType;
  trigger_date : string;
  is_dismissed : bool;
  is_sent : bool
}.
End AlertData.

Module AsyncStorage.
(** The keys of [STORAGE_KEYS] that the code below reads; a key holds the
    JSON text of a list, which is kept here as the list, or nothing. *)
Record t : Type := {
  ITEMS : option (list Item.t);
  FOLDERS : option (list VaultFolder.t);
  ALERTS : option (list GuardianAlert.t)
}.

Definition setITEMS (v : list Item.t) (st : t) : t :=
  {| ITEMS := Some v; FOLDERS := FOLDERS st; ALERTS := ALERTS st |}.
Definition setFOLDERS (v : list VaultFolder.t) (st : t) : t :=
  {| ITEMS := ITEMS st; FOLDERS := Some v; ALERTS := ALERTS st |}.
Definition setALERTS (v : list GuardianAlert.t) (st : t) : t :=
  {| ITEMS := ITEMS st; FOLDERS := FOLDERS st; ALERTS := Some v |}.
End AsyncStorage.

Module GuardianState.
Record t : Type := {
  alerts : list GuardianAlert.t;
  unreadCount : Z;
  isMonitoring : bool;
  isLoading : bool;
  error : option string
}.
End GuardianState.

Module ItemsState.
(** The fields of the items store that the actions below read or write
    (the pagination record is left out). *)
Record t : Type := {
  items : list Item.t;
  upcomingItems : list Item.t;
  folders : list VaultFolder.t;
  selectedItem : option Item.t;
  selectedFolder : option VaultFolder.t;
  isLoading : bool;
  isScanning : bool;
  scanProgress : string;
  error : option string
}.
End ItemsState.

Module ScanResult.
Record t : Type := {
  analysis : DocumentAnalysis.t;
  imageUrl : string;
  autoAssignedFolderId : option string;
  autoAssignedFolderName : option string;
  alertCreated : bool;
  alertType : option GuardianAlertType
}.
End ScanResult.

Module OCRResult.
(** [blocks] holds the text of the lines of each recognized block. *)
Record t : Type := {
  fullText : string;
  blocks : list (list string);
  lines : list string;
  confidence : number
}.
End OCRResult.

Module AlertInfo.
(** What [createAlertForItem] reports. *)
Record t : Type := {
  created : bool;
  alertType : option GuardianAlertType
}.
End AlertInfo.

(** The Supabase client, over the state [R] of the project's database. *)
Record Supabase (R : Type) : Type := {
  getItems : string -> R -> Result (list Item.t) * R;
  updateItemStatus : string -> ItemStatus -> R -> Result unit * R;
  createFolder : string -> string -> R -> Result VaultFolder.t * R;
  getGuardianAlerts : string -> R -> Result (list GuardianAlert.t) * R;
  createGuardianAlert : AlertData.t -> R -> Result GuardianAlert.t * R;
  dismissGuardianAlert : string -> R -> Result unit * R
}.
Arguments getItems {R}.
Arguments updateItemStatus {R}.
Arguments createFolder {R}.
Arguments getGuardianAlerts {R}.
Arguments createGuardianAlert {R}.
Arguments dismissGuardianAlert {R}.

(** The engine and the services a scan calls. *)
Record Platform : Type := {
  host : JsDate.Host;
  (** the n-th value of [Math.random() * 16 | 0] *)
  random16 : nat -> Z;
  (** [JSON.parse]; [None] is a [SyntaxError] *)
  JSON_parse : string -> option Json.value;
  (** ML Kit: [TextRecognition.recognize(imageUri)], the line texts of each
      block *)
  recognize : string -> Result (list (list string));
  (** Groq: [chat.completions.create] for a model and the contents of the
      messages, giving [choices[0]?.message?.content] *)
  completions_create : string -> list string -> Result (option string);
  (** reading the image and uploading it to the image host: the public URL
      when the upload answered with one *)
  publishImage : string -> Result (option string);
  (** [getUserFriendlyMessage] of [lib/errorHandler] *)
  getUserFriendlyMessage : Exn -> string
}.

Module Stores.
Section World.

Variable Remote : Type.
Variable supabase : Supabase Remote.
Variable platform : Platform.
(** The system prompt of the document analysis, a constant text. *)
Variable INDIAN_DOCUMENT_PROMPT : string.

Record World : Type := {
  storage : AsyncStorage.t;
  (** for each coming [AsyncStorage] call, whether it fails *)
  faults : list bool;
  (** [Date.now()] *)
  time : Z;
  (** the number of [Math.random()] calls so far *)
  draws : nat;
  (** [isLocalAuthUser] of the auth store *)
  isLocalAuthUser : bool;
  guardian : GuardianState.t;
  itemsStore : ItemsState.t;
  remote : Remote
}.

Definition withStorage (f : AsyncStorage.t -> AsyncStorage.t) (w : World) :=
  {| storage := f (storage w); faults := faults w; time := time w;
     draws := draws w; isLocalAuthUser := isLocalAuthUser w;
     guardian := guardian w; itemsStore := itemsStore w;
     remote := remote w |}.
Definition withFaults (l : list bool) (w : World) :=
  {| storage := storage w; faults := l; time := time w;
     draws := draws w; isLocalAuthUser := isLocalAuthUser w;
     guardian := guardian w; itemsStore := itemsStore w;
     remote := remote w |}.
Definition withTime (t : Z) (w : World) :=
  {| storage := storage w; faults := faults w; time := t;
     draws := draws w; isLocalAuthUser := isLocalAuthUser w;
     guardian := guardian w; itemsStore := itemsStore w;
     remote := remote w |}.
Definition withDraws (n : nat) (w : World) :=
  {| storage := storage w; faults := faults w; time := time w;
     draws := n; isLocalAuthUser := isLocalAuthUser w;
     guardian := guardian w; itemsStore := itemsStore w;
     remote := remote w |}.
Definition withGuardian (f : GuardianState.t -> GuardianState.t) (w : World) :=
  {| storage := storage w; faults := faults w; time := time w;
     draws := draws w; isLocalAuthUser := isLocalAuthUser w;
     guardian := f (guardian w); itemsStore := itemsStore w;
     remote := remote w |}.
Definition withItemsStore (f : ItemsState.t -> ItemsState.t) (w : World) :=
  {| storage := storage w; faults := faults w; time := time w;
     draws := draws w; isLocalAuthUser := isLocalAuthUser w;
     guardian := guardian w; itemsStore := f (itemsStore w);
     remote := remote w |}.
Definition withRemote (r : Remote) (w : World) :=
  {| storage := storage w; faults := faults w; time := time w;
     draws := draws w; isLocalAuthUser := isLocalAuthUser w;
     guardian := guardian w; itemsStore := itemsStore w;
     remote := r |}.

(** *** Asynchronous code: state and exceptions *)

Definition M (A : Type) : Type := World -> Result A * World.

Definition ret {A} (a : A) : M A := fun w => (Ok a, w).

Definition bind {A B} (m : M A) (k : A -> M B) : M B :=
  fun w =>
    match m w with
    | (Ok a, w') => k a w'
    | (Throw e, w') => (Throw e, w')
    end.

Definition throw {A} (e : Exn) : M A := fun w => (Throw e, w).

(** [try { m } catch (e) { handler e }] *)
Definition try {A} (m : M A) (handler : Exn -> M A) : M A :=
  fun w =>
    match m w with
    | (Ok a, w') => (Ok a, w')
    | (Throw e, w') => handler e w'
    end.

Definition gets {A} (f : World -> A) : M A := fun w => (Ok (f w), w).
Definition modify (f : World -> World) : M unit := fun w => (Ok tt, f w).

(** A call of the Supabase client. *)
Definition call {A} (f : Remote -> Result A * Remote) : M A :=
  fun w => let '(r, db) := f (remote w) in (r, withRemote db w).

(** A loop [for (const x of l) { body x }]. *)
Fixpoint forEach {A} (l : list A) (body : A -> M unit) : M unit :=
  match l with
  | [] => ret tt
  | x :: rest => bind (body x) (fun _ => forEach rest body)
  end.

Notation "x <- m ;; k" := (bind m (fun x => k))
  (at level 61, m at next level, right associativity).
Notation "m ;;; k" := (bind m (fun _ => k))
  (at level 61, right associativity).

(** [isTestUser] of the auth store: local storage is used for every
    user. *)
Definition isTestUser (w : World) (userId : string) : bool :=
  if isLocalAuthUser w then true else true.

(** *** AsyncStorage *)

Definition storageCall : M unit :=
  fun w =>
    match faults w with
    | true :: rest => (Throw (Error "AsyncStorage"), withFaults rest w)
    | false :: rest => (Ok tt, withFaults rest w)
    | [] => (Ok tt, w)
    end.

Definition getItem {A} (key : AsyncStorage.t -> option A) : M (option A) :=
  storageCall ;;; gets (fun w => key (storage w)).

Definition setItem (write : AsyncStorage.t -> AsyncStorage.t) : M unit :=
  storageCall ;;; modify (withStorage write).

(** *** Local storage ([src/lib/localStorage.ts]) *)

Definition hexDigit (v : Z) : ascii :=
  match String.get (Z.to_nat v) "0123456789abcdef" with
  | Some c => c
  | None => "0"%char
  end.

(** [template.replace(/[xy]/g, c => ...)] with the draws from [n] on. *)
Fixpoint fillTemplate (template : string) (n : nat) : string * nat :=
  match template with
  | EmptyString => (EmptyString, n)
  | String c rest =>
      if Ascii.eqb c "x" || Ascii.eqb c "y" then
        let r := random16 platform n in
        let v := if Ascii.eqb c "x" then r else Z.lor (Z.land r 3) 8 in
        let '(s, n') := fillTemplate rest (S n) in
        (String (hexDigit v) s, n')
      else
        let '(s, n') := fillTemplate rest n in
        (String c s, n')
  end.

Definition generateUUID : M string :=
  fun w =>
    let '(s, n) :=
      fillTemplate "xxxxxxxx-xxxx-4xxx-yxxx-xxxxxxxxxxxx" (draws w) in
    (Ok s, withDraws n w).

(** [new Date().toISOString()] *)
Definition nowISOString : M string :=
  gets (fun w => JsDate.toISOString (time w)).

Definition orEmpty {A} (data : option (list A)) : list A :=
  match data with
  | Some l => l
  | None => []
  end.

Definition getLocalItems (userId : string) : M (list Item.t) :=
  try
    (data <- getItem AsyncStorage.ITEMS ;;
     match data with
     | None => ret []
     | Some items =>
         ret (filter (fun item => String.eqb (Item.user_id item) userId) items)
     end)
    (fun _ => ret []).

Definition getAllLocalItems : M (list Item.t) :=
  try (data <- getItem AsyncStorage.ITEMS ;; ret (orEmpty data))
    (fun _ => ret []).

(** [items.findIndex(p)], and [items[index] = f(items[index])] *)
Fixpoint findIndex {A} (p : A -> bool) (l : list A) : option nat :=
  match l with
  | [] => None
  | x :: rest =>
      if p x then Some O
      else match findIndex p rest with
           | Some i => Some (S i)
           | None => None
           end
  end.

Fixpoint updateAt {A} (i : nat) (f : A -> A) (l : list A) : list A :=
  match l, i with
  | [], _ => []
  | x :: rest, O => f x :: rest
  | x :: rest, S i' => x :: updateAt i' f rest
  end.

(** [updates] is the change that spreading [Partial<Item>] over an item
    makes. *)
Definition updateLocalItem (itemId : string) (updates : Item.t -> Item.t)
  : M unit :=
  items <- getAllLocalItems ;;
  match findIndex (fun i => String.eqb (Item.id i) itemId) items with
  | None => throw (Error "Item not found")
  | Some index =>
      setItem (AsyncStorage.setITEMS (updateAt index updates items))
  end.

Definition getLocalAlerts (userId : string) : M (list GuardianAlert.t) :=
  try
    (data <- getItem AsyncStorage.ALERTS ;;
     match data with
     | None => ret []
     | Some alerts =>
         ret (filter (fun a => String.eqb (GuardianAlert.user_id a) userId)
                alerts)
     end)
    (fun _ => ret []).

Definition getAllLocalAlerts : M (list GuardianAlert.t) :=
  try (data <- getItem AsyncStorage.ALERTS ;; ret (orEmpty data))
    (fun _ => ret []).

Definition createLocalAlert (alert : AlertData.t) : M GuardianAlert.t :=
  id <- generateUUID ;;
  created_at <- nowISOString ;;
  let newAlert :=
    {| GuardianAlert.id := id;
       GuardianAlert.user_id := AlertData.user_id alert;
       GuardianAlert.item_id := AlertData.item_id alert;
       GuardianAlert.alert_type := AlertData.alert_type alert;
       GuardianAlert.trigger_date := AlertData.trigger_date alert;
       GuardianAlert.is_dismissed := AlertData.is_dismissed alert;
       GuardianAlert.is_sent := AlertData.is_sent alert;
       GuardianAlert.created_at := created_at |} in
  alerts <- getAllLocalAlerts ;;
  setItem (AsyncStorage.setALERTS (alerts ++ [newAlert])) ;;;
  ret newAlert.

Definition updateLocalAlert (alertId : string)
  (updates : GuardianAlert.t -> GuardianAlert.t) : M unit :=
  alerts <- getAllLocalAlerts ;;
  match findIndex (fun a => String.eqb (GuardianAlert.id a) alertId) alerts with
  | None => throw (Error "Alert not found")
  | Some index =>
      setItem (AsyncStorage.setALERTS (updateAt index updates alerts))
  end.

Definition getAllLocalFolders : M (list VaultFolder.t) :=
  try (data <- getItem AsyncStorage.FOLDERS ;; ret (orEmpty data))
    (fun _ => ret []).

Definition createLocalFolder (name userId : string) : M VaultFolder.t :=
  id <- generateUUID ;;
  created_at <- nowISOString ;;
  let newFolder :=
    {| VaultFolder.id := id;
       VaultFolder.name := name;
       VaultFolder.user_id := userId;
       VaultFolder.created_at := created_at;
       VaultFolder.item_count := Some 0 |} in
  folders <- getAllLocalFolders ;;
  setItem (AsyncStorage.setFOLDERS (folders ++ [newFolder])) ;;;
  ret newFolder.

(** *** The guardian store ([src/stores/guardianStore.ts]) *)

Definition setGuardian (f : GuardianState.t -> GuardianState.t) : M unit :=
  modify (withGuardian f).

Definition dismissed (a : GuardianAlert.t) : GuardianAlert.t :=
  {| GuardianAlert.id := GuardianAlert.id a;
     GuardianAlert.user_id := GuardianAlert.user_id a;
     GuardianAlert.item_id := GuardianAlert.item_id a;
     GuardianAlert.alert_type := GuardianAlert.alert_type a;
     GuardianAlert.trigger_date := GuardianAlert.trigger_date a;
     GuardianAlert.is_dismissed := true;
     GuardianAlert.is_sent := GuardianAlert.is_sent a;
     GuardianAlert.created_at := GuardianAlert.created_at a |}.

(** [error instanceof Error ? error.message : fallback] *)
Definition messageOr (e : Exn) (fallback : string) : string :=
  if instanceofError e then message e else fallback.

Definition fetchAlerts (userId : string) : M unit :=
  setGuardian (fun g =>
    {| GuardianState.alerts := GuardianState.alerts g;
       GuardianState.unreadCount := GuardianState.unreadCount g;
       GuardianState.isMonitoring := GuardianState.isMonitoring g;
       GuardianState.isLoading := true;
       GuardianState.error := None |}) ;;;
  try
    (test <- gets (fun w => isTestUser w userId) ;;
     alerts <- (if test : bool then getLocalAlerts userId
                else call (getGuardianAlerts supabase userId)) ;;
     let unreadCount :=
       Z.of_nat (List.length
         (filter (fun a => negb (GuardianAlert.is_dismissed a)) alerts)) in
     setGuardian (fun g =>
       {| GuardianState.alerts := alerts;
          GuardianState.unreadCount := unreadCount;
          GuardianState.isMonitoring := GuardianState.isMonitoring g;
          GuardianState.isLoading := false;
          GuardianState.error := GuardianState.error g |}))
    (fun error =>
       (* UUID errors are handled silently *)
       if negb (Js.includes (message error) "uuid") &&
          negb (match code error with
                | Some c => Js.includes c "22P02"
                | None => false
                end)
       then
         setGuardian (fun g =>
           {| GuardianState.alerts := GuardianState.alerts g;
              GuardianState.unreadCount := GuardianState.unreadCount g;
              GuardianState.isMonitoring := GuardianState.isMonitoring g;
              GuardianState.isLoading := false;
              GuardianState.error :=
                Some (messageOr error "Failed to fetch alerts") |})
       else
         setGuardian (fun g =>
           {| GuardianState.alerts := GuardianState.alerts g;
              GuardianState.unreadCount := GuardianState.unreadCount g;
              GuardianState.isMonitoring := GuardianState.isMonitoring g;
              GuardianState.isLoading := false;
              GuardianState.error := GuardianState.error g |})).

(** [triggerDate.toISOString()], a [RangeError] on an invalid date *)
Definition toISOString (d : option Z) : M string :=
  match d with
  | Some t => ret (JsDate.toISOString t)
  | None =>
      throw {| instanceofError := true; message := "Invalid time value";
               code := None |}
  end.

Definition createAlert (userId itemId : string)
  (alertType : GuardianAlertType) (triggerDate : option Z) : M unit :=
  try
    (trigger_date <- toISOString triggerDate ;;
     let alertData :=
       {| AlertData.user_id := userId;
          AlertData.item_id := itemId;
          AlertData.alert_type := alertType;
          AlertData.trigger_date := trigger_date;
          AlertData.is_dismissed := false;
          AlertData.is_sent := false |} in
     test <- gets (fun w => isTestUser w userId) ;;
     newAlert <- (if test : bool then createLocalAlert alertData
                  else call (createGuardianAlert supabase alertData)) ;;
     setGuardian (fun state =>
       {| GuardianState.alerts := GuardianState.alerts state ++ [newAlert];
          GuardianState.unreadCount := GuardianState.unreadCount state + 1;
          GuardianState.isMonitoring := GuardianState.isMonitoring state;
          GuardianState.isLoading := GuardianState.isLoading state;
          GuardianState.error := GuardianState.error state |}))
    (fun _ => (* a failed creation is only logged *) ret tt).

(** [Math.ceil((dueDate.getTime() - now.getTime()) / (1000*60*60*24))];
    no number ([NaN]) when the due date is invalid. *)
Definition daysUntilDue (dueDate : option Z) (now : Z) : option Z :=
  match dueDate with
  | Some due => Some (- ((now - due) / JsDate.msPerDay))
  | None => None
  end.

Definition defaultSettings : NotificationSettings :=
  {| push_notifications_enabled := true;
     reminder_7day_enabled := true;
     reminder_1day_enabled := true |}.

(** [!item.due_date]: [null] and the empty string are falsy. *)
Definition noDueDate (item : Item.t) : bool :=
  match Item.due_date item with
  | None => true
  | Some s => String.eqb s ""
  end.

Definition isPaidOrArchived (item : Item.t) : bool :=
  match Item.status item with
  | new => false
  | paid => true
  | archived => true
  end.

Definition setMonitoring (b : bool) (err : option (option string)) : M unit :=
  setGuardian (fun g =>
    {| GuardianState.alerts := GuardianState.alerts g;
       GuardianState.unreadCount := GuardianState.unreadCount g;
       GuardianState.isMonitoring := b;
       GuardianState.isLoading := GuardianState.isLoading g;
       GuardianState.error :=
         match err with
         | Some e => e
         | None => GuardianState.error g
         end |}).

(** The body of the loop of [checkDeadlines], for the [alerts] read from
    the store before the loop. *)
Definition checkItem (userId : string) (settings : NotificationSettings)
  (alerts : list GuardianAlert.t) (now : Z) (item : Item.t) : M unit :=
  if noDueDate item || isPaidOrArchived item then ret tt
  else
    let dueDate := JsDate.parse (host platform) (match Item.due_date item with
                                                 | Some s => s
                                                 | None => ""
                                                 end) in
    let days := daysUntilDue dueDate now in
    let existingAlert :=
      find (fun a => String.eqb (GuardianAlert.item_id a) (Item.id item)
                     && negb (GuardianAlert.is_dismissed a)) alerts in
    match existingAlert with
    | Some _ => ret tt
    | None =>
        match days with
        | None => ret tt
        | Some daysUntilDue =>
            if daysUntilDue <? 0 then
              createAlert userId (Item.id item) overdue dueDate
            else if (daysUntilDue <=? 1) && reminder_1day_enabled settings then
              createAlert userId (Item.id item) deadline_1day dueDate
            else if (daysUntilDue <=? 7) && (1 <? daysUntilDue)
                    && reminder_7day_enabled settings then
              createAlert userId (Item.id item) deadline_7day dueDate
            else ret tt
        end
    end.

Definition checkDeadlines (userId : string)
  (notificationSettings : option NotificationSettings) : M unit :=
  setMonitoring true (Some None) ;;;
  try
    (test <- gets (fun w => isTestUser w userId) ;;
     items <- (if test : bool then getLocalItems userId
               else call (getItems supabase userId)) ;;
     alerts <- gets (fun w => GuardianState.alerts (guardian w)) ;;
     now <- gets time ;;
     let settings :=
       match notificationSettings with
       | Some s => s
       | None => defaultSettings
       end in
     if negb (push_notifications_enabled settings) then
       setMonitoring false None
     else
       forEach items (checkItem userId settings alerts now) ;;;
       fetchAlerts userId ;;;
       setMonitoring false None)
    (fun error =>
       setMonitoring false
         (Some (Some (messageOr error "Failed to check deadlines")))).

Definition dismissAlert (alertId : string) : M unit :=
  try
    (alerts <- gets (fun w => GuardianState.alerts (guardian w)) ;;
     let alert :=
       find (fun a => String.eqb (GuardianAlert.id a) alertId) alerts in
     w <- gets (fun w => w) ;;
     match alert with
     | Some a =>
         if isTestUser w (GuardianAlert.user_id a) then
           updateLocalAlert alertId dismissed
         else call (dismissGuardianAlert supabase alertId)
     | None => call (dismissGuardianAlert supabase alertId)
     end ;;;
     setGuardian (fun state =>
       {| GuardianState.alerts :=
            map (fun a => if String.eqb (GuardianAlert.id a) alertId
                          then dismissed a else a)
              (GuardianState.alerts state);
          GuardianState.unreadCount :=
            Z.max 0 (GuardianState.unreadCount state - 1);
          GuardianState.isMonitoring := GuardianState.isMonitoring state;
          GuardianState.isLoading := GuardianState.isLoading state;
          GuardianState.error := GuardianState.error state |}))
    (fun error =>
       setGuardian (fun g =>
         {| GuardianState.alerts := GuardianState.alerts g;
            GuardianState.unreadCount := GuardianState.unreadCount g;
            GuardianState.isMonitoring := GuardianState.isMonitoring g;
            GuardianState.isLoading := GuardianState.isLoading g;
            GuardianState.error :=
              Some (messageOr error "Failed to dismiss alert") |})).

Definition dismissAlertsForItem (itemId : string) : M unit :=
  alerts <- gets (fun w => GuardianState.alerts (guardian w)) ;;
  let itemAlerts :=
    filter (fun a => String.eqb (GuardianAlert.item_id a) itemId
                     && negb (GuardianAlert.is_dismissed a)) alerts in
  forEach itemAlerts (fun alert => dismissAlert (GuardianAlert.id alert)).

(** *** The AI service ([lib/ai]): document analysis

    The rate limiter hands a request's own outcome to its caller (module
    [RateLimiter]); with one caller it is the call itself. *)

Definition queueRequest {A} (request : Result A) : Result A := request.

Definition newline : string := String (ascii_of_nat 10) "".
Definition quote : string := String (ascii_of_nat 34) "".

(** [extractTextFromImage] of [src/lib/ocr.ts] *)
Definition extractTextFromImage (imageUri : string) : Result OCRResult.t :=
  match recognize platform imageUri with
  | Ok blocks =>
      let lines :=
        flat_map
          (fun block =>
             flat_map
               (fun line =>
                  let text := Js.trim line in
                  if String.eqb text "" then [] else [text])
               block)
          blocks in
      let fullText := Js.join newline lines in
      Ok {| OCRResult.fullText := fullText;
            OCRResult.blocks := blocks;
            OCRResult.lines := lines;
            OCRResult.confidence := 0x1.e666666666666p-1%float (* 0.95 *) |}
  | Throw error =>
      Throw (Error ("OCR failed: " +++
                    (if String.eqb (message error) "" then "Unknown error"
                     else message error)))
  end.

Definition leadingSpace (s : string) : string :=
  String.substring 0
    (String.length s - String.length (Js.trimStart s)) s.

Definition fence : string := "```".

(** The shortest text after which [\s*```] matches, with what matched
    there. *)
Fixpoint lazyToFence (s : string) : option (string * string) :=
  if Js.startsWith (Js.trimStart s) fence then
    Some ("", leadingSpace s +++ fence)
  else
    match s with
    | EmptyString => None
    | String c r =>
        match lazyToFence r with
        | Some (g, closing) => Some (String c g, closing)
        | None => None
        end
    end.

(** [content.match(/tag\s*([\s\S]*?)\s*```/)]: the match and its group. *)
Fixpoint matchFence (tag : string) (s : string) : option (string * string) :=
  let here :=
    if Js.startsWith s tag then
      let rest :=
        String.substring (String.length tag)
          (String.length s - String.length tag) s in
      match lazyToFence (Js.trimStart rest) with
      | Some (g, closing) =>
          Some (tag +++ leadingSpace rest +++ g +++ closing, g)
      | None => None
      end
    else None in
  match here with
  | Some m => Some m
  | None =>
      match s with
      | EmptyString => None
      | String _ r => matchFence tag r
      end
  end.

(** The longest prefix that ends in a closing brace. *)
Fixpoint toLastBrace (s : string) : option string :=
  match s with
  | EmptyString => None
  | String c r =>
      match toLastBrace r with
      | Some p => Some (String c p)
      | None => if Ascii.eqb c "}" then Some (String c "") else None
      end
  end.

(** [content.match(/\{[\s\S]*\}/)] *)
Fixpoint matchBraces (s : string) : option string :=
  match s with
  | EmptyString => None
  | String c r =>
      if Ascii.eqb c "{" then
        match toLastBrace r with
        | Some p => Some (String c p)
        | None => matchBraces r
        end
      else matchBraces r
  end.

(** [jsonMatch ? (jsonMatch[1] || jsonMatch[0]) : content] *)
Definition jsonString (content : string) : string :=
  let pick (m : string * string) :=
    if String.eqb (snd m) "" then fst m else snd m in
  match matchFence (fence +++ "json") content with
  | Some m => pick m
  | None =>
      match matchFence fence content with
      | Some m => pick m
      | None =>
          match matchBraces content with
          | Some whole => whole
          | None => content
          end
      end
  end.

Definition parseResponse (content : string) : Result Json.value :=
  match JSON_parse platform (Js.trim (jsonString content)) with
  | Some parsed => Ok parsed
  | None => Throw (Error "Failed to parse AI response")
  end.

Definition userMessage (ocrText : string) : string :=
  "Analyze this Indian document OCR text and extract information:" +++
  newline +++ newline +++ "=== DOCUMENT TEXT ===" +++ newline +++
  ocrText +++ newline +++ "=== END TEXT ===" +++ newline +++ newline +++
  "IMPORTANT REMINDERS:" +++ newline +++
  "1. Identify the CORRECT document type from the text" +++ newline +++
  "2. Use the HOLDER'S name in title (not father's name from S/O)" +++
  newline +++
  "3. Use VALIDITY/EXPIRY date as due_date (NOT the DOB!)" +++ newline +++
  "4. For CREDIT CARDS: " +++ quote +++ "VALID THRU" +++ quote +++
  " format is MM/YY (e.g., " +++ quote +++ "01/31" +++ quote +++
  " = January 2031 → " +++ quote +++ "2031-01-31" +++ quote +++ ")" +++
  newline +++ "5. Convert all dates to YYYY-MM-DD format" +++ newline +++
  newline +++ "Respond with JSON only.".

Definition analyzeResponse (response : Result (option string))
  : Result DocumentAnalysis.t :=
  match response with
  | Throw e => Throw e
  | Ok content =>
      match content with
      | None => Throw (Error "No response from AI")
      | Some "" => Throw (Error "No response from AI")
      | Some content =>
          match parseResponse content with
          | Throw e => Throw e
          | Ok parsedResponse =>
              Ai.validateDocumentAnalysis (host platform) parsedResponse
          end
      end
  end.

Definition analyzeDocumentText (ocrText : string)
  : Result DocumentAnalysis.t :=
  queueRequest
    (analyzeResponse
       (completions_create platform "llama-3.3-70b-versatile"
          [ INDIAN_DOCUMENT_PROMPT; userMessage ocrText ])).

Definition mockResponse : DocumentAnalysis.t :=
  {| DocumentAnalysis.title := "Driving Licence - Test User";
     DocumentAnalysis.amount := None;
     DocumentAnalysis.due_date := Some "2042-01-26";
     DocumentAnalysis.category := Other;
     DocumentAnalysis.summary_bullets :=
       [ "Driving Licence"; "Valid for LMV"; "Valid until 2042" ];
     DocumentAnalysis.is_scam := false;
     DocumentAnalysis.risk_score := Some 0%float;
     DocumentAnalysis.scam_indicators := None |}.

Definition analyzeDocument (imageUrl : string) (isTestMode : bool)
  : Result DocumentAnalysis.t :=
  if isTestMode || Js.startsWith imageUrl "file://"
     || Js.startsWith imageUrl "/"
  then Ok mockResponse
  else
    queueRequest
      (analyzeResponse
         (completions_create platform
            "meta-llama/llama-4-maverick-17b-128e-instruct"
            [ INDIAN_DOCUMENT_PROMPT; imageUrl ])).

(** An awaited call of a service. *)
Definition await {A} (r : Result A) : M A := fun w => (r, w).

(** *** The items store ([src/stores/itemsStore.ts]) *)

Definition setItemsStore (f : ItemsState.t -> ItemsState.t) : M unit :=
  modify (withItemsStore f).

Definition withStatus (st : ItemStatus) (item : Item.t) : Item.t :=
  {| Item.id := Item.id item;
     Item.user_id := Item.user_id item;
     Item.title := Item.title item;
     Item.category := Item.category item;
     Item.amount := Item.amount item;
     Item.due_date := Item.due_date item;
     Item.summary := Item.summary item;
     Item.status := st;
     Item.image_url := Item.image_url item;
     Item.is_scam := Item.is_scam item;
     Item.created_at := Item.created_at item;
     Item.folder_id := Item.folder_id item;
     Item.source_type := Item.source_type item;
     Item.email_id := Item.email_id item;
     Item.email_account_id := Item.email_account_id item;
     Item.life_stack_id := Item.life_stack_id item;
     Item.risk_score := Item.risk_score item |}.

Definition markAsPaid (itemId : string) : M unit :=
  try
    (items <- gets (fun w => ItemsState.items (itemsStore w)) ;;
     let existingItem :=
       find (fun i => String.eqb (Item.id i) itemId) items in
     w <- gets (fun w => w) ;;
     match existingItem with
     | Some i =>
         if isTestUser w (Item.user_id i) then
           updateLocalItem itemId (withStatus paid)
         else call (updateItemStatus supabase itemId paid)
     | None => call (updateItemStatus supabase itemId paid)
     end ;;;
     setItemsStore (fun state =>
       {| ItemsState.items :=
            map (fun item => if String.eqb (Item.id item) itemId
                             then withStatus paid item else item)
              (ItemsState.items state);
          ItemsState.upcomingItems :=
            filter (fun item => negb (String.eqb (Item.id item) itemId))
              (ItemsState.upcomingItems state);
          ItemsState.folders := ItemsState.folders state;
          ItemsState.selectedItem := ItemsState.selectedItem state;
          ItemsState.selectedFolder := ItemsState.selectedFolder state;
          ItemsState.isLoading := ItemsState.isLoading state;
          ItemsState.isScanning := ItemsState.isScanning state;
          ItemsState.scanProgress := ItemsState.scanProgress state;
          ItemsState.error := ItemsState.error state |}))
    (fun error => (* logged *) throw error).

Definition addFolder (name userId : string) : M VaultFolder.t :=
  try
    (test <- gets (fun w => isTestUser w userId) ;;
     newFolder <- (if test : bool then createLocalFolder name userId
                   else call (createFolder supabase name userId)) ;;
     setItemsStore (fun state =>
       {| ItemsState.items := ItemsState.items state;
          ItemsState.upcomingItems := ItemsState.upcomingItems state;
          ItemsState.folders := ItemsState.folders state ++ [newFolder];
          ItemsState.selectedItem := ItemsState.selectedItem state;
          ItemsState.selectedFolder := ItemsState.selectedFolder state;
          ItemsState.isLoading := ItemsState.isLoading state;
          ItemsState.isScanning := ItemsState.isScanning state;
          ItemsState.scanProgress := ItemsState.scanProgress state;
          ItemsState.error := ItemsState.error state |}) ;;;
     ret newFolder)
    (fun error => (* logged *) throw error).

(** The document types and their folders, in the order of the object
    literal, which is the order [Object.entries] gives them in. *)
Definition documentFolderMap : list (string * string) :=
  [ ("driving licence", "Driving Licence");
    ("driving license", "Driving Licence");
    ("learner's licence", "Driving Licence");
    ("pan card", "PAN Card");
    ("permanent account", "PAN Card");
    ("aadhaar", "Aadhaar Card");
    ("aadhar", "Aadhaar Card");
    ("passport", "Passport");
    ("voter id", "Voter ID");
    ("election", "Voter ID");
    ("vehicle rc", "Vehicle RC");
    ("registration certificate", "Vehicle RC");
    ("credit card", "Credit Cards");
    ("debit card", "Bank Cards");
    ("bank statement", "Bank Statements");
    ("electricity bill", "Utility Bills");
    ("water bill", "Utility Bills");
    ("gas bill", "Utility Bills");
    ("phone bill", "Utility Bills");
    ("mobile bill", "Utility Bills");
    ("internet bill", "Utility Bills");
    ("insurance", "Insurance");
    ("policy", "Insurance");
    ("medical", "Medical Records");
    ("hospital", "Medical Records");
    ("prescription", "Medical Records");
    ("invoice", "Invoices & Receipts");
    ("receipt", "Invoices & Receipts");
    ("certificate", "Certificates");
    ("marksheet", "Education");
    ("degree", "Education");
    ("salary slip", "Salary & Income");
    ("payslip", "Salary & Income");
    ("tax", "Tax Documents");
    ("itr", "Tax Documents");
    ("form 16", "Tax Documents") ].

Definition categoryFolderMap (category : ItemCategory) : string :=
  match category with
  | Finance => "Finance Documents"
  | Health => "Medical Records"
  | Shopping => "Shopping & Orders"
  | Education => "Education"
  | Career => "Career & Work"
  | Other => "Other Documents"
  end.

Definition determineFolderName (title : string) (category : ItemCategory)
  : string :=
  let titleLower := Js.toLowerCase title in
  match find (fun entry => Js.includes titleLower (fst entry))
          documentFolderMap with
  | Some (_, folderName) => folderName
  | None =>
      (* fallback to the folder of the category *)
      if String.eqb (categoryFolderMap category) "" then "Other Documents"
      else categoryFolderMap category
  end.

Definition setScan (scanning : option bool) (progress : string)
  (err : option (option string)) : M unit :=
  setItemsStore (fun state =>
    {| ItemsState.items := ItemsState.items state;
       ItemsState.upcomingItems := ItemsState.upcomingItems state;
       ItemsState.folders := ItemsState.folders state;
       ItemsState.selectedItem := ItemsState.selectedItem state;
       ItemsState.selectedFolder := ItemsState.selectedFolder state;
       ItemsState.isLoading := ItemsState.isLoading state;
       ItemsState.isScanning :=
         match scanning with
         | Some b => b
         | None => ItemsState.isScanning state
         end;
       ItemsState.scanProgress := progress;
       ItemsState.error :=
         match err with
         | Some e => e
         | None => ItemsState.error state
         end |}).

(** [s || null] *)
Definition orNull (s : option string) : option string :=
  match s with
  | Some "" => None
  | other => other
  end.

Definition scanDocument (imageUri userId : string) : M ScanResult.t :=
  setScan (Some true) "Extracting text..." (Some None) ;;;
  try
    (folders <- gets (fun w => ItemsState.folders (itemsStore w)) ;;
     (* Step 1: all text, by ML Kit OCR *)
     ocrResult <- try (r <- await (extractTextFromImage imageUri) ;;
                       ret (Some r))
                    (fun _ => ret None) ;;
     (* Step 2: analysis by the AI *)
     setScan None "AI analyzing..." None ;;;
     let fallback : M DocumentAnalysis.t :=
       published <- try (await (publishImage platform imageUri))
                      (fun _ => ret None) ;;
       match orNull published with
       | Some publicImageUrl => await (analyzeDocument publicImageUrl false)
       | None => await (analyzeDocument imageUri true)
       end in
     analysis <- match ocrResult with
                 | Some r =>
                     if 10 <? Js.len (OCRResult.fullText r) then
                       await (analyzeDocumentText (OCRResult.fullText r))
                     else fallback
                 | None => fallback
                 end ;;
     (* Step 3: the folder of the document type, found or created *)
     setScan None "Organizing..." None ;;;
     let folderName :=
       determineFolderName (DocumentAnalysis.title analysis)
         (DocumentAnalysis.category analysis) in
     let found :=
       find (fun f => String.eqb (Js.toLowerCase (VaultFolder.name f))
                        (Js.toLowerCase folderName)) folders in
     targetFolder <- match found with
                     | Some f => ret (Some f)
                     | None =>
                         if String.eqb folderName "" then ret None
                         else
                           try (f <- addFolder folderName userId ;;
                                ret (Some f))
                             (fun _ => ret None)
                     end ;;
     setScan (Some false) "" None ;;;
     ret {| ScanResult.analysis := analysis;
            ScanResult.imageUrl := imageUri;
            ScanResult.autoAssignedFolderId :=
              orNull (option_map VaultFolder.id targetFolder);
            ScanResult.autoAssignedFolderName :=
              orNull (option_map VaultFolder.name targetFolder);
            ScanResult.alertCreated := false;
            ScanResult.alertType := None |})
    (fun error =>
       setScan (Some false) "" (Some (Some (getUserFriendlyMessage platform error))) ;;;
       throw error).

(** *** The items store: archiving and removing a document *)

Definition archiveItem (itemId : string) : M unit :=
  try
    (items <- gets (fun w => ItemsState.items (itemsStore w)) ;;
     let existingItem :=
       find (fun i => String.eqb (Item.id i) itemId) items in
     w <- gets (fun w => w) ;;
     match existingItem with
     | Some i =>
         if isTestUser w (Item.user_id i) then
           updateLocalItem itemId (withStatus archived)
         else call (updateItemStatus supabase itemId archived)
     | None => call (updateItemStatus supabase itemId archived)
     end ;;;
     setItemsStore (fun state =>
       {| ItemsState.items :=
            map (fun item => if String.eqb (Item.id item) itemId
                             then withStatus archived item else item)
              (ItemsState.items state);
          ItemsState.upcomingItems := ItemsState.upcomingItems state;
          ItemsState.folders := ItemsState.folders state;
          ItemsState.selectedItem := ItemsState.selectedItem state;
          ItemsState.selectedFolder := ItemsState.selectedFolder state;
          ItemsState.isLoading := ItemsState.isLoading state;
          ItemsState.isScanning := ItemsState.isScanning state;
          ItemsState.scanProgress := ItemsState.scanProgress state;
          ItemsState.error := ItemsState.error state |}))
    (fun error => (* logged *) throw error).

(** [deleteLocalItem] of [src/lib/localStorage.ts] *)
Definition deleteLocalItem (itemId : string) : M unit :=
  items <- getAllLocalItems ;;
  setItem
    (AsyncStorage.setITEMS
       (filter (fun i => negb (String.eqb (Item.id i) itemId)) items)).

(** [deleteItem] of the Supabase client *)
Variable deleteItem : string -> Remote -> Result unit * Remote.

Definition setLoading (loading : bool) (err : option string) : M unit :=
  setItemsStore (fun state =>
    {| ItemsState.items := ItemsState.items state;
       ItemsState.upcomingItems := ItemsState.upcomingItems state;
       ItemsState.folders := ItemsState.folders state;
       ItemsState.selectedItem := ItemsState.selectedItem state;
       ItemsState.selectedFolder := ItemsState.selectedFolder state;
       ItemsState.isLoading := loading;
       ItemsState.isScanning := ItemsState.isScanning state;
       ItemsState.scanProgress := ItemsState.scanProgress state;
       ItemsState.error := err |}).

Definition removeItem (itemId : string) : M unit :=
  setLoading true None ;;;
  try
    (items <- gets (fun w => ItemsState.items (itemsStore w)) ;;
     let existingItem :=
       find (fun i => String.eqb (Item.id i) itemId) items in
     w <- gets (fun w => w) ;;
     match existingItem with
     | Some i =>
         if isTestUser w (Item.user_id i) then deleteLocalItem itemId
         else call (deleteItem itemId)
     | None => call (deleteItem itemId)
     end ;;;
     setItemsStore (fun state =>
       {| ItemsState.items :=
            filter (fun item => negb (String.eqb (Item.id item) itemId))
              (ItemsState.items state);
          ItemsState.upcomingItems := ItemsState.upcomingItems state;
          ItemsState.folders := ItemsState.folders state;
          ItemsState.selectedItem :=
            match ItemsState.selectedItem state with
            | Some selected =>
                if String.eqb (Item.id selected) itemId then None
                else Some selected
            | None => None
            end;
          ItemsState.selectedFolder := ItemsState.selectedFolder state;
          ItemsState.isLoading := false;
          ItemsState.isScanning := ItemsState.isScanning state;
          ItemsState.scanProgress := ItemsState.scanProgress state;
          ItemsState.error := ItemsState.error state |}))
    (fun error =>
       message <- gets (fun _ => getUserFriendlyMessage platform error) ;;
       setLoading false (Some message) ;;;
       throw error).

(** *** The items store: the folder of a category *)

(** The names a folder of a category goes by ([categoryFolderMap] of
    [findMatchingFolder]). *)
Definition searchTerms (category : ItemCategory) : list string :=
  match category with
  | Finance =>
      [ "finance"; "financial"; "bills"; "payments"; "banking"; "money";
        "credit"; "debit"; "bank" ]
  | Health =>
      [ "health"; "medical"; "healthcare"; "hospital"; "doctor"; "medicine";
        "prescription" ]
  | Shopping =>
      [ "shopping"; "purchases"; "orders"; "receipts"; "amazon"; "flipkart";
        "retail" ]
  | Education =>
      [ "education"; "school"; "college"; "university"; "course"; "learning";
        "academic" ]
  | Career =>
      [ "career"; "work"; "job"; "employment"; "salary"; "office";
        "professional" ]
  | Other => [ "other"; "misc"; "miscellaneous"; "general" ]
  end.

Definition findMatchingFolder (category : ItemCategory)
  (folders : list VaultFolder.t) : option VaultFolder.t :=
  (* the first folder whose name contains any of the search terms *)
  match
    find (fun folder =>
            let folderNameLower := Js.toLowerCase (VaultFolder.name folder) in
            existsb (fun term => Js.includes folderNameLower term)
              (searchTerms category))
      folders
  with
  | Some folder => Some folder
  | None =>
      (* a folder whose name is the category *)
      find (fun f => String.eqb (Js.toLowerCase (VaultFolder.name f))
                       (Js.toLowerCase (categoryName category)))
        folders
  end.

(** *** The items store: the alert of a scanned document *)

Definition createAlertForItem (item : Item.t) (userId : string)
  : M AlertInfo.t :=
  if noDueDate item then
    ret {| AlertInfo.created := false; AlertInfo.alertType := None |}
  else
    try
      (let dueDate :=
         JsDate.parse (host platform) (match Item.due_date item with
                                       | Some s => s
                                       | None => ""
                                       end) in
       now <- gets time ;;
       let alertType :=
         match daysUntilDue dueDate now with
         | Some daysUntilDue =>
             if daysUntilDue <? 0 then overdue
             else if daysUntilDue <=? 1 then deadline_1day
             else if daysUntilDue <=? 7 then deadline_7day
             else (* more than 7 days away: a 7-day reminder *)
               deadline_7day
         | None => deadline_7day
         end in
       trigger_date <- toISOString dueDate ;;
       let alertData :=
         {| AlertData.user_id := userId;
            AlertData.item_id := Item.id item;
            AlertData.alert_type := alertType;
            AlertData.trigger_date := trigger_date;
            AlertData.is_dismissed := false;
            AlertData.is_sent := false |} in
       test <- gets (fun w => isTestUser w userId) ;;
       (if test : bool then createLocalAlert alertData
        else call (createGuardianAlert supabase alertData)) ;;;
       ret {| AlertInfo.created := true;
              AlertInfo.alertType := Some alertType |})
      (fun _ =>
         (* logged *)
         ret {| AlertInfo.created := false; AlertInfo.alertType := None |}).

End World.

Arguments storage {Remote} w.
Arguments faults {Remote} w.
Arguments time {Remote} w.
Arguments draws {Remote} w.
Arguments isLocalAuthUser {Remote} w.
Arguments guardian {Remote} w.
Arguments itemsStore {Remote} w.
Arguments remote {Remote} w.
Arguments withTime {Remote} t w.
Arguments withFaults {Remote} l w.
Arguments fetchAlerts {Remote} supabase userId w.
Arguments createAlert {Remote} supabase platform userId itemId alertType
  triggerDate w.
Arguments checkItem {Remote} supabase platform userId settings alerts now
  item w.
Arguments checkDeadlines {Remote} supabase platform userId
  notificationSettings w.
Arguments dismissAlert {Remote} supabase alertId w.
Arguments dismissAlertsForItem {Remote} supabase itemId w.
Arguments markAsPaid {Remote} supabase itemId w.
Arguments addFolder {Remote} supabase platform name userId w.
Arguments scanDocument {Remote} supabase platform INDIAN_DOCUMENT_PROMPT
  imageUri userId w.
Arguments generateUUID {Remote} platform w.
Arguments createLocalAlert {Remote} platform alert w.
Arguments archiveItem {Remote} supabase itemId w.
Arguments removeItem {Remote} platform deleteItem itemId w.
Arguments createAlertForItem {Remote} supabase platform item userId w.

End Stores.

(* ================================================================= *)
(** * Vocabulary of the properties *)

Module ScamDetectorSpec.
Import ScamDetector.

(** What each detector adds to the score. *)
Definition urgencyPoints (content : string) : Z :=
  let n := length (detectUrgencyLanguage content) in
  if 0 <? n then Z.min (n * 15) 40 else 0.

Definition sensitivePoints (content : string) : Z :=
  let n := length (detectSensitiveInfoRequests content) in
  if 0 <? n then Z.min (n * 20) 50 else 0.

Definition domainPoints (sender : string) : Z :=
  if 0 <? length (detectSuspiciousDomain sender) then 25 else 0.

Definition linkPoints (content : string) : Z :=
  if 0 <? length (detectMismatchedLinks content) then 15 else 0.

(** The scenario of the specification. *)
Definition scenarioContent : string :=
  "URGENT: verify your password immediately or account suspended".
Definition scenarioSender : string := "security@paypa1-verify.xyz".

End ScamDetectorSpec.

Module GmailSpec.
Import Gmail.

(** The text the classifier looks at. *)
Definition content (email : EmailContent) : string :=
  Js.toLowerCase (subject email +++ " " +++ body email).

(** The number of promotional keywords present in the lowercased subject
    and body. *)
Definition promotionalCount (email : EmailContent) : Z :=
  Z.of_nat
    (List.length
       (filter (fun keyword => Js.includes (content email) keyword)
          PROMOTIONAL_KEYWORDS)).

(** An invoice with a marketing footer. *)
Definition invoiceWithFooter : EmailContent :=
  {| id := "m-1";
     from := "billing@store.com";
     to := "user@example.com";
     subject := "Invoice #4821 - Payment Due";
     body := "Your invoice for $150.00 is due by 01/15/2026. Shop now and save with this exclusive offer. Unsubscribe at any time.";
     date := "2026-01-06";
     attachments := [] |}.

(** The same invoice without the footer. *)
Definition invoicePlain : EmailContent :=
  {| id := "m-2";
     from := "billing@store.com";
     to := "user@example.com";
     subject := "Invoice #4821 - Payment Due";
     body := "Your invoice for $150.00 is due by 01/15/2026.";
     date := "2026-01-06";
     attachments := [] |}.

(** A confirmation that has no keyword of the two lists. *)
Definition confirmation : EmailContent :=
  {| id := "m-3";
     from := "noreply@store.com";
     to := "user@example.com";
     subject := "Confirmation 48213";
     body := "Thank you.";
     date := "2026-01-06";
     attachments := [] |}.

End GmailSpec.

Module GmailApiSpec.
Import Gmail GmailApi.

Section Answers.

Variable N : Type.
Variable getEmailContent : string -> string -> N -> Result EmailContent * N.

(** What the API answers when every message is asked for, one after the
    other, whatever the answers before. *)
Fixpoint answers (emails : list GmailMessage) (accessToken : string) (n : N)
  : list (Result EmailContent) * N :=
  match emails with
  | [] => ([], n)
  | m :: rest =>
      let '(answer, n1) := getEmailContent accessToken (GmailApi.id m) n in
      let '(others, n2) := answers rest accessToken n1 in
      (answer :: others, n2)
  end.

End Answers.

Arguments answers {N} getEmailContent emails accessToken n.

(** The contents among the answers; a failure gives none. *)
Definition delivered (results : list (Result EmailContent))
  : list EmailContent :=
  flat_map (fun r => match r with Ok content => [ content ] | Throw _ => [] end)
    results.

(** A mailbox of three emails; any other message cannot be fetched.  The
    state of the network is the number of requests made. *)
Definition mailbox (accessToken messageId : string) (requests : nat)
  : Result EmailContent * nat :=
  (if String.eqb messageId "m-1" then Ok GmailSpec.invoiceWithFooter
   else if String.eqb messageId "m-2" then Ok GmailSpec.invoicePlain
   else if String.eqb messageId "m-3" then Ok GmailSpec.confirmation
   else Throw (Error "Requested entity was not found."),
   S requests).

Definition numbered (messageId : string) : GmailMessage :=
  {| GmailApi.id := messageId; threadId := messageId |}.

Definition inbox : list GmailMessage :=
  [ numbered "m-2"; numbered "m-9"; numbered "m-1"; numbered "m-3" ].

End GmailApiSpec.

Module AiSpec.
Import Json.

(** A parsed payload that is an object: [typeof] is [object] and it is not
    [null]. *)
Definition isObject (data : value) : Prop :=
  typeof (Some data) = TObject /\ data <> JNull.

Definition titleMissing (data : value) : Prop :=
  prop data "title" = None.

Definition titleNotString (data : value) : Prop :=
  exists v, prop data "title" = Some v /\ typeof (Some v) <> TString.

Definition titleBlank (data : value) : Prop :=
  exists s, prop data "title" = Some (JStr s) /\ Js.trim s = "".

Definition placeholder : list string := [ "Document scanned successfully" ].

(** Devices on UTC, five hours west of it and five and a half hours east
    of it, whose engines parse the date-only forms and nothing else. *)
Definition utc : JsDate.Host :=
  {| JsDate.parseOther := fun _ => None; JsDate.LocalTZA := fun _ => 0 |}.
Definition newYork : JsDate.Host :=
  {| JsDate.parseOther := fun _ => None;
     JsDate.LocalTZA := fun _ => -18000000 |}.
Definition kolkata : JsDate.Host :=
  {| JsDate.parseOther := fun _ => None;
     JsDate.LocalTZA := fun _ => 19800000 |}.

(** A payload with a title and a due date. *)
Definition billDue (dueDate : string) : value :=
  JObj [ ("title", JStr "Electricity Bill - A. Kumar");
         ("due_date", JStr dueDate) ].

(** A payload in which only the title is usable. *)
Definition onlyTitle : value :=
  JObj [ ("title", JStr " Invoice 17 ");
         ("amount", JStr "150.00");
         ("due_date", JNum 20260115%float);
         ("category", JStr "Bills");
         ("summary_bullets", JStr "none") ].

(** What the validator returns for the bill due on 5 November 2026. *)
Definition billAnalysis : DocumentAnalysis.t :=
  {| DocumentAnalysis.title := "Electricity Bill - A. Kumar";
     DocumentAnalysis.amount := None;
     DocumentAnalysis.due_date := Some "2026-11-05";
     DocumentAnalysis.category := Other;
     DocumentAnalysis.summary_bullets := placeholder;
     DocumentAnalysis.is_scam := false;
     DocumentAnalysis.risk_score := None;
     DocumentAnalysis.scam_indicators := None |}.

End AiSpec.

Module StoresSpec.
Import Stores.

(** A Supabase project that cannot be reached. *)
Definition unreachable {A} : unit -> Result A * unit :=
  fun db => (Throw (Error "Network request failed"), db).

Definition offline : Supabase unit :=
  {| getItems := fun _ => unreachable;
     updateItemStatus := fun _ _ => unreachable;
     createFolder := fun _ _ => unreachable;
     getGuardianAlerts := fun _ => unreachable;
     createGuardianAlert := fun _ => unreachable;
     dismissGuardianAlert := fun _ => unreachable |}.

(** The payload the AI answers with on the device below: an electricity
    bill due on 5 November 2026. *)
Definition answer : Json.value :=
  Json.JObj [ ("title", Json.JStr "Electricity Bill - A. Kumar");
              ("amount", Json.JNum 1840%float);
              ("due_date", Json.JStr "2026-11-05");
              ("category", Json.JStr "Finance");
              ("summary_bullets",
               Json.JArr [ Json.JStr "Electricity bill for October" ]);
              ("is_scam", Json.JBool false) ].

(** A device in India on which recognition and the AI answer. *)
Definition device : Platform :=
  {| host := AiSpec.kolkata;
     random16 := fun n => Z.of_nat n mod 16;
     JSON_parse := fun s => if String.eqb s "{}" then Some answer else None;
     recognize := fun _ => Ok [ [ "ELECTRICITY BILL"; "Due Date 05-11-2026" ] ];
     completions_create := fun _ _ => Ok (Some "```json {} ```");
     publishImage := fun _ => Ok None;
     getUserFriendlyMessage :=
       fun _ => "Something went wrong. Please try again." |}.

Definition prompt : string := "You are an expert AI.".

Definition document (id dueDate : string) : Item.t :=
  {| Item.id := id;
     Item.user_id := "user-1";
     Item.title := "Electricity Bill - A. Kumar";
     Item.category := Finance;
     Item.amount := Some 1840%float;
     Item.due_date := Some dueDate;
     Item.summary := [ "Electricity bill for October" ];
     Item.status := new;
     Item.image_url := None;
     Item.is_scam := false;
     Item.created_at := "2026-11-01T09:00:00.000Z";
     Item.folder_id := None;
     Item.source_type := scan;
     Item.email_id := None;
     Item.email_account_id := None;
     Item.life_stack_id := None;
     Item.risk_score := 0%float |}.

Definition alertFor (id itemId : string) : GuardianAlert.t :=
  {| GuardianAlert.id := id;
     GuardianAlert.user_id := "user-1";
     GuardianAlert.item_id := itemId;
     GuardianAlert.alert_type := deadline_7day;
     GuardianAlert.trigger_date := "2026-11-05T00:00:00.000Z";
     GuardianAlert.is_dismissed := false;
     GuardianAlert.is_sent := false;
     GuardianAlert.created_at := "2026-11-02T00:00:00.000Z" |}.

(** The world on 2 November 2026 with the given documents and alerts, in
    the stores and on the device alike. *)
Definition worldWith (items : list Item.t) (alerts : list GuardianAlert.t)
  : World unit :=
  {| storage :=
       {| AsyncStorage.ITEMS := Some items;
          AsyncStorage.FOLDERS := None;
          AsyncStorage.ALERTS := Some alerts |};
     faults := [];
     time := 1793577600000;
     draws := 0;
     isLocalAuthUser := false;
     guardian :=
       {| GuardianState.alerts := alerts;
          GuardianState.unreadCount :=
            Z.of_nat (List.length
              (filter (fun a => negb (GuardianAlert.is_dismissed a)) alerts));
          GuardianState.isMonitoring := false;
          GuardianState.isLoading := false;
          GuardianState.error := None |};
     itemsStore :=
       {| ItemsState.items := items;
          ItemsState.upcomingItems := items;
          ItemsState.folders := [];
          ItemsState.selectedItem := None;
          ItemsState.selectedFolder := None;
          ItemsState.isLoading := false;
          ItemsState.isScanning := false;
          ItemsState.scanProgress := "";
          ItemsState.error := None |};
     remote := tt |}.

(** What the scan of the bill returns on that device. *)
Definition scanned : ScanResult.t :=
  {| ScanResult.analysis :=
       {| DocumentAnalysis.title := "Electricity Bill - A. Kumar";
          DocumentAnalysis.amount := Some 1840%float;
          DocumentAnalysis.due_date := Some "2026-11-05";
          DocumentAnalysis.category := Finance;
          DocumentAnalysis.summary_bullets :=
            [ "Electricity bill for October" ];
          DocumentAnalysis.is_scam := false;
          DocumentAnalysis.risk_score := None;
          DocumentAnalysis.scam_indicators := None |};
     ScanResult.imageUrl := "content://scan.jpg";
     ScanResult.autoAssignedFolderId :=
       Some "01234567-89ab-4cde-b012-3456789abcde";
     ScanResult.autoAssignedFolderName := Some "Utility Bills";
     ScanResult.alertCreated := false;
     ScanResult.alertType := None |}.

(** The non-dismissed alerts of a document. *)
Definition activeFor (itemId : string) (alerts : list GuardianAlert.t)
  : list GuardianAlert.t :=
  filter (fun a => String.eqb (GuardianAlert.item_id a) itemId
                   && negb (GuardianAlert.is_dismissed a)) alerts.

(** The alerts the device holds. *)
Definition storedAlerts {Remote} (w : World Remote) : list GuardianAlert.t :=
  orEmpty (AsyncStorage.ALERTS (storage w)).

(** The settings [checkDeadlines] works with. *)
Definition settingsOr (notificationSettings : option NotificationSettings)
  : NotificationSettings :=
  match notificationSettings with
  | Some s => s
  | None => defaultSettings
  end.

(** The deadline state machine: the kind of alert for a number of days
    until the due date, under the reminder toggles. *)
Definition alertKind (settings : NotificationSettings) (days : Z)
  : option GuardianAlertType :=
  if days <? 0 then Some overdue
  else if days <=? 1 then
    if reminder_1day_enabled settings then Some deadline_1day else None
  else if days <=? 7 then
    if reminder_7day_enabled settings then Some deadline_7day else None
  else None.

(** The instant a document is due, when its due date parses. *)
Definition dueDateOf (platform : Platform) (item : Item.t) : option Z :=
  JsDate.parse (host platform)
    (match Item.due_date item with
     | Some s => s
     | None => ""
     end).

(** The alert a document calls for at time [now]: none when it has no due
    date, is paid or archived, or is due in more than a week. *)
Definition due (platform : Platform) (settings : NotificationSettings)
  (now : Z) (item : Item.t) : option GuardianAlertType :=
  if noDueDate item || isPaidOrArchived item then None
  else
    match daysUntilDue (dueDateOf platform item) now with
    | Some days => alertKind settings days
    | None => None
    end.

Definition hasActive (itemId : string) (alerts : list GuardianAlert.t)
  : bool :=
  existsb (fun a => String.eqb (GuardianAlert.item_id a) itemId
                    && negb (GuardianAlert.is_dismissed a)) alerts.

(** Whether the loop of [checkDeadlines] creates an alert for [item], for
    the alerts [snapshot] read before the loop. *)
Definition creates (platform : Platform) (settings : NotificationSettings)
  (now : Z) (snapshot : list GuardianAlert.t) (item : Item.t) : bool :=
  negb (hasActive (Item.id item) snapshot) &&
  match due platform settings now item with
  | Some _ => true
  | None => false
  end.

(** The documents of a user on the device. *)
(** The guardian store as it is created, when the application starts;
    the device is as it was. *)
Definition freshGuardian {Remote} (w : World Remote) : World Remote :=
  withGuardian Remote
    (fun _ => {| GuardianState.alerts := [];
                 GuardianState.unreadCount := 0;
                 GuardianState.isMonitoring := false;
                 GuardianState.isLoading := false;
                 GuardianState.error := None |}) w.

Definition userItems {Remote} (userId : string) (w : World Remote)
  : list Item.t :=
  filter (fun item => String.eqb (Item.user_id item) userId)
    (orEmpty (AsyncStorage.ITEMS (storage w))).

Definition ofUser (userId : string) (alerts : list GuardianAlert.t)
  : list GuardianAlert.t :=
  filter (fun a => String.eqb (GuardianAlert.user_id a) userId) alerts.

(** From [w] to [w'] the alerts [created] were added, on the device and in
    the guardian store, for the user and active; the device works, and the
    clock and the documents are as before. *)
Definition Grows {Remote} (userId : string) (created : list GuardianAlert.t)
  (w w' : World Remote) : Prop :=
  storedAlerts w' = storedAlerts w ++ created /\
  GuardianState.alerts (guardian w')
    = GuardianState.alerts (guardian w) ++ created /\
  faults w' = [] /\
  time w' = time w /\
  AsyncStorage.ITEMS (storage w') = AsyncStorage.ITEMS (storage w) /\
  Forall (fun a => GuardianAlert.user_id a = userId /\
                   GuardianAlert.is_dismissed a = false) created.

(** A computation leaves a part of the world as it found it, whatever its
    outcome. *)
Definition preserves {Remote A X} (part : World Remote -> X)
  (m : M Remote A) : Prop :=
  forall w, part (snd (m w)) = part w.

(** The alert that the deadline check owes a document at time [now]: of
    the document, of the kind of the state machine, triggered at the
    instant the document is due, active and not yet sent. *)
Definition expects (platform : Platform) (settings : NotificationSettings)
  (now : Z) (a : GuardianAlert.t) (item : Item.t) : Prop :=
  GuardianAlert.item_id a = Item.id item /\
  due platform settings now item = Some (GuardianAlert.alert_type a) /\
  option_map JsDate.toISOString (dueDateOf platform item)
    = Some (GuardianAlert.trigger_date a) /\
  GuardianAlert.is_dismissed a = false /\
  GuardianAlert.is_sent a = false.

(** The alerts that satisfy [p], dismissed. *)
Definition dismissWhere (p : GuardianAlert.t -> bool) (a : GuardianAlert.t)
  : GuardianAlert.t :=
  if p a then dismissed a else a.

(** The alerts of a document, dismissed. *)
Definition dismissFor (itemId : string) : GuardianAlert.t -> GuardianAlert.t :=
  dismissWhere (fun a => String.eqb (GuardianAlert.item_id a) itemId).

(** An alert whose identity is one of the identities of [alerts]. *)
Definition inIds (alerts : list GuardianAlert.t) (a : GuardianAlert.t) : bool :=
  existsb (fun t => String.eqb (GuardianAlert.id a) (GuardianAlert.id t))
    alerts.

(** A hexadecimal digit in small letters. *)
Definition isHex (c : ascii) : bool :=
  Js.isDigit c || Js.inRange 97 102 c.

(** An identifier in the shape of a template: a hexadecimal digit for each
    x, one of 8, 9, a and b for each y, and the character of the template
    elsewhere. *)
Fixpoint shaped (template id : string) : bool :=
  match template, id with
  | EmptyString, EmptyString => true
  | String t template', String c id' =>
      (if Ascii.eqb t "x" then isHex c
       else if Ascii.eqb t "y" then Js.includes "89ab" (String c "")
       else Ascii.eqb t c)
      && shaped template' id'
  | _, _ => false
  end.

(** The number of random draws that filling a template takes. *)
Fixpoint placeholders (template : string) : nat :=
  match template with
  | EmptyString => 0
  | String c rest =>
      (if Ascii.eqb c "x" || Ascii.eqb c "y" then 1 else 0)
      + placeholders rest
  end.

(** The data of a 1-day alert of a document. *)
Definition alertData (itemId : string) : AlertData.t :=
  {| AlertData.user_id := "user-1";
     AlertData.item_id := itemId;
     AlertData.alert_type := deadline_1day;
     AlertData.trigger_date := "2026-11-03T00:00:00.000Z";
     AlertData.is_dismissed := false;
     AlertData.is_sent := false |}.

(** The kind of the alert that [createAlertForItem] makes for a document
    due in [days] days. *)
Definition immediateKind (days : Z) : GuardianAlertType :=
  if days <? 0 then overdue
  else if days <=? 1 then deadline_1day
  else deadline_7day.

(** An image from which recognition gets at most ten characters, or
    nothing. *)
Definition unreadable (platform : Platform) (imageUri : string) : Prop :=
  match extractTextFromImage platform imageUri with
  | Ok r => Js.len (OCRResult.fullText r) <= 10
  | Throw _ => True
  end.

(** An image that the image host gives no address for. *)
Definition unpublished (platform : Platform) (imageUri : string) : Prop :=
  orNull (match publishImage platform imageUri with
          | Ok url => url
          | Throw _ => None
          end) = None.

(** The device of the examples with a camera image that holds no text, and
    without a network. *)
Definition blind : Platform :=
  {| host := host device;
     random16 := random16 device;
     JSON_parse := JSON_parse device;
     recognize := fun _ => Ok [ [ "  " ] ];
     completions_create :=
       fun _ _ => Throw (Error "Network request failed");
     publishImage := fun _ => Throw (Error "Network request failed");
     getUserFriendlyMessage := getUserFriendlyMessage device |}.

(** A folder of the vault. *)
Definition folder (id name : string) : VaultFolder.t :=
  {| VaultFolder.id := id;
     VaultFolder.name := name;
     VaultFolder.user_id := "user-1";
     VaultFolder.created_at := "2026-11-01T09:00:00.000Z";
     VaultFolder.item_count := Some 0 |}.

(** A world with folders in the items store. *)
Definition withFolders {Remote} (folders : list VaultFolder.t)
  (w : World Remote) : World Remote :=
  withItemsStore Remote
    (fun state =>
       {| ItemsState.items := ItemsState.items state;
          ItemsState.upcomingItems := ItemsState.upcomingItems state;
          ItemsState.folders := folders;
          ItemsState.selectedItem := ItemsState.selectedItem state;
          ItemsState.selectedFolder := ItemsState.selectedFolder state;
          ItemsState.isLoading := ItemsState.isLoading state;
          ItemsState.isScanning := ItemsState.isScanning state;
          ItemsState.scanProgress := ItemsState.scanProgress state;
          ItemsState.error := ItemsState.error state |}) w.

(** The folder that a scan looks for: the first whose name is the name
    for the analysis, small and capital letters alike. *)
Definition folderOf (analysis : DocumentAnalysis.t)
  (folders : list VaultFolder.t) : option VaultFolder.t :=
  find (fun f =>
          String.eqb (Js.toLowerCase (VaultFolder.name f))
            (Js.toLowerCase
               (determineFolderName (DocumentAnalysis.title analysis)
                  (DocumentAnalysis.category analysis))))
    folders.

(** The world of the examples with two folders in the store, and what the
    scan of the bill returns there. *)
Definition twoFolders : World unit :=
  withFolders [ folder "f-1" "Receipts"; folder "f-2" "UTILITY BILLS" ]
    (worldWith [] []).

Definition filed : ScanResult.t :=
  {| ScanResult.analysis := ScanResult.analysis scanned;
     ScanResult.imageUrl := "content://scan.jpg";
     ScanResult.autoAssignedFolderId := Some "f-2";
     ScanResult.autoAssignedFolderName := Some "UTILITY BILLS";
     ScanResult.alertCreated := false;
     ScanResult.alertType := None |}.

(** The second call of AsyncStorage from this world on fails.  Where a
    scan creates a folder, its first call reads the folders of the device
    and its second writes them. *)
Definition secondCallFails {Remote} (w : World Remote) : bool :=
  nth 1 (faults w) false.

(** A computation that resolves in every world: it never rejects. *)
Definition neverThrows {Remote A} (m : M Remote A) : Prop :=
  forall w, exists a w', m w = (Ok a, w').

(** Settings with push notifications switched off. *)
Definition muted : NotificationSettings :=
  {| push_notifications_enabled := false;
     reminder_7day_enabled := true;
     reminder_1day_enabled := true |}.

End StoresSpec.

Module RateLimiterSpec.
Import RateLimiter.
Section Spec.

Variables World Value Reason : Type.

(** The queue entries of the requests [rs], whose promises are numbered
    from [n] on. *)
Fixpoint entries (n : nat) (rs : list (Request World Value Reason))
  : list (Entry World Value Reason) :=
  match rs with
  | [] => []
  | r :: rest => {| request := r; promise := n |} :: entries (S n) rest
  end.

(** The request the coroutine holds, and whether it has called it. *)
Definition current (wk : Worker World Value Reason)
  : list (Request World Value Reason) :=
  match wk with
  | Idle => []
  | Sleeping item _ _ => [ request item ]
  | Calling item => [ request item ]
  end.

Definition called (wk : Worker World Value Reason) : nat :=
  match wk with
  | Calling _ => 1
  | _ => 0
  end.

(** How [s] stands after the requests [rs] were submitted from the world
    [w0]: some were run, in order; the coroutine holds the next; the rest
    wait in the queue, in order. *)
Definition Inv (w0 : World) (rs : list (Request World Value Reason))
  (s : State World Value Reason) : Prop :=
  exists (done waiting : list (Request World Value Reason))
         (outs : list (Outcome Value Reason)),
    rs = done ++ current (worker s) ++ waiting /\
    runAll done w0 = (outs, world s) /\
    promises s =
      map Some outs ++
      repeat None (List.length (current (worker s) ++ waiting)) /\
    queue s = entries (List.length (done ++ current (worker s))) waiting /\
    dispatched s = seq 0 (List.length done + called (worker s)) /\
    match worker s with
    | Idle => isProcessing s = false /\ waiting = []
    | Sleeping item _ _ | Calling item =>
        isProcessing s = true /\ promise item = List.length done
    end.

(** An upper bound of the resumptions that drain the limiter. *)
Definition remaining (s : State World Value Reason) : nat :=
  2 * List.length (queue s) +
  match worker s with
  | Idle => 0
  | Sleeping _ _ _ => 2
  | Calling _ => 1
  end.

End Spec.

Arguments entries {World Value Reason} n rs.
Arguments current {World Value Reason} wk.
Arguments called {World Value Reason} wk.
Arguments Inv {World Value Reason} w0 rs s.
Arguments remaining {World Value Reason} s.

Section Timing.

Variables World Value Reason : Type.

(** The times at which the requests are called in a run of events: a step
    that calls a request sets [lastRequestTime] to its time. *)
Fixpoint callTimes (events : list (Event World Value Reason))
  (s : State World Value Reason) : list Z :=
  match events with
  | [] => []
  | e :: rest =>
      (if (List.length (dispatched s)
           <? List.length (dispatched (step s e)))%nat
       then [ lastRequestTime (step s e) ]
       else [])
      ++ callTimes rest (step s e)
  end.

(** The timer does not fire early: a coroutine that gave [setTimeout] the
    delay [delayNeeded] at the time [since] is resumed when the delay has
    passed, or later. *)
Fixpoint timely (events : list (Event World Value Reason))
  (s : State World Value Reason) : Prop :=
  match events with
  | [] => True
  | e :: rest =>
      match e, worker s with
      | Resume now, Sleeping _ since delayNeeded => since + delayNeeded <= now
      | _, _ => True
      end /\ timely rest (step s e)
  end.

(** The timer of a sleeping coroutine ends [minDelayMs] after the last
    call, or later. *)
Definition sleepsLongEnough (s : State World Value Reason) : Prop :=
  match worker s with
  | Sleeping _ since delayNeeded =>
      lastRequestTime s + minDelayMs <= since + delayNeeded
  | _ => True
  end.

(** Each time is at least [minDelayMs] after the one before it, the first
    after [last]. *)
Fixpoint spaced (last : Z) (times : list Z) : Prop :=
  match times with
  | [] => True
  | t :: rest => last + minDelayMs <= t /\ spaced t rest
  end.

End Timing.

Arguments callTimes {World Value Reason} events s.
Arguments timely {World Value Reason} events s.
Arguments sleepsLongEnough {World Value Reason} s.

(** Three requests on a counter: the first and the third give its value
    and count, the second fails. *)
Definition count : Request Z Z string :=
  fun n => (Fulfilled n, n + 1).
Definition failing : Request Z Z string :=
  fun n => (Rejected "HTTP 429", n).

Definition threeCalls : list (Event Z Z string) :=
  [ QueueRequest count 1000; QueueRequest failing 1005; Resume 2000;
    QueueRequest count 2100; Resume 2400 ].

Definition sixResumes : list Z := [ 4000; 4500; 6000; 6100; 8000; 8100 ].

End RateLimiterSpec.

Module JsSpec.

(** [String.prototype.toUpperCase] on ASCII text: the capital of each
    small letter. *)
Definition upperChar (c : ascii) : ascii :=
  if Js.inRange 97 122 c then ascii_of_nat (nat_of_ascii c - 32) else c.

Fixpoint toUpperCase (s : string) : string :=
  match s with
  | EmptyString => EmptyString
  | String c r => String (upperChar c) (toUpperCase r)
  end.

(** A text of ASCII characters only; on such a text [toLowerCase] and
    [toUpperCase] change the letters and nothing else. *)
Fixpoint isAscii (s : string) : bool :=
  match s with
  | EmptyString => true
  | String c r => (Js.code c <? 128) && isAscii r
  end.

(** A byte that [trim] may strip: an ASCII white space character, or a
    byte of a character outside ASCII. *)
Definition spaceByte (c : ascii) : bool :=
  Js.isSpace1 c || (128 <=? Js.code c).

End JsSpec.

Module RegExpSpec.
Import RegExp.

(** A pattern that does not tell a small letter from its capital. *)
Fixpoint caseBlind (r : regex) : Prop :=
  match r with
  | Sym p => forall c, p (JsSpec.upperChar c) = p c
  | Cat r s => caseBlind r /\ caseBlind s
  | Alt r s => caseBlind r /\ caseBlind s
  | Star r => caseBlind r
  | Void => True
  | Eps => True
  end.

End RegExpSpec.

Module OcrSpec.


End OcrSpec.

(* ================================================================= *)
(** * Properties *)

(* ================================================================= *)
(** ** Scam Shield *)

Section ScamDetectorFacts.
Import ScamDetector ScamDetectorSpec.

Lemma length_nonneg {A} (l : list A) : 0 <= length l.
Proof. unfold length. lia. Qed.

Lemma detectScam_risk_score (content sender : string) :
  risk_score (detectScam content sender) =
  Z.min (urgencyPoints content + sensitivePoints content
         + domainPoints sender + linkPoints content) 100.
Proof.
  unfold detectScam, urgencyPoints, sensitivePoints, domainPoints, linkPoints.
  cbv zeta.
  destruct (0 <? length (detectUrgencyLanguage content));
    destruct (0 <? length (detectSensitiveInfoRequests content));
    destruct (0 <? length (detectSuspiciousDomain sender));
    destruct (0 <? length (detectMismatchedLinks content));
    cbn [risk_score]; f_equal; lia.
Qed.

Lemma points_capped (content sender : string) :
  0 <= urgencyPoints content <= 40 /\
  0 <= sensitivePoints content <= 50 /\
  0 <= domainPoints sender <= 25 /\
  0 <= linkPoints content <= 15.
Proof.
  unfold urgencyPoints, sensitivePoints, domainPoints, linkPoints.
  pose proof (length_nonneg (detectUrgencyLanguage content)).
  pose proof (length_nonneg (detectSensitiveInfoRequests content)).
  cbv zeta.
  repeat match goal with
         | |- context [if ?c then _ else _] => destruct c
         end; lia.
Qed.

(** In the scenario one urgency phrase and one sensitive word occur, the
    domain is suspicious and no call-to-action phrase occurs. *)
Lemma scenario_indicators :
  detectUrgencyLanguage scenarioContent = [ "account suspended" ] /\
  detectSensitiveInfoRequests scenarioContent = [ "password" ] /\
  detectSuspiciousDomain scenarioSender =
    [ "Suspicious domain pattern detected: paypa1-verify.xyz" ] /\
  detectMismatchedLinks scenarioContent = [].
Proof. repeat split; vm_compute; reflexivity. Qed.

(** C1, as stated, fails: on the scenario of the specification the
    assessment is not a risk score of at least 70 with a scam verdict and a
    HIGH RISK recommendation. *)
Lemma detectScam_scenario_not_high_risk :
  ~ (70 <= risk_score (detectScam scenarioContent scenarioSender) /\
     is_scam (detectScam scenarioContent scenarioSender) = true /\
     Js.includes (recommendation (detectScam scenarioContent scenarioSender))
       "HIGH RISK" = true).
Proof.
  intros [Hscore _]. revert Hscore. vm_compute. intros H. apply H. reflexivity.
Qed.

(** C1, amended: on the scenario of the specification the risk score is 60
    (15 for one urgency phrase, 20 for one sensitive word, 25 for the
    domain), the verdict is not a scam and the recommendation is the
    MEDIUM RISK one. *)
Theorem detectScam_scenario_medium_risk :
  risk_score (detectScam scenarioContent scenarioSender) = 60 /\
  is_scam (detectScam scenarioContent scenarioSender) = false /\
  Js.includes (recommendation (detectScam scenarioContent scenarioSender))
    "MEDIUM RISK" = true /\
  Js.includes (recommendation (detectScam scenarioContent scenarioSender))
    "HIGH RISK" = false.
Proof. repeat split; vm_compute; reflexivity. Qed.

(** C2: for every content and sender the risk score lies in 0..100; it is
    the sum of the four contributions, each within its own cap (40, 50, 25
    and 15), clamped to 100. *)
Theorem detectScam_risk_score_bounded (content sender : string) :
  0 <= risk_score (detectScam content sender) <= 100 /\
  risk_score (detectScam content sender) =
    Z.min (urgencyPoints content + sensitivePoints content
           + domainPoints sender + linkPoints content) 100 /\
  0 <= urgencyPoints content <= 40 /\
  0 <= sensitivePoints content <= 50 /\
  0 <= domainPoints sender <= 25 /\
  0 <= linkPoints content <= 15.
Proof.
  pose proof (points_capped content sender) as Hcaps.
  pose proof (detectScam_risk_score content sender) as Hscore.
  split; [ rewrite Hscore; lia | split; [ exact Hscore | exact Hcaps ] ].
Qed.

(** The verdict follows the score. *)
Lemma detectScam_verdict (content sender : string) :
  is_scam (detectScam content sender) =
  (70 <=? risk_score (detectScam content sender)).
Proof.
  unfold detectScam. cbv zeta.
  destruct (0 <? length (detectUrgencyLanguage content));
    destruct (0 <? length (detectSensitiveInfoRequests content));
    destruct (0 <? length (detectSuspiciousDomain sender));
    destruct (0 <? length (detectMismatchedLinks content));
    cbn [is_scam risk_score]; reflexivity.
Qed.

(** The cap of 100 is reached: the total is clamped, not only bounded by
    the caps of the detectors. *)
Lemma detectScam_clamps :
  risk_score
    (detectScam
       "Final notice: act now, verify immediately. Send your password, otp and cvv. Click here"
       "alerts@paypa1.com") = 100.
Proof. vm_compute. reflexivity. Qed.

End ScamDetectorFacts.

(* ================================================================= *)
(** ** Email classification *)

Section GmailFacts.
Import Gmail GmailSpec.

Lemma keywordScore_from (text : string) (keywords : list string) (acc : Z) :
  fold_left
    (fun score keyword =>
       if Js.includes text (Js.toLowerCase keyword) then score + 1 else score)
    keywords acc =
  acc + Z.of_nat
          (List.length
             (filter (fun keyword => Js.includes text (Js.toLowerCase keyword))
                keywords)).
Proof.
  revert acc. induction keywords as [| k rest IH]; intros acc; simpl.
  - lia.
  - rewrite IH. destruct (Js.includes text (Js.toLowerCase k)); simpl; lia.
Qed.

(** The reduction counts the keywords that occur. *)
Lemma keywordScore_count (text : string) (keywords : list string) :
  keywordScore text keywords =
  Z.of_nat
    (List.length
       (filter (fun keyword => Js.includes text (Js.toLowerCase keyword))
          keywords)).
Proof. unfold keywordScore. rewrite keywordScore_from. lia. Qed.

Lemma filter_map_pred {A B} (f : A -> B) (p : B -> bool) (l : list A) :
  List.length (filter (fun x => p (f x)) l)
  = List.length (filter p (map f l)).
Proof.
  induction l as [| x rest IH]; simpl; [ reflexivity |].
  destruct (p (f x)); simpl; rewrite IH; reflexivity.
Qed.

(** The promotional keywords are written in lower case. *)
Lemma PROMOTIONAL_KEYWORDS_lower :
  map Js.toLowerCase PROMOTIONAL_KEYWORDS = PROMOTIONAL_KEYWORDS.
Proof. reflexivity. Qed.

Lemma promotionalScore_count (email : EmailContent) :
  keywordScore (content email) PROMOTIONAL_KEYWORDS = promotionalCount email.
Proof.
  rewrite keywordScore_count. unfold promotionalCount.
  rewrite (filter_map_pred Js.toLowerCase
             (fun k => Js.includes (content email) k)).
  rewrite PROMOTIONAL_KEYWORDS_lower. reflexivity.
Qed.

(** C5: an email in which at least three promotional keywords occur is not
    transactional, whatever else it contains. *)
Theorem isTransactionalEmail_promotional (email : EmailContent) :
  3 <= promotionalCount email ->
  isTransactionalEmail email = false.
Proof.
  intros Hpromo. unfold isTransactionalEmail. cbv zeta.
  fold (content email). rewrite promotionalScore_count.
  apply Z.leb_le in Hpromo. rewrite Hpromo. reflexivity.
Qed.

(** C5 at an invoice that carries an amount, a date, an invoice number and
    a footer with promotional keywords. *)
Lemma isTransactionalEmail_promotional_witness :
  3 <= promotionalCount invoiceWithFooter /\
  isTransactionalEmail invoiceWithFooter = false.
Proof.
  assert (H : 3 <= promotionalCount invoiceWithFooter)
    by (apply Z.leb_le; vm_compute; reflexivity).
  split; [ exact H | exact (isTransactionalEmail_promotional _ H) ].
Defined.

(** Without its footer the same invoice is transactional. *)
Lemma invoicePlain_transactional : isTransactionalEmail invoicePlain = true.
Proof. vm_compute. reflexivity. Qed.

End GmailFacts.

(* ================================================================= *)
(** ** Validation of the AI response *)

Section AiFacts.
Import Json Ai AiSpec.

Lemma validCategory_None (v : option value) :
  (forall c, v <> Some (JStr (categoryName c))) ->
  validCategory v = None.
Proof.
  intros Hnot. destruct v as [[| | | s | |]|]; try reflexivity.
  unfold validCategory.
  destruct (find (fun c => String.eqb (categoryName c) s) VALID_CATEGORIES)
    as [c|] eqn:Hfind; [| reflexivity ].
  apply find_some in Hfind. destruct Hfind as [_ Heq].
  apply String.eqb_eq in Heq. subst s. exfalso. apply (Hnot c). reflexivity.
Qed.

(** What the validator returns for a payload with a usable title. *)
Lemma validateDocumentAnalysis_Ok (host : JsDate.Host) (data : value)
  (title : string) :
  isObject data ->
  prop data "title" = Some (JStr title) ->
  Js.trim title <> "" ->
  exists r,
    validateDocumentAnalysis host data = Ok r /\
    DocumentAnalysis.title r = title /\
    DocumentAnalysis.amount r =
      match prop data "amount" with Some (JNum n) => Some n | _ => None end /\
    DocumentAnalysis.category r =
      match validCategory (prop data "category") with
      | Some c => c
      | None => Other
      end /\
    DocumentAnalysis.due_date r =
      match prop data "due_date" with
      | Some (JStr dueDate) =>
          match JsDate.parse host dueDate with
          | None => None
          | Some parsedDate =>
              if (JsDate.getFullYear host parsedDate <? 2000)
                 || (2100 <? JsDate.getFullYear host parsedDate)
              then None
              else Some dueDate
          end
      | _ => None
      end /\
    DocumentAnalysis.summary_bullets r =
      match match prop data "summary_bullets" with
            | Some (JArr items) => stringItems items
            | _ => []
            end with
      | [] => placeholder
      | bullets => bullets
      end.
Proof.
  intros [Hty Hnull] Htitle Htrim.
  apply String.eqb_neq in Htrim.
  destruct data; try discriminate Hty; try (exfalso; apply Hnull; reflexivity);
    unfold validateDocumentAnalysis; cbn [typeof]; rewrite Htitle, Htrim;
    (eexists; split; [ reflexivity |]);
    cbn [DocumentAnalysis.title DocumentAnalysis.amount
         DocumentAnalysis.category DocumentAnalysis.due_date
         DocumentAnalysis.summary_bullets];
    repeat split; try reflexivity;
    match goal with
    | |- context [match ?x with [] => _ | _ :: _ => _ end] => destruct x
    end; reflexivity.
Qed.

(** C3: on a parsed payload object the validator throws exactly when the
    title is missing, is not a string or is blank; it returns otherwise,
    with a missing or ill-typed amount and due date as null, a category
    outside the six as Other, and summary bullets that are not a list as the
    placeholder. *)
Theorem validateDocumentAnalysis_throws_iff_title
  (host : JsDate.Host) (data : value) :
  isObject data ->
  ((exists e, validateDocumentAnalysis host data = Throw e) <->
   (titleMissing data \/ titleNotString data \/ titleBlank data)) /\
  (forall r,
     validateDocumentAnalysis host data = Ok r ->
     (typeof (prop data "amount") <> TNumber ->
      DocumentAnalysis.amount r = None) /\
     (typeof (prop data "due_date") <> TString ->
      DocumentAnalysis.due_date r = None) /\
     ((forall c, prop data "category" <> Some (JStr (categoryName c))) ->
      DocumentAnalysis.category r = Other) /\
     ((forall items, prop data "summary_bullets" <> Some (JArr items)) ->
      DocumentAnalysis.summary_bullets r = placeholder)).
Proof.
  intros Hobj.
  destruct (prop data "title") as [v|] eqn:Htitle.
  - destruct (typeof (Some v)) eqn:Hv;
      try (assert (Hbad : titleNotString data)
             by (exists v; split; [ exact Htitle | rewrite Hv; discriminate ])).
    5: {
      destruct v; try discriminate Hv.
      destruct (string_dec (Js.trim s) "") as [Hblank | Hfull].
      - assert (Hbad : titleBlank data) by (exists s; split; assumption).
        assert (Hthrow : exists e, validateDocumentAnalysis host data = Throw e).
        { destruct Hobj as [Hty Hnull].
          apply String.eqb_eq in Hblank.
          destruct data; try discriminate Hty;
            try (exfalso; apply Hnull; reflexivity);
            unfold validateDocumentAnalysis; cbn [typeof];
            rewrite Htitle, Hblank; eexists; reflexivity. }
        split; [ split; [ intros _; right; right; exact Hbad
                        | intros _; exact Hthrow ] |].
        intros r Hr. destruct Hthrow as [e He]. congruence.
      - destruct (validateDocumentAnalysis_Ok host data s Hobj Htitle Hfull)
          as (r0 & Hr0 & _ & Hamount & Hcat & Hdue & Hbul).
        split.
        + split.
          * intros [e He]. congruence.
          * intros [Hm | [(v' & Hv' & Hnot) | (s' & Hs' & Hb)]].
            -- unfold titleMissing in Hm. congruence.
            -- rewrite Htitle in Hv'. inversion Hv'; subst v'.
               exfalso. apply Hnot. reflexivity.
            -- rewrite Htitle in Hs'. inversion Hs'; subst s'. contradiction.
        + intros r Hr. rewrite Hr0 in Hr. inversion Hr; subst r.
          repeat split.
          * intros Hnum. rewrite Hamount.
            destruct (prop data "amount") as [[| | n | | |]|];
              try reflexivity. exfalso. apply Hnum. reflexivity.
          * intros Hstr. rewrite Hdue.
            destruct (prop data "due_date") as [[| | | d | |]|];
              try reflexivity. exfalso. apply Hstr. reflexivity.
          * intros Hnot. rewrite Hcat, (validCategory_None _ Hnot).
            reflexivity.
          * intros Harr. rewrite Hbul.
            destruct (prop data "summary_bullets") as [[| | | | l |]|];
              try reflexivity. exfalso. apply (Harr l). reflexivity.
    }
    all: assert (Hthrow : exists e, validateDocumentAnalysis host data = Throw e)
      by (destruct Hobj as [Hty Hnull];
          destruct v; try discriminate Hv;
          destruct data; try discriminate Hty;
          try (exfalso; apply Hnull; reflexivity);
          unfold validateDocumentAnalysis; cbn [typeof];
          rewrite Htitle; eexists; reflexivity).
    all: (split; [ split; [ intros _; right; left; exact Hbad
                          | intros _; exact Hthrow ] |]).
    all: intros r Hr; destruct Hthrow as [e He]; congruence.
  - assert (Hthrow : exists e, validateDocumentAnalysis host data = Throw e)
      by (destruct Hobj as [Hty Hnull];
          destruct data; try discriminate Hty;
          try (exfalso; apply Hnull; reflexivity);
          unfold validateDocumentAnalysis; cbn [typeof];
          rewrite Htitle; eexists; reflexivity).
    split; [ split; [ intros _; left; exact Htitle | intros _; exact Hthrow ] |].
    intros r Hr. destruct Hthrow as [e He]. congruence.
Qed.

(** C3 at a payload in which only the title is usable. *)
Lemma validateDocumentAnalysis_throws_iff_title_witness :
  isObject onlyTitle /\
  exists r,
    validateDocumentAnalysis utc onlyTitle = Ok r /\
    DocumentAnalysis.amount r = None /\
    DocumentAnalysis.due_date r = None /\
    DocumentAnalysis.category r = Other /\
    DocumentAnalysis.summary_bullets r = placeholder.
Proof.
  assert (Hobj : isObject onlyTitle)
    by (split; [ reflexivity | discriminate ]).
  split; [ exact Hobj |].
  destruct (validateDocumentAnalysis_throws_iff_title utc onlyTitle Hobj)
    as [_ Hok].
  eexists. split; [ vm_compute; reflexivity |].
  destruct (Hok _ eq_refl) as (Hamount & Hdue & Hcat & Hbul).
  split; [ apply Hamount; discriminate |].
  split; [ apply Hdue; discriminate |].
  split; [ apply Hcat; intros c; destruct c; discriminate |].
  apply Hbul. intros items. discriminate.
Defined.

(** A payload with a blank title is refused, whatever else it holds. *)
Lemma validateDocumentAnalysis_blank_title :
  exists e,
    validateDocumentAnalysis utc
      (JObj [ ("title", JStr "   "); ("amount", JNum 12%float) ]) = Throw e.
Proof. eexists. vm_compute. reflexivity. Qed.

(** *** The year of a due date *)

Lemma YearFromDay_spec (y d : Z) :
  JsDate.DayFromYear y <= d < JsDate.DayFromYear (y + 1) ->
  JsDate.YearFromDay d = y.
Proof.
  unfold JsDate.YearFromDay. cbv zeta.
  set (e := 1970 + d * 400 / 146097).
  assert (He : 146097 * (e - 1970) <= d * 400
               < 146097 * (e - 1970) + 146097).
  { subst e. Z.div_mod_to_equations. lia. }
  clearbody e.
  unfold JsDate.DayFromYear in *. intros H.
  destruct (Z.leb_spec
              (365 * (e + 1 - 1970) + (e + 1 - 1969) / 4
               - (e + 1 - 1901) / 100 + (e + 1 - 1601) / 400) d);
    [| destruct (Z.ltb_spec d
                   (365 * (e - 1970) + (e - 1969) / 4
                    - (e - 1901) / 100 + (e - 1601) / 400)) ].
  all: Z.div_mod_to_equations; lia.
Qed.

Lemma DayFromYear_succ (y : Z) :
  JsDate.DayFromYear (y + 1) = JsDate.DayFromYear y + JsDate.DaysInYear y.
Proof.
  unfold JsDate.DayFromYear, JsDate.DaysInYear, JsDate.isLeap.
  destruct (Z.eqb_spec (y mod 4) 0); destruct (Z.eqb_spec (y mod 100) 0);
    destruct (Z.eqb_spec (y mod 400) 0); cbn [andb orb negb];
    Z.div_mod_to_equations; lia.
Qed.

Lemma digitVal_range (c : ascii) (x : Z) :
  JsDate.digitVal c = Some x -> 0 <= x <= 9.
Proof.
  unfold JsDate.digitVal, Js.isDigit, Js.inRange.
  destruct (Z.leb_spec 48 (Js.code c)); destruct (Z.leb_spec (Js.code c) 57);
    cbn [andb]; intros Hx; inversion Hx; lia.
Qed.

Lemma digits2_range (a b : ascii) (x : Z) :
  JsDate.digits2 a b = Some x -> 0 <= x <= 99.
Proof.
  unfold JsDate.digits2.
  destruct (JsDate.digitVal a) as [p|] eqn:Ha; [| discriminate ].
  destruct (JsDate.digitVal b) as [q|] eqn:Hb; [| discriminate ].
  apply digitVal_range in Ha. apply digitVal_range in Hb.
  intros H. assert (x = 10 * p + q) by congruence. lia.
Qed.

Lemma digits4_range (a b c d : ascii) (x : Z) :
  JsDate.digits4 a b c d = Some x -> 0 <= x <= 9999.
Proof.
  unfold JsDate.digits4.
  destruct (JsDate.digits2 a b) as [p|] eqn:Ha; [| discriminate ].
  destruct (JsDate.digits2 c d) as [q|] eqn:Hb; [| discriminate ].
  apply digits2_range in Ha. apply digits2_range in Hb.
  intros H. assert (x = 100 * p + q) by congruence. lia.
Qed.

Lemma daysBeforeMonth_bounds (leap : bool) (m : Z) :
  0 <= m <= 11 ->
  0 <= JsDate.daysBeforeMonth leap m /\
  JsDate.daysBeforeMonth leap m < JsDate.daysBeforeMonth leap (m + 1) /\
  JsDate.daysBeforeMonth leap (m + 1) <= (if leap then 366 else 365).
Proof.
  intros Hm.
  assert (Hm' : m = 0 \/ m = 1 \/ m = 2 \/ m = 3 \/ m = 4 \/ m = 5 \/
                m = 6 \/ m = 7 \/ m = 8 \/ m = 9 \/ m = 10 \/ m = 11) by lia.
  repeat (destruct Hm' as [-> | Hm']; [ destruct leap; cbn; lia |]).
  subst m. destruct leap; cbn; lia.
Qed.

Lemma parseDateOnly_range (s : string) (y m d : Z) :
  JsDate.parseDateOnly s = Some (y, m, d) ->
  0 <= y <= 9999 /\ 1 <= m <= 12 /\ 1 <= d <= JsDate.DaysInMonth y (m - 1).
Proof.
  unfold JsDate.parseDateOnly.
  destruct s as [| y1 [| y2 [| y3 [| y4 rest]]]]; try discriminate.
  destruct (JsDate.digits4 y1 y2 y3 y4) as [yy|] eqn:Hy; [| discriminate ].
  apply digits4_range in Hy.
  assert (Hfirst : forall k, 1 <= k <= 12 ->
                             1 <= 1 <= JsDate.DaysInMonth yy (k - 1)).
  { intros k Hk. unfold JsDate.DaysInMonth.
    pose proof (daysBeforeMonth_bounds (JsDate.isLeap yy) (k - 1)). lia. }
  destruct rest as [| dash1 [| m1 [| m2 rest']]]; try discriminate.
  - intros Heq; inversion Heq; subst. specialize (Hfirst 1). lia.
  - destruct (JsDate.digits2 m1 m2) as [mm|] eqn:Hm; [| discriminate ].
    destruct (Ascii.eqb dash1 "-"); cbn [andb]; [| discriminate ].
    destruct (Z.leb_spec 1 mm); cbn [andb]; [| discriminate ].
    destruct (Z.leb_spec mm 12); cbn [andb]; [| discriminate ].
    destruct rest' as [| dash2 [| d1 [| d2 [| ? ?]]]]; try discriminate.
    + intros Heq; inversion Heq; subst. specialize (Hfirst m). lia.
    + destruct (JsDate.digits2 d1 d2) as [dd|] eqn:Hd; [| discriminate ].
      destruct (Ascii.eqb dash2 "-"); cbn [andb]; [| discriminate ].
      destruct (Z.leb_spec 1 dd); cbn [andb]; [| discriminate ].
      destruct (Z.leb_spec dd (JsDate.DaysInMonth yy (mm - 1)));
        [| discriminate ].
      intros Heq; inversion Heq; subst. lia.
Qed.

Lemma dayWithinYear_range (y m d : Z) :
  1 <= m <= 12 -> 1 <= d <= JsDate.DaysInMonth y (m - 1) ->
  0 <= JsDate.daysBeforeMonth (JsDate.isLeap y) (m - 1) + d - 1
    < JsDate.DaysInYear y.
Proof.
  intros Hm. unfold JsDate.DaysInMonth, JsDate.DaysInYear.
  pose proof (daysBeforeMonth_bounds (JsDate.isLeap y) (m - 1)). lia.
Qed.

Lemma getFullYear_date_only (host : JsDate.Host) (s : string) (y m d : Z) :
  (forall t, 0 <= JsDate.LocalTZA host t < JsDate.msPerDay) ->
  JsDate.parseDateOnly s = Some (y, m, d) ->
  exists t, JsDate.parse host s = Some t /\ JsDate.getFullYear host t = y.
Proof.
  intros Hzone Hparse. pose proof (parseDateOnly_range _ _ _ _ Hparse) as (Hy & Hm & Hd).
  pose proof (dayWithinYear_range y m d Hm Hd) as Hk.
  unfold JsDate.parse. rewrite Hparse.
  unfold JsDate.MakeDate, JsDate.MakeDay.
  set (k := JsDate.daysBeforeMonth (JsDate.isLeap y) (m - 1) + d - 1) in *.
  replace (JsDate.DayFromYear y + JsDate.daysBeforeMonth (JsDate.isLeap y) (m - 1) + d - 1) with (JsDate.DayFromYear y + k) by (subst k; lia).
  assert (Hdays : JsDate.DaysInYear y <= 366) by (unfold JsDate.DaysInYear; destruct (JsDate.isLeap y); lia).
  assert (Hdfy : -719528 <= JsDate.DayFromYear y <= 2932897).
  { unfold JsDate.DayFromYear. Z.div_mod_to_equations. lia. }
  unfold JsDate.TimeClip.
  destruct (Z.leb_spec (Z.abs ((JsDate.DayFromYear y + k) * JsDate.msPerDay + 0)) 8640000000000000) as [_ | Hbig];
    [| unfold JsDate.msPerDay in Hbig; lia ].
  eexists. split; [ reflexivity |].
  unfold JsDate.getFullYear, JsDate.YearFromTime, JsDate.LocalTime, JsDate.Day.
  specialize (Hzone ((JsDate.DayFromYear y + k) * JsDate.msPerDay + 0)).
  set (off := JsDate.LocalTZA host _) in *.
  replace (((JsDate.DayFromYear y + k) * JsDate.msPerDay + 0 + off) / JsDate.msPerDay) with (JsDate.DayFromYear y + k).
  - apply YearFromDay_spec. rewrite DayFromYear_succ. lia.
  - unfold JsDate.msPerDay in *. Z.div_mod_to_equations. lia.
Qed.

(** On a device at or east of UTC (by less than a day) a date-only due
    date is kept exactly when its written year lies in 2000..2100. *)
Lemma validateDocumentAnalysis_due_date_east_of_utc
  (host : JsDate.Host) (data : value) (title s : string) (y m d : Z) :
  (forall t, 0 <= JsDate.LocalTZA host t < JsDate.msPerDay) ->
  isObject data ->
  prop data "title" = Some (JStr title) ->
  Js.trim title <> "" ->
  prop data "due_date" = Some (JStr s) ->
  JsDate.parseDateOnly s = Some (y, m, d) ->
  exists r,
    validateDocumentAnalysis host data = Ok r /\
    DocumentAnalysis.due_date r =
      if (y <? 2000) || (2100 <? y) then None else Some s.
Proof.
  intros Hzone Hobj Htitle Htrim Hdue Hparse.
  destruct (validateDocumentAnalysis_Ok host data title Hobj Htitle Htrim)
    as (r & Hr & _ & _ & _ & Hd & _).
  exists r. split; [ exact Hr |].
  rewrite Hd, Hdue.
  destruct (getFullYear_date_only host s y m d Hzone Hparse) as (t & Ht & Hy).
  rewrite Ht, Hy. reflexivity.
Qed.

(** So it is on UTC and in India, at the four years of the claim. *)
Lemma validateDocumentAnalysis_due_date_utc_kolkata :
  forall host, host = utc \/ host = kolkata ->
  map (fun s =>
         match validateDocumentAnalysis host (billDue s) with
         | Ok r => DocumentAnalysis.due_date r
         | Throw _ => Some "thrown"
         end)
    [ "1999-12-31"; "2000-01-01"; "2100-12-31"; "2101-01-01" ]
  = [ None; Some "2000-01-01"; Some "2100-12-31"; None ].
Proof. intros host [-> | ->]; vm_compute; reflexivity. Qed.

(** C4: on a device five hours west of UTC the validator coerces the due
    date 2000-01-01 to null and retains 2101-01-01, although the first lies
    in the year 2000 and the second in 2101: a date-only string is midnight
    in UTC, and [getFullYear] reads the year of that instant in local
    time. *)
Theorem validateDocumentAnalysis_due_date_west_of_utc :
  (exists r,
     validateDocumentAnalysis newYork (billDue "2000-01-01") = Ok r /\
     DocumentAnalysis.due_date r = None) /\
  (exists r,
     validateDocumentAnalysis newYork (billDue "2101-01-01") = Ok r /\
     DocumentAnalysis.due_date r = Some "2101-01-01").
Proof. split; eexists; split; vm_compute; reflexivity. Qed.

End AiFacts.

(* ================================================================= *)
(** ** The state-and-exception monad of the stores *)

Section MonadFacts.
Import Stores StoresSpec.
Context {Remote : Type}.

Lemma bind_Ok {A B} (m : M Remote A) (k : A -> M Remote B)
  (w w' : World Remote) (b : B) :
  bind Remote m k w = (Ok b, w') ->
  exists a w1, m w = (Ok a, w1) /\ k a w1 = (Ok b, w').
Proof.
  unfold bind. destruct (m w) as [[a | e] w1]; intros H.
  - exists a, w1. split; [ reflexivity | exact H ].
  - discriminate H.
Qed.

Lemma try_Ok {A} (m : M Remote A) (handler : Exn -> M Remote A)
  (w w' : World Remote) (a : A) :
  try Remote m handler w = (Ok a, w') ->
  m w = (Ok a, w') \/
  exists e w1, m w = (Throw e, w1) /\ handler e w1 = (Ok a, w').
Proof.
  unfold try. destruct (m w) as [[a0 | e] w1]; intros H.
  - left. exact H.
  - right. exists e, w1. split; [ reflexivity | exact H ].
Qed.

(** *** Frame rules *)

Context {X : Type} (part : World Remote -> X).

Lemma preserves_ret {A} (a : A) : preserves part (ret Remote a).
Proof. intros w. reflexivity. Qed.

Lemma preserves_throw {A} (e : Exn) : preserves part (@throw Remote A e).
Proof. intros w. reflexivity. Qed.

Lemma preserves_gets {A} (f : World Remote -> A) :
  preserves part (gets Remote f).
Proof. intros w. reflexivity. Qed.

Lemma preserves_await {A} (r : Result A) : preserves part (await Remote r).
Proof. intros w. reflexivity. Qed.

Lemma preserves_bind {A B} (m : M Remote A) (k : A -> M Remote B) :
  preserves part m -> (forall a, preserves part (k a)) ->
  preserves part (bind Remote m k).
Proof.
  intros Hm Hk w. unfold bind. specialize (Hm w).
  destruct (m w) as [[a | e] w1]; cbn [snd] in *.
  - rewrite (Hk a w1). exact Hm.
  - exact Hm.
Qed.

Lemma preserves_try {A} (m : M Remote A) (handler : Exn -> M Remote A) :
  preserves part m -> (forall e, preserves part (handler e)) ->
  preserves part (try Remote m handler).
Proof.
  intros Hm Hh w. unfold try. specialize (Hm w).
  destruct (m w) as [[a | e] w1]; cbn [snd] in *.
  - exact Hm.
  - rewrite (Hh e w1). exact Hm.
Qed.

Lemma preserves_modify (f : World Remote -> World Remote) :
  (forall w, part (f w) = part w) -> preserves part (modify Remote f).
Proof. intros Hf w. apply Hf. Qed.

Lemma preserves_call {A} (f : Remote -> Result A * Remote) :
  (forall db w, part (withRemote Remote db w) = part w) ->
  preserves part (call Remote f).
Proof.
  intros Hf w. unfold call. destruct (f (remote w)) as [r db]. apply Hf.
Qed.

Lemma preserves_storageCall :
  (forall l w, part (withFaults l w) = part w) ->
  preserves part (storageCall Remote).
Proof.
  intros Hf w. unfold storageCall.
  destruct (faults w) as [| [|] rest]; cbn [snd]; auto.
Qed.

Lemma preserves_forEach {A} (l : list A) (body : A -> M Remote unit) :
  (forall x, preserves part (body x)) ->
  preserves part (forEach Remote l body).
Proof.
  intros Hbody. induction l as [| x rest IH]; cbn [forEach].
  - apply preserves_ret.
  - apply preserves_bind; [ apply Hbody | intros _; exact IH ].
Qed.

End MonadFacts.

(** The frame rules, applied along the structure of a computation. *)
Ltac frame_step :=
  first
    [ apply preserves_ret
    | apply preserves_throw
    | apply preserves_gets
    | apply preserves_await
    | apply preserves_bind; [| intros ? ]
    | apply preserves_try; [| intros ? ]
    | apply preserves_forEach; intros ?
    | apply preserves_modify; intros ?; reflexivity
    | apply preserves_call; intros ? ?; reflexivity
    | apply preserves_storageCall; intros ? ?; reflexivity
    | match goal with
      | |- StoresSpec.preserves _ (match ?x with _ => _ end) => destruct x
      end ].


(* ================================================================= *)
(** ** Folder routing and the scan *)

Section ItemsStoreFacts.
Import Stores StoresSpec.

(** C8, as stated, fails: for the title Electric Bill and the category
    Finance the folder name is not Utility Bills. *)
Lemma determineFolderName_electric_bill_not_utility :
  determineFolderName "Electric Bill" Finance <> "Utility Bills".
Proof. vm_compute. discriminate. Qed.

(** C8, amended: no keyword of the document-type table occurs in the title
    Electric Bill (the table has electricity bill), so the folder name is
    the category fallback Finance Documents; the title Electricity Bill
    resolves to Utility Bills by the keyword table. *)
Theorem determineFolderName_electric_bill :
  find (fun entry => Js.includes (Js.toLowerCase "Electric Bill") (fst entry))
    documentFolderMap = None /\
  determineFolderName "Electric Bill" Finance = "Finance Documents" /\
  determineFolderName "Electricity Bill" Finance = "Utility Bills".
Proof. repeat split; vm_compute; reflexivity. Qed.

(** The keyword table is consulted before the category. *)
Lemma determineFolderName_keyword (title : string) (category : ItemCategory)
  (keyword folderName : string) :
  find (fun entry => Js.includes (Js.toLowerCase title) (fst entry))
    documentFolderMap = Some (keyword, folderName) ->
  determineFolderName title category = folderName.
Proof. intros H. unfold determineFolderName. cbv zeta. rewrite H. reflexivity. Qed.

Ltac bind_inv H :=
  let a := fresh "a" in
  let w := fresh "w" in
  let Hm := fresh "Hm" in
  apply bind_Ok in H; destruct H as (a & w & Hm & H); cbv beta zeta in H.

(** C10: every scan that succeeds reports that no alert was created and
    gives no alert type. *)
Theorem scanDocument_reports_no_alert {Remote : Type}
  (supabase : Supabase Remote) (platform : Platform)
  (INDIAN_DOCUMENT_PROMPT imageUri userId : string)
  (w w' : World Remote) (result : ScanResult.t) :
  scanDocument supabase platform INDIAN_DOCUMENT_PROMPT imageUri userId w
    = (Ok result, w') ->
  ScanResult.alertCreated result = false /\
  ScanResult.alertType result = None.
Proof.
  unfold scanDocument. intros H.
  bind_inv H.
  apply try_Ok in H. destruct H as [H | (e & w1 & _ & H)].
  - do 7 bind_inv H.
    unfold ret in H. inversion H; subst result. split; reflexivity.
  - bind_inv H. discriminate H.
Qed.

(** C10 at the scan of an electricity bill due in three days. *)
Lemma scanDocument_reports_no_alert_witness :
  fst (scanDocument offline device prompt "content://scan.jpg" "user-1"
         (worldWith [] [])) = Ok scanned /\
  ScanResult.alertCreated scanned = false /\
  ScanResult.alertType scanned = None.
Proof.
  assert (Hfst :
    fst (scanDocument offline device prompt "content://scan.jpg" "user-1"
           (worldWith [] [])) = Ok scanned) by (vm_compute; reflexivity).
  split; [ exact Hfst |].
  destruct (scanDocument offline device prompt "content://scan.jpg" "user-1"
              (worldWith [] [])) as [res w'] eqn:Hscan.
  cbn [fst] in Hfst. subst res.
  exact (scanDocument_reports_no_alert _ _ _ _ _ _ _ _ Hscan).
Defined.

(** *** Marking a document paid *)

(** [markAsPaid] writes neither the alerts of the guardian store nor the
    alerts the device holds. *)
Lemma markAsPaid_alerts {Remote : Type} (supabase : Supabase Remote)
  (itemId : string) :
  preserves
    (fun w : World Remote => (guardian w, AsyncStorage.ALERTS (storage w)))
    (markAsPaid supabase itemId).
Proof.
  unfold markAsPaid, updateLocalItem, getAllLocalItems, getItem, setItem,
    setItemsStore.
  repeat frame_step.
Qed.

(** C7: with one document and its one active alert, marking the document
    paid succeeds and sets its status, in the store and on the device, and
    the alert stays active in the guardian store and on the device: the
    store action does not dismiss alerts, and no caller of it does. *)
Theorem markAsPaid_leaves_alert_active :
  exists w',
    markAsPaid offline "item-1"
      (worldWith [ document "item-1" "2026-11-05" ]
         [ alertFor "alert-1" "item-1" ]) = (Ok tt, w') /\
    map Item.status (ItemsState.items (itemsStore w')) = [ paid ] /\
    option_map (map Item.status) (AsyncStorage.ITEMS (storage w'))
      = Some [ paid ] /\
    activeFor "item-1" (GuardianState.alerts (guardian w'))
      = [ alertFor "alert-1" "item-1" ] /\
    activeFor "item-1" (storedAlerts w') = [ alertFor "alert-1" "item-1" ].
Proof. eexists. repeat split; vm_compute; reflexivity. Qed.

(** The action that would dismiss them: on the alerts of the repository's
    cascade test it dismisses the two alerts of the document and leaves the
    alert of the other document active. *)
Lemma dismissAlertsForItem_cascade :
  exists w',
    dismissAlertsForItem offline "item-1"
      (worldWith [ document "item-1" "2026-11-05" ]
         [ alertFor "a1" "item-1"; alertFor "a2" "item-1";
           alertFor "a3" "item-2" ]) = (Ok tt, w') /\
    GuardianState.alerts (guardian w')
      = [ dismissed (alertFor "a1" "item-1");
          dismissed (alertFor "a2" "item-1"); alertFor "a3" "item-2" ] /\
    storedAlerts w' = GuardianState.alerts (guardian w') /\
    GuardianState.unreadCount (guardian w') = 1.
Proof. eexists. repeat split; vm_compute; reflexivity. Qed.

End ItemsStoreFacts.

(* ================================================================= *)
(** ** The rate limiter *)

Section RateLimiterFacts.
Import RateLimiter RateLimiterSpec.
Context {World Value Reason : Type}.
Implicit Types (rs done waiting : list (Request World Value Reason)).
Implicit Types (s : State World Value Reason) (w : World).

Lemma runAll_app rs1 rs2 w :
  runAll (rs1 ++ rs2) w =
  (fst (runAll rs1 w) ++ fst (runAll rs2 (snd (runAll rs1 w))),
   snd (runAll rs2 (snd (runAll rs1 w)))).
Proof.
  revert w. induction rs1 as [| r rest IH]; intros w; cbn [app runAll fst snd].
  - destruct (runAll rs2 w); reflexivity.
  - destruct (r w) as [o w1]. rewrite IH.
    destruct (runAll rest w1) as [os w2]. reflexivity.
Qed.

Lemma runAll_length rs w : List.length (fst (runAll rs w)) = List.length rs.
Proof.
  revert w. induction rs as [| r rest IH]; intros w; cbn [runAll].
  - reflexivity.
  - destruct (r w) as [o w1]. specialize (IH w1).
    destruct (runAll rest w1) as [os w2]. cbn in *. lia.
Qed.

Lemma entries_app n rs (r : Request World Value Reason) :
  entries n (rs ++ [r]) =
  entries n rs ++ [ {| request := r; promise := (n + List.length rs)%nat |} ].
Proof.
  revert n. induction rs as [| r0 rest IH]; intros n; cbn [app entries].
  - rewrite Nat.add_0_r. reflexivity.
  - rewrite IH. cbn [List.length]. rewrite Nat.add_succ_r. reflexivity.
Qed.

Lemma settle_pending (outs : list (Outcome Value Reason)) o
  (rest : list (option (Outcome Value Reason))) :
  settle (List.length outs) o (map Some outs ++ None :: rest) =
  map Some (outs ++ [o]) ++ rest.
Proof.
  induction outs as [| o0 outs IH]; cbn.
  - reflexivity.
  - rewrite IH. reflexivity.
Qed.

Lemma Inv_length w0 rs s :
  Inv w0 rs s -> List.length (promises s) = List.length rs.
Proof.
  intros (done & waiting & outs & Hrs & Hrun & Hprom & _).
  rewrite Hprom, Hrs. rewrite !length_app, length_map, repeat_length.
  pose proof (runAll_length done w0) as Hlen. rewrite Hrun in Hlen.
  cbn [fst] in Hlen. rewrite !length_app in *. lia.
Qed.

Lemma Inv_init w0 : Inv (Value := Value) (Reason := Reason) w0 [] (init w0).
Proof.
  exists [], [], []. cbn. repeat split; reflexivity.
Qed.

Lemma seq_snoc (n : nat) : seq 0 (n + 1) = seq 0 n ++ [n].
Proof. rewrite seq_app. reflexivity. Qed.

(** The head of the loop, when the coroutine has run [done] and holds
    nothing. *)
Lemma Inv_next w0 done waiting outs now s :
  runAll done w0 = (outs, world s) ->
  promises s = map Some outs ++ repeat None (List.length waiting) ->
  queue s = entries (List.length done) waiting ->
  dispatched s = seq 0 (List.length done) ->
  isProcessing s = true ->
  Inv w0 (done ++ waiting) (next now s).
Proof.
  intros Hrun Hprom Hqueue Hdisp Hproc. unfold next. rewrite Hqueue.
  destruct waiting as [| r rest]; cbn [entries].
  - exists done, [], outs. cbn in *. rewrite !app_nil_r, Nat.add_0_r.
    rewrite app_nil_r in Hprom.
    repeat split; assumption || reflexivity.
  - destruct (0 <? Z.max 0 (minDelayMs - (now - lastRequestTime s))).
    + exists done, rest, outs. cbn in *.
      rewrite length_app, Nat.add_1_r, Nat.add_0_r. cbn.
      repeat split; assumption || reflexivity.
    + exists done, rest, outs. cbn in *.
      rewrite length_app, Nat.add_1_r, seq_snoc. cbn.
      rewrite Hdisp.
      repeat split; assumption || reflexivity.
Qed.

Lemma repeat_snoc {A} (x : A) (n : nat) :
  repeat x n ++ [x] = repeat x (S n).
Proof.
  replace (S n) with (n + 1)%nat by lia. rewrite repeat_app. reflexivity.
Qed.

Lemma Inv_queueRequest w0 rs s r now :
  Inv w0 rs s -> Inv w0 (rs ++ [r]) (queueRequest r now s).
Proof.
  intros HI. pose proof (Inv_length _ _ _ HI) as Hlen.
  destruct HI as (done & waiting & outs & Hrs & Hrun & Hprom & Hqueue & Hdisp & Hwk).
  unfold queueRequest, processQueue. cbn [isProcessing queue].
  destruct (worker s) as [| item since delayNeeded | item] eqn:Hworker; cbn [current called app] in *.
  - destruct Hwk as [Hproc ->]. rewrite Hproc. cbn [orb].
    rewrite Hqueue. cbn [entries app List.length].
    change (Z.of_nat 1 =? 0) with false. cbv iota.
    cbn [lastRequestTime worker promises dispatched world].
    rewrite app_nil_r in Hrs. subst rs.
    cbn [List.length repeat] in Hprom. rewrite app_nil_r in Hprom.
    rewrite Nat.add_0_r in Hdisp.
    apply (Inv_next w0 done [r] outs); cbn.
    + exact Hrun.
    + rewrite Hprom. reflexivity.
    + rewrite Hlen. reflexivity.
    + exact Hdisp.
    + reflexivity.
  - destruct Hwk as [Hproc Hitem]. rewrite Hproc. cbn [orb].
    exists done, (waiting ++ [r]), outs.
    cbn [worker world promises queue dispatched isProcessing current app].
    split; [ rewrite Hrs, <- app_assoc; reflexivity |].
    split; [ exact Hrun |].
    split.
    { rewrite Hprom, <- app_assoc. f_equal. cbn [List.length].
      rewrite length_app. cbn [List.length]. rewrite Nat.add_1_r.
      rewrite <- (repeat_snoc None (S (List.length waiting))). reflexivity. }
    split.
    { rewrite Hqueue, entries_app. do 3 f_equal.
      rewrite Hlen, Hrs, !length_app. cbn [List.length]. lia. }
    split; [ exact Hdisp |]. split; [ reflexivity | exact Hitem ].
  - destruct Hwk as [Hproc Hitem]. rewrite Hproc. cbn [orb].
    exists done, (waiting ++ [r]), outs.
    cbn [worker world promises queue dispatched isProcessing current app].
    split; [ rewrite Hrs, <- app_assoc; reflexivity |].
    split; [ exact Hrun |].
    split.
    { rewrite Hprom, <- app_assoc. f_equal. cbn [List.length].
      rewrite length_app. cbn [List.length]. rewrite Nat.add_1_r.
      rewrite <- (repeat_snoc None (S (List.length waiting))). reflexivity. }
    split.
    { rewrite Hqueue, entries_app. do 3 f_equal.
      rewrite Hlen, Hrs, !length_app. cbn [List.length]. lia. }
    split; [ exact Hdisp |]. split; [ reflexivity | exact Hitem ].
Qed.

Lemma Inv_resume w0 rs s now : Inv w0 rs s -> Inv w0 rs (resume now s).
Proof.
  intros HI.
  destruct HI as (done & waiting & outs & Hrs & Hrun & Hprom & Hqueue & Hdisp & Hwk).
  unfold resume.
  destruct (worker s) as [| item since delayNeeded | item] eqn:Hworker; cbn [current called app] in *.
  - exists done, waiting, outs. rewrite Hworker. cbn [current called app].
    repeat split; try assumption; apply Hwk.
  - destruct Hwk as [Hproc Hitem].
    exists done, waiting, outs. unfold call.
    cbn [worker world promises queue dispatched isProcessing current called app].
    repeat split; try assumption.
    rewrite Hdisp, Hitem, Nat.add_0_r, seq_snoc. reflexivity.
  - destruct Hwk as [Hproc Hitem].
    destruct (request item (world s)) as [o w1] eqn:Hreq.
    subst rs. 
    replace (done ++ request item :: waiting) with ((done ++ [request item]) ++ waiting)
      by (rewrite <- app_assoc; reflexivity).
    apply (Inv_next w0 (done ++ [request item]) waiting (outs ++ [o]));
      cbn [worker world promises queue dispatched isProcessing].
    + rewrite runAll_app, Hrun. cbn [fst snd runAll]. rewrite Hreq. reflexivity.
    + rewrite Hprom, Hitem. cbn [List.length repeat].
      pose proof (runAll_length done w0) as Hl. rewrite Hrun in Hl. cbn [fst] in Hl.
      rewrite <- Hl. apply settle_pending.
    + exact Hqueue.
    + rewrite Hdisp, length_app. reflexivity.
    + exact Hproc.
Qed.

Lemma Inv_run w0 events rs s :
  Inv w0 rs s -> Inv w0 (rs ++ submitted events) (run events s).
Proof.
  revert rs s. induction events as [| e rest IH]; intros rs s HI.
  - cbn. rewrite app_nil_r. exact HI.
  - cbn [run fold_left submitted flat_map]. destruct e as [r now | now]; cbn [step].
    + change (rs ++ [r] ++ flat_map _ rest) with (rs ++ [r] ++ submitted rest).
      rewrite app_assoc. apply IH. apply Inv_queueRequest. exact HI.
    + cbn [app]. apply IH. apply Inv_resume. exact HI.
Qed.

Lemma entries_length n rs : List.length (entries n rs) = List.length rs.
Proof.
  revert n. induction rs as [| r rest IH]; intros n; cbn; [ reflexivity |].
  rewrite IH. reflexivity.
Qed.

Lemma submitted_resumes (nows : list Z) :
  submitted (World := World) (Value := Value) (Reason := Reason)
    (map Resume nows) = [].
Proof. induction nows as [| now rest IH]; cbn; [ reflexivity | exact IH ]. Qed.

Lemma remaining_bound w0 rs s :
  Inv w0 rs s -> (remaining s <= 2 * List.length rs)%nat.
Proof.
  intros (done & waiting & outs & Hrs & _ & _ & Hqueue & _ & _).
  unfold remaining. rewrite Hqueue, entries_length, Hrs, !length_app.
  destruct (worker s); cbn [current List.length]; lia.
Qed.

Lemma remaining_resume s now :
  worker s <> Idle -> (remaining (resume now s) < remaining s)%nat.
Proof.
  intros Hbusy. unfold resume, remaining.
  destruct (worker s) as [| item since delayNeeded | item]; [ contradiction | |].
  - cbn. lia.
  - destruct (request item (world s)) as [o w1]. unfold next.
    cbn [queue]. destruct (queue s) as [| item' rest]; [ cbn; lia |].
    destruct (0 <? Z.max 0 (minDelayMs - (now - _))); cbn; lia.
Qed.

(** Resumed often enough, the coroutine comes to rest. *)
Lemma drained w0 rs (nows : list Z) s :
  Inv w0 rs s -> (remaining s <= List.length nows)%nat ->
  worker (run (map Resume nows) s) = Idle.
Proof.
  revert s. induction nows as [| now rest IH]; intros s HI Hrem.
  - cbn in *. unfold remaining in Hrem.
    destruct (worker s); [ reflexivity | lia | lia ].
  - cbn [map run fold_left step]. apply IH.
    + apply Inv_resume. exact HI.
    + destruct (worker s) as [| item since delayNeeded | item] eqn:Hworker.
      * unfold resume. rewrite Hworker.
        destruct HI as (done & waiting & outs & _ & _ & _ & Hqueue & _ & Hwk).
        rewrite Hworker in Hwk. destruct Hwk as [_ ->].
        unfold remaining. rewrite Hqueue, Hworker. cbn. lia.
      * assert (Hbusy : worker s <> Idle) by (rewrite Hworker; discriminate).
        pose proof (remaining_resume s now Hbusy). cbn [List.length] in Hrem. lia.
      * assert (Hbusy : worker s <> Idle) by (rewrite Hworker; discriminate).
        pose proof (remaining_resume s now Hbusy). cbn [List.length] in Hrem. lia.
Qed.

(** At rest every request has been run and every promise is settled. *)
Lemma Inv_idle w0 rs s :
  Inv w0 rs s -> worker s = Idle ->
  promises s = map Some (fst (runAll rs w0)) /\
  dispatched s = seq 0 (List.length rs) /\
  world s = snd (runAll rs w0) /\
  isProcessing s = false /\ queue s = [].
Proof.
  intros (done & waiting & outs & Hrs & Hrun & Hprom & Hqueue & Hdisp & Hwk) Hidle.
  rewrite Hidle in *. cbn [current called app] in *. destruct Hwk as [Hproc ->].
  rewrite app_nil_r in Hrs. subst rs. rewrite Hrun. cbn [fst snd].
  cbn in Hprom. rewrite app_nil_r in Hprom. rewrite Nat.add_0_r in Hdisp.
  repeat split; assumption.
Qed.

(** A settled promise holds the outcome of its own request, run after the
    requests submitted before it. *)
Lemma Inv_settled w0 rs s (i : nat) (o : Outcome Value Reason) :
  Inv w0 rs s ->
  nth_error (promises s) i = Some (Some o) ->
  nth_error (fst (runAll rs w0)) i = Some o.
Proof.
  intros (done & waiting & outs & Hrs & Hrun & Hprom & _) Hnth.
  rewrite Hrs, runAll_app, Hrun. cbn [fst snd].
  rewrite Hprom in Hnth.
  destruct (Nat.lt_ge_cases i (List.length outs)) as [Hlt | Hge].
  - rewrite nth_error_app1 in Hnth by (rewrite length_map; exact Hlt).
    rewrite nth_error_app1 by exact Hlt.
    rewrite nth_error_map in Hnth.
    destruct (nth_error outs i); cbn in Hnth; congruence.
  - rewrite nth_error_app2 in Hnth by (rewrite length_map; exact Hge).
    apply nth_error_In, repeat_spec in Hnth. discriminate Hnth.
Qed.

(** C9: for every interleaving of submissions and resumptions, each
    submission gets the next promise; the requests are called in the order
    of submission; a settled promise holds the outcome, value or rejection,
    of its own request, run after the requests submitted before it; and
    resumed often enough the limiter calls every request and settles every
    promise, whatever the earlier requests settled with. *)
Theorem queueRequest_fifo_own_outcome (w0 : World)
  (events : list (Event World Value Reason)) (nows : list Z) :
  List.length (promises (run events (init w0)))
    = List.length (submitted events) /\
  (exists k, (k <= List.length (submitted events))%nat /\
             dispatched (run events (init w0)) = seq 0 k) /\
  (forall i o,
     nth_error (promises (run events (init w0))) i = Some (Some o) ->
     nth_error (fst (runAll (submitted events) w0)) i = Some o) /\
  ((2 * List.length (submitted events) <= List.length nows)%nat ->
   promises (run (map Resume nows) (run events (init w0)))
     = map Some (fst (runAll (submitted events) w0)) /\
   dispatched (run (map Resume nows) (run events (init w0)))
     = seq 0 (List.length (submitted events)) /\
   world (run (map Resume nows) (run events (init w0)))
     = snd (runAll (submitted events) w0) /\
   isProcessing (run (map Resume nows) (run events (init w0))) = false).
Proof.
  pose proof (Inv_run w0 events [] (init w0) (Inv_init w0)) as HI.
  cbn [app] in HI.
  split; [ exact (Inv_length _ _ _ HI) |].
  split.
  { destruct HI as (done & waiting & outs & Hrs & _ & _ & _ & Hdisp & _).
    eexists. split; [| exact Hdisp ].
    rewrite Hrs, !length_app.
    destruct (worker (run events (init w0))); cbn; lia. }
  split; [ intros i o; apply Inv_settled; exact HI |].
  intros Hnows.
  pose proof (Inv_run w0 (map Resume nows) _ _ HI) as HI'.
  rewrite submitted_resumes, app_nil_r in HI'.
  assert (Hidle : worker (run (map Resume nows) (run events (init w0))) = Idle).
  { apply (drained w0 (submitted events)); [ exact HI |].
    pose proof (remaining_bound _ _ _ HI). lia. }
  destruct (Inv_idle _ _ _ HI' Hidle) as (Hp & Hd & Hw & Hproc & _).
  repeat split; assumption.
Qed.

End RateLimiterFacts.

(** C9 at three requests of which the second is rejected. *)
Lemma queueRequest_fifo_own_outcome_witness :
  (2 * List.length (RateLimiter.submitted RateLimiterSpec.threeCalls)
   <= List.length RateLimiterSpec.sixResumes)%nat /\
  RateLimiter.promises
    (RateLimiter.run (map RateLimiter.Resume RateLimiterSpec.sixResumes)
       (RateLimiter.run RateLimiterSpec.threeCalls (RateLimiter.init 0)))
  = [ Some (RateLimiter.Fulfilled 0);
      Some (RateLimiter.Rejected "HTTP 429");
      Some (RateLimiter.Fulfilled 1) ] /\
  RateLimiter.dispatched
    (RateLimiter.run (map RateLimiter.Resume RateLimiterSpec.sixResumes)
       (RateLimiter.run RateLimiterSpec.threeCalls (RateLimiter.init 0)))
  = [ 0%nat; 1%nat; 2%nat ].
Proof.
  assert (H : (2 * List.length
                     (RateLimiter.submitted RateLimiterSpec.threeCalls)
               <= List.length RateLimiterSpec.sixResumes)%nat)
    by (cbn; lia).
  split; [ exact H |].
  destruct (queueRequest_fifo_own_outcome 0 RateLimiterSpec.threeCalls
              RateLimiterSpec.sixResumes) as (_ & _ & _ & Hdrain).
  destruct (Hdrain H) as (Hp & Hd & _).
  split; [ rewrite Hp | rewrite Hd ]; vm_compute; reflexivity.
Defined.


(* ================================================================= *)
(** ** The guardian store: deadlines *)

Section GuardianFacts.
Import Stores StoresSpec.
Context {Remote : Type} (supabase : Supabase Remote) (platform : Platform).
Implicit Types (w : World Remote).

Lemma storageCall_run w : faults w = [] -> storageCall Remote w = (Ok tt, w).
Proof. intros H. unfold storageCall. rewrite H. reflexivity. Qed.

Lemma getItem_run {A} (key : AsyncStorage.t -> option A) w :
  faults w = [] -> getItem Remote key w = (Ok (key (storage w)), w).
Proof.
  intros H. unfold getItem, bind. rewrite (storageCall_run w H). reflexivity.
Qed.

Lemma setItem_run (write : AsyncStorage.t -> AsyncStorage.t) w :
  faults w = [] ->
  setItem Remote write w = (Ok tt, withStorage Remote write w).
Proof.
  intros H. unfold setItem, bind. rewrite (storageCall_run w H). reflexivity.
Qed.

Lemma getLocalItems_run userId w :
  faults w = [] -> getLocalItems Remote userId w = (Ok (userItems userId w), w).
Proof.
  intros H. unfold getLocalItems, try, bind. rewrite (getItem_run _ w H).
  unfold userItems. destruct (AsyncStorage.ITEMS (storage w)); reflexivity.
Qed.

Lemma getAllLocalAlerts_run w :
  faults w = [] -> getAllLocalAlerts Remote w = (Ok (storedAlerts w), w).
Proof.
  intros H. unfold getAllLocalAlerts, try, bind. rewrite (getItem_run _ w H).
  reflexivity.
Qed.

Lemma getLocalAlerts_run userId w :
  faults w = [] ->
  getLocalAlerts Remote userId w = (Ok (ofUser userId (storedAlerts w)), w).
Proof.
  intros H. unfold getLocalAlerts, try, bind. rewrite (getItem_run _ w H).
  unfold storedAlerts, ofUser.
  destruct (AsyncStorage.ALERTS (storage w)); reflexivity.
Qed.

Lemma Grows_refl userId w : faults w = [] -> Grows userId [] w w.
Proof.
  intros H. unfold Grows. rewrite !app_nil_r. repeat split; auto.
Qed.

Lemma Grows_trans userId c1 c2 w w1 w2 :
  Grows userId c1 w w1 -> Grows userId c2 w1 w2 ->
  Grows userId (c1 ++ c2) w w2.
Proof.
  intros (Hs1 & Hg1 & _ & Ht1 & Hi1 & Hc1) (Hs2 & Hg2 & Hf2 & Ht2 & Hi2 & Hc2).
  unfold Grows. rewrite Hs2, Hs1, Hg2, Hg1, Ht2, Ht1, Hi2, Hi1, !app_assoc.
  repeat split; auto. apply Forall_app. split; assumption.
Qed.

Lemma createAlert_grows userId itemId kind (t : Z) w :
  faults w = [] ->
  exists a w',
    createAlert supabase platform userId itemId kind (Some t) w = (Ok tt, w') /\
    Grows userId [a] w w' /\
    GuardianAlert.item_id a = itemId.
Proof.
  intros Hf.
  unfold createAlert, try, bind, toISOString, ret, gets, isTestUser.
  replace (if isLocalAuthUser w then true else true) with true
    by (destruct (isLocalAuthUser w); reflexivity).
  unfold createLocalAlert, bind, generateUUID, nowISOString, gets.
  destruct (fillTemplate platform _ (draws w)) as [id n].
  rewrite getAllLocalAlerts_run by exact Hf.
  rewrite setItem_run by exact Hf.
  unfold ret, setGuardian, modify.
  eexists. eexists. split; [ reflexivity |].
  split.
  - unfold Grows, storedAlerts. cbn.
    repeat split; try assumption; try reflexivity.
    repeat constructor.
  - reflexivity.
Qed.

Lemma hasActive_find (itemId : string) (alerts : list GuardianAlert.t) :
  hasActive itemId alerts =
  match find (fun a => String.eqb (GuardianAlert.item_id a) itemId
                       && negb (GuardianAlert.is_dismissed a)) alerts with
  | Some _ => true
  | None => false
  end.
Proof.
  unfold hasActive. induction alerts as [| a rest IH]; cbn; [ reflexivity |].
  destruct (String.eqb (GuardianAlert.item_id a) itemId
            && negb (GuardianAlert.is_dismissed a)); cbn; auto.
Qed.

(** The body of the loop creates one alert, for the document, exactly when
    the document calls for one and the snapshot holds no active alert of
    it. *)
Lemma checkItem_grows userId settings snapshot now item w :
  faults w = [] ->
  exists created w',
    checkItem supabase platform userId settings snapshot now item w
      = (Ok tt, w') /\
    Grows userId created w w' /\
    map GuardianAlert.item_id created =
      if creates platform settings now snapshot item then [ Item.id item ]
      else [].
Proof.
  intros Hf. unfold checkItem, creates, due, dueDateOf.
  rewrite hasActive_find.
  destruct (noDueDate item || isPaidOrArchived item).
  { rewrite andb_false_r. exists [], w.
    split; [ reflexivity | split; [ apply Grows_refl; exact Hf | reflexivity ] ]. }
  destruct (find _ snapshot) as [existing |].
  { exists [], w.
    split; [ reflexivity | split; [ apply Grows_refl; exact Hf | reflexivity ] ]. }
  cbn [negb andb].
  destruct (JsDate.parse (host platform) _) as [t |]; cbn [daysUntilDue].
  2: { exists [], w.
       split; [ reflexivity | split; [ apply Grows_refl; exact Hf | reflexivity ] ]. }
  set (days := - ((now - t) / JsDate.msPerDay)).
  unfold alertKind.
  destruct (Z.ltb_spec days 0).
  { destruct (createAlert_grows userId (Item.id item) overdue t w Hf)
      as (a & w' & Hrun & Hg & Ha).
    exists [a], w'. cbn [map]. rewrite Ha. auto. }
  destruct (Z.leb_spec days 1); cbn [andb].
  { destruct (reminder_1day_enabled settings).
    - destruct (createAlert_grows userId (Item.id item) deadline_1day t w Hf)
        as (a & w' & Hrun & Hg & Ha).
      exists [a], w'. cbn [map]. rewrite Ha. auto.
    - destruct (Z.leb_spec days 7); destruct (Z.ltb_spec 1 days);
        try lia; cbn [andb];
        (exists [], w;
         split; [ reflexivity
                | split; [ apply Grows_refl; exact Hf | reflexivity ] ]). }
  destruct (Z.leb_spec days 7); destruct (Z.ltb_spec 1 days);
    try lia; cbn [andb].
  - destruct (reminder_7day_enabled settings).
    + destruct (createAlert_grows userId (Item.id item) deadline_7day t w Hf)
        as (a & w' & Hrun & Hg & Ha).
      exists [a], w'. cbn [map]. rewrite Ha. auto.
    + exists [], w.
      split; [ reflexivity | split; [ apply Grows_refl; exact Hf | reflexivity ] ].
  - exists [], w.
    split; [ reflexivity | split; [ apply Grows_refl; exact Hf | reflexivity ] ].
Qed.

Lemma forEach_checkItem_grows userId settings snapshot now items w :
  faults w = [] ->
  exists created w',
    forEach Remote items
      (checkItem supabase platform userId settings snapshot now) w
      = (Ok tt, w') /\
    Grows userId created w w' /\
    map GuardianAlert.item_id created =
      map Item.id (filter (creates platform settings now snapshot) items).
Proof.
  revert w. induction items as [| item rest IH]; intros w Hf.
  - exists [], w.
    split; [ reflexivity | split; [ apply Grows_refl; exact Hf | reflexivity ] ].
  - destruct (checkItem_grows userId settings snapshot now item w Hf)
      as (c1 & w1 & Hrun1 & Hg1 & Hc1).
    assert (Hf1 : faults w1 = []) by apply Hg1.
    destruct (IH w1 Hf1) as (c2 & w2 & Hrun2 & Hg2 & Hc2).
    exists (c1 ++ c2), w2. cbn [forEach]. unfold bind. rewrite Hrun1.
    split; [ exact Hrun2 |].
    split; [ exact (Grows_trans _ _ _ _ _ _ Hg1 Hg2) |].
    rewrite map_app, Hc1, Hc2. cbn [filter].
    destruct (creates platform settings now snapshot item); reflexivity.
Qed.

Lemma fetchAlerts_run userId w :
  faults w = [] ->
  exists w',
    fetchAlerts supabase userId w = (Ok tt, w') /\
    storage w' = storage w /\
    faults w' = [] /\
    time w' = time w /\
    GuardianState.alerts (guardian w') = ofUser userId (storedAlerts w).
Proof.
  intros Hf. unfold fetchAlerts, bind, try, setGuardian, modify, gets.
  unfold isTestUser. cbn [isLocalAuthUser withGuardian].
  replace (if isLocalAuthUser w then true else true) with true
    by (destruct (isLocalAuthUser w); reflexivity).
  rewrite getLocalAlerts_run by exact Hf.
  eexists. split; [ reflexivity |].
  cbn. repeat split; auto.
Qed.

(** What one run of [checkDeadlines] does on a working device. *)
Lemma checkDeadlines_run userId notificationSettings w :
  faults w = [] ->
  exists created w',
    checkDeadlines supabase platform userId notificationSettings w
      = (Ok tt, w') /\
    storedAlerts w' = storedAlerts w ++ created /\
    faults w' = [] /\
    AsyncStorage.ITEMS (storage w') = AsyncStorage.ITEMS (storage w) /\
    Forall (fun a => GuardianAlert.user_id a = userId /\
                     GuardianAlert.is_dismissed a = false) created /\
    if push_notifications_enabled (settingsOr notificationSettings) then
      GuardianState.alerts (guardian w') = ofUser userId (storedAlerts w') /\
      map GuardianAlert.item_id created =
        map Item.id
          (filter (creates platform (settingsOr notificationSettings) (time w)
                     (GuardianState.alerts (guardian w)))
             (userItems userId w))
    else
      created = [] /\
      GuardianState.alerts (guardian w') = GuardianState.alerts (guardian w).
Proof.
  intros Hf. unfold checkDeadlines.
  unfold bind at 1. unfold setMonitoring at 1. unfold setGuardian, modify.
  set (w0 := withGuardian Remote _ w).
  assert (Hf0 : faults w0 = []) by exact Hf.
  unfold try, bind at 1, gets at 1, isTestUser.
  replace (if isLocalAuthUser w0 then true else true) with true
    by (destruct (isLocalAuthUser w0); reflexivity).
  unfold bind at 1. rewrite getLocalItems_run by exact Hf0.
  unfold bind at 1, gets at 1. unfold bind at 1, gets at 1.
  fold (settingsOr notificationSettings).
  destruct (push_notifications_enabled (settingsOr notificationSettings)) eqn:Hpush;
    cbn [negb].
  - destruct (forEach_checkItem_grows userId (settingsOr notificationSettings)
                (GuardianState.alerts (guardian w0)) (time w0)
                (userItems userId w0) w0 Hf0)
      as (created & w1 & Hloop & Hg & Hc).
    destruct Hg as (Hs1 & Hg1 & Hf1 & Ht1 & Hi1 & Hu1).
    destruct (fetchAlerts_run userId w1 Hf1) as (w2 & Hfetch & Hs2 & Hf2 & Ht2 & Hg2).
    unfold bind. rewrite Hloop, Hfetch.
    unfold setMonitoring, setGuardian, modify.
    exists created. eexists. split; [ reflexivity |].
    unfold storedAlerts in *. cbn. rewrite Hs2.
    repeat split; auto.
  - unfold setMonitoring, setGuardian, modify.
    exists []. eexists. split; [ reflexivity |].
    cbn. rewrite app_nil_r. repeat split; auto.
Qed.

(** *** Counting the active alerts of a document *)

Lemma activeFor_app (itemId : string) (l1 l2 : list GuardianAlert.t) :
  activeFor itemId (l1 ++ l2) = activeFor itemId l1 ++ activeFor itemId l2.
Proof. apply filter_app. Qed.

Lemma ofUser_app (userId : string) (l1 l2 : list GuardianAlert.t) :
  ofUser userId (l1 ++ l2) = ofUser userId l1 ++ ofUser userId l2.
Proof. apply filter_app. Qed.

Lemma ofUser_created (userId : string) (created : list GuardianAlert.t) :
  Forall (fun a => GuardianAlert.user_id a = userId /\
                   GuardianAlert.is_dismissed a = false) created ->
  ofUser userId created = created.
Proof.
  induction 1 as [| a rest [Hu _] _ IH]; cbn; [ reflexivity |].
  rewrite Hu, String.eqb_refl. unfold ofUser in IH. rewrite IH. reflexivity.
Qed.

Lemma activeFor_created (itemId userId : string)
  (created : list GuardianAlert.t) :
  Forall (fun a => GuardianAlert.user_id a = userId /\
                   GuardianAlert.is_dismissed a = false) created ->
  List.length (activeFor itemId created) =
  List.length (filter (fun x => String.eqb x itemId)
                 (map GuardianAlert.item_id created)).
Proof.
  induction 1 as [| a rest [_ Hd] _ IH]; cbn; [ reflexivity |].
  rewrite Hd. cbn [negb]. rewrite andb_true_r.
  destruct (String.eqb (GuardianAlert.item_id a) itemId); cbn;
    unfold activeFor in IH; rewrite IH; reflexivity.
Qed.

Lemma count_created (itemId : string) (f : Item.t -> bool)
  (items : list Item.t) :
  List.length (filter (fun x => String.eqb x itemId)
                 (map Item.id (filter f items))) =
  List.length (filter f
                 (filter (fun i => String.eqb (Item.id i) itemId) items)).
Proof.
  induction items as [| i rest IH]; cbn; [ reflexivity |].
  destruct (f i) eqn:Hfi; destruct (String.eqb (Item.id i) itemId) eqn:Hid;
    cbn; rewrite ?Hfi, ?Hid; cbn; rewrite IH; reflexivity.
Qed.

Lemma activeFor_ofUser_nil (itemId userId : string)
  (alerts : list GuardianAlert.t) :
  activeFor itemId alerts = [] -> activeFor itemId (ofUser userId alerts) = [].
Proof.
  induction alerts as [| a rest IH]; cbn; [ reflexivity |].
  destruct (String.eqb (GuardianAlert.item_id a) itemId
            && negb (GuardianAlert.is_dismissed a)) eqn:Ha;
    [ discriminate |].
  intros Hrest. destruct (String.eqb (GuardianAlert.user_id a) userId); cbn;
    rewrite ?Ha; apply IH; exact Hrest.
Qed.

Lemma hasActive_activeFor (itemId : string) (alerts : list GuardianAlert.t) :
  hasActive itemId alerts =
  match activeFor itemId alerts with
  | [] => false
  | _ :: _ => true
  end.
Proof.
  unfold hasActive, activeFor.
  induction alerts as [| a rest IH]; cbn; [ reflexivity |].
  destruct (String.eqb (GuardianAlert.item_id a) itemId
            && negb (GuardianAlert.is_dismissed a)); cbn; auto.
Qed.


Lemma filter_id_NoDup (itemId : string) (items : list Item.t) :
  NoDup (map Item.id items) ->
  (List.length (filter (fun i => String.eqb (Item.id i) itemId) items) <= 1)%nat.
Proof.
  induction items as [| i rest IH]; cbn; [ lia |].
  intros Hnd. inversion Hnd as [| x l Hnotin Hrest]; subst.
  destruct (String.eqb (Item.id i) itemId) eqn:Hid; [| apply IH; exact Hrest ].
  apply String.eqb_eq in Hid. cbn.
  assert (Hnone : filter (fun i0 => String.eqb (Item.id i0) itemId) rest = []).
  { destruct (filter _ rest) as [| j more] eqn:Hfilter; [ reflexivity |].
    exfalso. apply Hnotin.
    assert (Hin : In j (filter (fun i0 => String.eqb (Item.id i0) itemId) rest))
      by (rewrite Hfilter; left; reflexivity).
    apply filter_In in Hin. destruct Hin as [Hin Hj].
    apply String.eqb_eq in Hj. rewrite Hid, <- Hj. apply in_map. exact Hin. }
  rewrite Hnone. cbn. lia.
Qed.

(** One run keeps the invariant: with the guardian store in step with the
    device and documents of distinct identities, a user's documents have
    at most one active alert each after the run if they had before. *)
Lemma checkDeadlines_at_most_one
  (userId : string) (notificationSettings : option NotificationSettings) w :
  faults w = [] ->
  NoDup (map Item.id (userItems userId w)) ->
  GuardianState.alerts (guardian w) = ofUser userId (storedAlerts w) ->
  (forall itemId,
     (List.length (activeFor itemId (ofUser userId (storedAlerts w))) <= 1)%nat) ->
  exists w',
    checkDeadlines supabase platform userId notificationSettings w
      = (Ok tt, w') /\
    GuardianState.alerts (guardian w') = ofUser userId (storedAlerts w') /\
    forall itemId,
      (List.length (activeFor itemId (ofUser userId (storedAlerts w'))) <= 1)%nat.
Proof.
  intros Hf Hnd Hsync Hinv.
  destruct (checkDeadlines_run userId notificationSettings w Hf)
    as (c & w' & Hrun & Hs & Hf' & Hi & Hu & Hpost).
  exists w'. split; [ exact Hrun |].
  destruct (push_notifications_enabled (settingsOr notificationSettings)).
  - destruct Hpost as [Hg Hc]. split; [ exact Hg |].
    intros itemId. rewrite Hs, ofUser_app, activeFor_app, length_app.
    rewrite (ofUser_created userId c Hu).
    rewrite (activeFor_created itemId userId c Hu), Hc, count_created.
    pose proof (filter_id_NoDup itemId _ Hnd) as Hle.
    specialize (Hinv itemId).
    destruct (filter (fun i => String.eqb (Item.id i) itemId)
                (userItems userId w)) as [| i [| j more]] eqn:Hfilter;
      cbn [List.length] in Hle; [ cbn; lia | | lia ].
    cbn [filter]. destruct (creates _ _ _ _ i) eqn:Hcreates; [| cbn; lia ].
    unfold creates in Hcreates. apply andb_true_iff in Hcreates.
    destruct Hcreates as [Hnone _]. apply negb_true_iff in Hnone.
    rewrite hasActive_activeFor, Hsync in Hnone.
    assert (Hid : Item.id i = itemId).
    { assert (Hin : In i (filter (fun i => String.eqb (Item.id i) itemId)
                            (userItems userId w)))
        by (rewrite Hfilter; left; reflexivity).
      apply filter_In in Hin. apply String.eqb_eq. apply Hin. }
    rewrite Hid in Hnone.
    destruct (activeFor itemId (ofUser userId (storedAlerts w)));
      [ cbn; lia | discriminate Hnone ].
  - destruct Hpost as [-> Hg]. rewrite app_nil_r in Hs. rewrite Hs.
    split; [ rewrite Hg; exact Hsync | exact Hinv ].
Qed.

End GuardianFacts.

Section GuardianExamples.
Import Stores StoresSpec.



(** The same on a working device whose store has not fetched yet: the
    application is started again after the first run, the device holds
    the alert and the new store holds none, and the second run creates a
    second active alert. *)
Lemma checkDeadlines_before_fetch :
  fst (checkDeadlines offline device "user-1" None
         (worldWith [ document "item-1" "2026-11-05" ] [])) = Ok tt /\
  faults
    (freshGuardian
       (snd (checkDeadlines offline device "user-1" None
               (worldWith [ document "item-1" "2026-11-05" ] [])))) = [] /\
  fst (checkDeadlines offline device "user-1" None
         (freshGuardian
            (snd (checkDeadlines offline device "user-1" None
                    (worldWith [ document "item-1" "2026-11-05" ] [])))))
    = Ok tt /\
  List.length
    (activeFor "item-1"
       (storedAlerts
          (snd (checkDeadlines offline device "user-1" None
                  (freshGuardian
                     (snd (checkDeadlines offline device "user-1" None
                             (worldWith [ document "item-1" "2026-11-05" ]
                                [])))))))) = 2%nat.
Proof. repeat split; vm_compute; reflexivity. Qed.

End GuardianExamples.

(* ================================================================= *)
(** * Further properties of the code *)

(* ================================================================= *)
(** ** Letters and their capitals *)

Section CaseFacts.
Import JsSpec RegExp RegExpSpec.

Lemma lowerChar_upperChar (c : ascii) :
  Js.lowerChar (upperChar c) = Js.lowerChar c.
Proof. destruct c as [[] [] [] [] [] [] [] []]; reflexivity. Qed.

Lemma toLowerCase_toUpperCase (s : string) :
  Js.toLowerCase (toUpperCase s) = Js.toLowerCase s.
Proof.
  induction s as [| c r IH]; cbn [toUpperCase Js.toLowerCase];
    [ reflexivity | rewrite lowerChar_upperChar, IH; reflexivity ].
Qed.

Lemma caseBlind_cat (r s : regex) :
  caseBlind r -> caseBlind s -> caseBlind (cat r s).
Proof. destruct r, s; cbn; tauto. Qed.

Lemma caseBlind_alt (r s : regex) :
  caseBlind r -> caseBlind s -> caseBlind (alt r s).
Proof. destruct r, s; cbn; tauto. Qed.

Lemma caseBlind_deriv (c : ascii) (r : regex) :
  caseBlind r -> caseBlind (deriv c r).
Proof.
  induction r as [| | p | r IHr s IHs | r IHr s IHs | r IHr]; cbn [deriv caseBlind].
  - trivial.
  - trivial.
  - intros _. destruct (p c); exact I.
  - intros [Hr Hs]. destruct (nullable r).
    + apply caseBlind_alt; [ apply caseBlind_cat |]; auto.
    + apply caseBlind_cat; auto.
  - intros [Hr Hs]. apply caseBlind_alt; auto.
  - intros Hr. apply caseBlind_cat; auto.
Qed.

Lemma deriv_upperChar (c : ascii) (r : regex) :
  caseBlind r -> deriv (upperChar c) r = deriv c r.
Proof.
  induction r as [| | p | r IHr s IHs | r IHr s IHs | r IHr]; cbn [deriv caseBlind].
  - reflexivity.
  - reflexivity.
  - intros H. rewrite H. reflexivity.
  - intros [Hr Hs]. rewrite IHr, IHs by assumption. reflexivity.
  - intros [Hr Hs]. rewrite IHr, IHs by assumption. reflexivity.
  - intros Hr. rewrite IHr by assumption. reflexivity.
Qed.

Lemma matchesPrefix_toUpperCase (s : string) (r : regex) :
  caseBlind r -> matchesPrefix r (toUpperCase s) = matchesPrefix r s.
Proof.
  revert r. induction s as [| c s IH]; intros r Hr;
    cbn [toUpperCase matchesPrefix]; [ reflexivity |].
  rewrite deriv_upperChar by exact Hr.
  rewrite IH by (apply caseBlind_deriv; exact Hr). reflexivity.
Qed.

Lemma matchesAll_toUpperCase (s : string) (r : regex) :
  caseBlind r -> matchesAll r (toUpperCase s) = matchesAll r s.
Proof.
  revert r. induction s as [| c s IH]; intros r Hr;
    cbn [toUpperCase matchesAll]; [ reflexivity |].
  rewrite deriv_upperChar by exact Hr.
  apply IH. apply caseBlind_deriv. exact Hr.
Qed.

(** A pattern under the [i] flag finds a match in a text exactly when it
    finds one in the text in capitals. *)
Lemma test_toUpperCase (p : pattern) (s : string) :
  caseBlind (body p) -> test p (toUpperCase s) = test p s.
Proof.
  intros Hp. unfold test.
  induction s as [| c s IH]; cbn [toUpperCase search].
  - reflexivity.
  - rewrite IH. f_equal.
    destruct (atEnd p).
    + apply (matchesAll_toUpperCase (String c s)). exact Hp.
    + apply (matchesPrefix_toUpperCase (String c s)). exact Hp.
Qed.

Lemma caseBlind_chrI (c : ascii) : caseBlind (chrI c).
Proof. intros x. cbn. rewrite lowerChar_upperChar. reflexivity. Qed.

Lemma caseBlind_litI (s : string) : caseBlind (litI s).
Proof.
  induction s as [| c s IH]; cbn [litI caseBlind];
    [ exact I | split; [ apply caseBlind_chrI | exact IH ] ].
Qed.

Lemma caseBlind_plus (r : regex) : caseBlind r -> caseBlind (plus r).
Proof. intros H. split; exact H. Qed.

Lemma caseBlind_space : caseBlind space.
Proof.
  cbn; repeat split; intros c;
    destruct c as [[] [] [] [] [] [] [] []]; reflexivity.
Qed.

Lemma existsb_pointwise {A} (f g : A -> bool) (l : list A) :
  Forall (fun x => f x = g x) l -> existsb f l = existsb g l.
Proof.
  induction 1 as [| x rest Hx _ IH]; cbn; [ reflexivity |].
  rewrite Hx, IH. reflexivity.
Qed.

Lemma existsb_filter_nil {A} (f : A -> bool) (l : list A) :
  existsb f l = false -> filter f l = [].
Proof.
  induction l as [| x rest IH]; cbn; [ reflexivity |].
  destruct (f x); cbn; [ discriminate | exact IH ].
Qed.

End CaseFacts.

(* ================================================================= *)
(** ** Scam Shield: the detectors *)

Section ScamDetectorMore.
Import ScamDetector ScamDetectorSpec JsSpec RegExp RegExpSpec.

Lemma callToAction_caseBlind (a b : string) :
  caseBlind (cats [ litI a; plus space; litI b ]).
Proof.
  cbn [cats].
  split; [ apply caseBlind_litI |].
  split; [ apply caseBlind_plus, caseBlind_space |].
  split; [ apply caseBlind_litI | exact I ].
Qed.

Lemma linkPatterns_caseBlind :
  Forall (fun p => caseBlind (body p)) linkPatterns.
Proof.
  unfold linkPatterns.
  repeat (apply Forall_cons; [ apply callToAction_caseBlind |]).
  apply Forall_nil.
Qed.

Lemma eqb_upperChar_sign (c x : ascii) :
  x = "@"%char \/ x = ">"%char ->
  Ascii.eqb (upperChar c) x = Ascii.eqb c x.
Proof.
  intros [-> | ->]; destruct c as [[] [] [] [] [] [] [] []]; reflexivity.
Qed.

Lemma takeWhile_toUpperCase (s : string) :
  Js.takeWhile (fun x => negb (Ascii.eqb x ">")) (toUpperCase s)
  = toUpperCase (Js.takeWhile (fun x => negb (Ascii.eqb x ">")) s).
Proof.
  induction s as [| c s IH]; cbn [toUpperCase Js.takeWhile]; [ reflexivity |].
  rewrite (eqb_upperChar_sign c ">") by (right; reflexivity).
  destruct (negb (Ascii.eqb c ">")); [| reflexivity ].
  cbn [toUpperCase]. rewrite IH. reflexivity.
Qed.

Lemma matchDomain_toUpperCase (s : string) :
  matchDomain (toUpperCase s) = option_map toUpperCase (matchDomain s).
Proof.
  induction s as [| c s IH]; cbn [toUpperCase matchDomain]; [ reflexivity |].
  rewrite (eqb_upperChar_sign c "@") by (left; reflexivity).
  destruct (Ascii.eqb c "@"); [| exact IH ].
  rewrite takeWhile_toUpperCase.
  destruct (Js.takeWhile (fun x => negb (Ascii.eqb x ">")) s);
    [ exact IH | reflexivity ].
Qed.

Lemma extractDomain_toUpperCase (sender : string) :
  extractDomain (toUpperCase sender) = extractDomain sender.
Proof.
  unfold extractDomain. rewrite matchDomain_toUpperCase.
  destruct (matchDomain sender) as [g |]; cbn [option_map];
    [ apply toLowerCase_toUpperCase | reflexivity ].
Qed.

(** X1: the assessment does not depend on the case of the letters: for a
    content and a sender of ASCII characters, the content and the sender in
    capitals get the same score, verdict, indicators and recommendation. *)
Theorem detectScam_in_capitals (content sender : string) :
  isAscii content = true ->
  isAscii sender = true ->
  detectScam (toUpperCase content) (toUpperCase sender)
  = detectScam content sender.
Proof.
  intros _ _.
  assert (Hu : detectUrgencyLanguage (toUpperCase content)
               = detectUrgencyLanguage content)
    by (unfold detectUrgencyLanguage; rewrite toLowerCase_toUpperCase;
        reflexivity).
  assert (Hs : detectSensitiveInfoRequests (toUpperCase content)
               = detectSensitiveInfoRequests content)
    by (unfold detectSensitiveInfoRequests; rewrite toLowerCase_toUpperCase;
        reflexivity).
  assert (Hd : detectSuspiciousDomain (toUpperCase sender)
               = detectSuspiciousDomain sender)
    by (unfold detectSuspiciousDomain; rewrite extractDomain_toUpperCase;
        reflexivity).
  assert (Hl : detectMismatchedLinks (toUpperCase content)
               = detectMismatchedLinks content).
  { unfold detectMismatchedLinks.
    rewrite (existsb_pointwise
               (fun pattern => test pattern (toUpperCase content))
               (fun pattern => test pattern content)); [ reflexivity |].
    eapply Forall_impl; [| exact linkPatterns_caseBlind ].
    intros p Hp. apply test_toUpperCase. exact Hp. }
  unfold detectScam. rewrite Hu, Hs, Hd, Hl. reflexivity.
Qed.

(** X1 at a message in small letters. *)
Lemma detectScam_in_capitals_witness :
  detectScam "ACT NOW: CLICK HERE AND SEND YOUR PASSWORD"
    "ALERTS@PAYPA1-SECURE.XYZ"
  = detectScam "act now: click here and send your password"
      "alerts@paypa1-secure.xyz".
Proof.
  apply (detectScam_in_capitals
           "act now: click here and send your password"
           "alerts@paypa1-secure.xyz"); reflexivity.
Defined.

(** X2: the indicators account for the score: the score is 0 exactly when
    no indicator is reported, and at most four indicators are reported, one
    for each detector. *)
Theorem detectScam_indicators_account_for_score (content sender : string) :
  (scam_indicators (detectScam content sender) = [] <->
   risk_score (detectScam content sender) = 0) /\
  (List.length (scam_indicators (detectScam content sender)) <= 4)%nat.
Proof.
  unfold detectScam, detectSuspiciousDomain, detectMismatchedLinks.
  cbv zeta.
  destruct (Z.ltb_spec 0 (length (detectUrgencyLanguage content)));
    destruct (Z.ltb_spec 0 (length (detectSensitiveInfoRequests content)));
    destruct (existsb _ SUSPICIOUS_DOMAIN_PATTERNS);
    destruct (existsb _ linkPatterns);
    cbn [scam_indicators risk_score app length List.length Z.of_nat Z.ltb
         Z.compare Pos.of_succ_nat];
    (split; [ split; intros Heq; [ try discriminate Heq | try lia ] | lia ]);
    reflexivity.
Qed.

Lemma hasScamIndicators_points (content : string) :
  hasScamIndicators content = false ->
  detectUrgencyLanguage content = [] /\
  detectSensitiveInfoRequests content = [].
Proof.
  unfold hasScamIndicators, detectUrgencyLanguage,
    detectSensitiveInfoRequests. cbv zeta.
  intros H. apply orb_false_iff in H. destruct H as [Hu Hs].
  split; apply existsb_filter_nil; assumption.
Qed.

(** X3: the quick check has no false negative against the full
    assessment: a content in which it finds nothing has no urgency and no
    sensitive-information indicator, its score is at most 40 (the domain
    and the links) and it is never given the scam verdict, whoever the
    sender is. *)
Theorem hasScamIndicators_clean_never_scam (content sender : string) :
  hasScamIndicators content = false ->
  detectUrgencyLanguage content = [] /\
  detectSensitiveInfoRequests content = [] /\
  risk_score (detectScam content sender) <= 40 /\
  is_scam (detectScam content sender) = false.
Proof.
  intros H. destruct (hasScamIndicators_points content H) as [Hu Hs].
  split; [ exact Hu |]. split; [ exact Hs |].
  pose proof (detectScam_risk_score content sender) as Hscore.
  pose proof (points_capped content sender) as (_ & _ & Hd & Hl).
  assert (Hup : urgencyPoints content = 0)
    by (unfold urgencyPoints; rewrite Hu; reflexivity).
  assert (Hsp : sensitivePoints content = 0)
    by (unfold sensitivePoints; rewrite Hs; reflexivity).
  rewrite Hup, Hsp in Hscore.
  assert (Hle : risk_score (detectScam content sender) <= 40) by lia.
  split; [ exact Hle |].
  rewrite detectScam_verdict. apply Z.leb_gt. lia.
Qed.

(** X3 at a plain notice from a sender with a suspicious domain. *)
Lemma hasScamIndicators_clean_never_scam_witness :
  hasScamIndicators "Your statement for October is ready. Click here." = false /\
  risk_score (detectScam "Your statement for October is ready. Click here."
                "billing@paypa1-secure.xyz") <= 40 /\
  is_scam (detectScam "Your statement for October is ready. Click here."
             "billing@paypa1-secure.xyz") = false.
Proof.
  assert (H : hasScamIndicators
                "Your statement for October is ready. Click here." = false)
    by (vm_compute; reflexivity).
  split; [ exact H |].
  apply (hasScamIndicators_clean_never_scam _ "billing@paypa1-secure.xyz") in H.
  split; apply H.
Defined.

Lemma includes_cons_false (c : ascii) (s : string) (x : ascii) :
  Js.includes (String c s) (String x "") = false ->
  Ascii.eqb c x = false /\ Js.includes s (String x "") = false.
Proof.
  cbn [Js.includes Js.startsWith]. intros H.
  apply orb_false_iff in H. destruct H as [Hc Hs].
  replace (Js.startsWith s "") with true in Hc by (destruct s; reflexivity).
  rewrite andb_true_r in Hc. rewrite Ascii.eqb_sym. split; assumption.
Qed.

Lemma matchDomain_after (prefix rest : string) :
  Js.includes prefix "@" = false ->
  matchDomain (prefix +++ rest) = matchDomain rest.
Proof.
  induction prefix as [| c prefix IH]; intros H; [ reflexivity |].
  apply includes_cons_false in H. destruct H as [Hc Hp].
  cbn [String.append matchDomain]. rewrite Hc. apply IH. exact Hp.
Qed.

Lemma takeWhile_until (domain rest : string) :
  Js.includes domain ">" = false ->
  Js.takeWhile (fun x => negb (Ascii.eqb x ">")) (domain +++ String ">" rest)
  = domain /\
  Js.takeWhile (fun x => negb (Ascii.eqb x ">")) domain = domain.
Proof.
  induction domain as [| c domain IH]; intros H.
  - split; reflexivity.
  - apply includes_cons_false in H. destruct H as [Hc Hd].
    cbn [String.append Js.takeWhile]. rewrite Hc. cbn [negb].
    destruct (IH Hd) as [IH1 IH2]. rewrite IH1, IH2. split; reflexivity.
Qed.

(** X4: the domain of a sender is what follows the first at sign, in small
    letters, up to a closing angle bracket if there is one: both for a bare
    address and for a display name with the address in angle brackets. *)
Theorem extractDomain_of_address (prefix domain rest : string) :
  Js.includes prefix "@" = false ->
  Js.includes domain ">" = false ->
  domain <> "" ->
  extractDomain (prefix +++ "@" +++ domain) = Js.toLowerCase domain /\
  extractDomain (prefix +++ "@" +++ domain +++ ">" +++ rest)
  = Js.toLowerCase domain.
Proof.
  intros Hp Hd Hne.
  destruct (takeWhile_until domain rest Hd) as [H1 H2].
  unfold extractDomain.
  rewrite !(matchDomain_after prefix) by exact Hp.
  cbn [String.append matchDomain Ascii.eqb Bool.eqb].
  rewrite H1, H2.
  destruct domain as [| c d]; [ contradiction Hne; reflexivity |].
  split; reflexivity.
Qed.

(** X4 at an address with a display name. *)
Lemma extractDomain_of_address_witness :
  extractDomain "Billing <billing@Store.Example.com>" = "store.example.com".
Proof.
  apply (extractDomain_of_address "Billing <billing" "Store.Example.com" "");
    [ reflexivity | reflexivity | discriminate ].
Defined.

Lemma matchDomain_no_at (sender : string) :
  Js.includes sender "@" = false -> matchDomain sender = None.
Proof.
  induction sender as [| c sender IH]; intros H; [ reflexivity |].
  apply includes_cons_false in H. destruct H as [Hc Hs].
  cbn [matchDomain]. rewrite Hc. apply IH. exact Hs.
Qed.

(** A sender without an at sign has no domain: the domain detector
    reports nothing for it. *)
Lemma detectSuspiciousDomain_without_address (sender : string) :
  Js.includes sender "@" = false ->
  extractDomain sender = "" /\ detectSuspiciousDomain sender = [] /\
  domainPoints sender = 0.
Proof.
  intros H. apply matchDomain_no_at in H.
  assert (He : extractDomain sender = "")
    by (unfold extractDomain; rewrite H; reflexivity).
  assert (Hd : detectSuspiciousDomain sender = [])
    by (unfold detectSuspiciousDomain; rewrite He; vm_compute; reflexivity).
  split; [ exact He |]. split; [ exact Hd |].
  unfold domainPoints. rewrite Hd. reflexivity.
Qed.

End ScamDetectorMore.

(* ================================================================= *)
(** ** Email classification: what qualifies *)

Section GmailMore.
Import Gmail GmailSpec RegExp.

Lemma keywordScore_nonneg (text : string) (keywords : list string) :
  0 <= keywordScore text keywords.
Proof. rewrite keywordScore_count. lia. Qed.

(** X5: structure alone qualifies an email: with fewer than three
    promotional keywords, an email that carries an order, invoice or
    confirmation number, or both an amount and a date, is transactional
    whatever keywords it has. *)
Theorem isTransactionalEmail_structured (email : EmailContent) :
  promotionalCount email < 3 ->
  test orderNumberPattern (content email) = true \/
  (test amountPattern (content email) = true /\
   test datePattern (content email) = true) ->
  isTransactionalEmail email = true.
Proof.
  intros Hpromo Hstructure. unfold isTransactionalEmail. cbv zeta.
  fold (content email). rewrite promotionalScore_count.
  apply Z.leb_gt in Hpromo. rewrite Hpromo.
  pose proof (keywordScore_nonneg (content email) TRANSACTIONAL_KEYWORDS).
  apply Z.leb_le.
  destruct Hstructure as [Ho | [Ha Hd]].
  - rewrite Ho.
    destruct (test amountPattern (content email));
      destruct (test datePattern (content email)); lia.
  - rewrite Ha, Hd.
    destruct (test orderNumberPattern (content email)); lia.
Qed.

(** X5 at a confirmation without any keyword of the lists. *)
Lemma isTransactionalEmail_structured_witness :
  isTransactionalEmail confirmation = true.
Proof.
  apply isTransactionalEmail_structured.
  - vm_compute. reflexivity.
  - left. vm_compute. reflexivity.
Defined.

End GmailMore.

Section GmailApiMore.
Import Gmail GmailSpec GmailApi GmailApiSpec.
Context {N : Type}
  (getEmailContent : string -> string -> N -> Result EmailContent * N).

(** One turn of the loop resolves, whatever the fetch does, with the
    array extended by the content if it was delivered and is accepted. *)
Lemma fetchAndTest_run (accessToken : string) (found : list EmailContent)
  (m : GmailMessage) (n : N) :
  fetchAndTest getEmailContent accessToken found m n
  = (Ok (found
         ++ filter isTransactionalEmail
              (delivered
                 [ fst (getEmailContent accessToken (GmailApi.id m) n) ])),
     snd (getEmailContent accessToken (GmailApi.id m) n)).
Proof.
  unfold fetchAndTest, tryCatch, andThen, resolve, delivered.
  destruct (getEmailContent accessToken (GmailApi.id m) n)
    as [[content | e] n1]; cbn [fst snd flat_map app filter].
  - destruct (isTransactionalEmail content); cbn [app];
      rewrite ?app_nil_r; reflexivity.
  - rewrite app_nil_r. reflexivity.
Qed.

Lemma forOf_run (emails : list GmailMessage) (accessToken : string)
  (found : list EmailContent) (n : N) :
  forOf getEmailContent emails accessToken found n
  = (Ok (found
         ++ filter isTransactionalEmail
              (delivered (fst (answers getEmailContent emails accessToken n)))),
     snd (answers getEmailContent emails accessToken n)).
Proof.
  revert found n. induction emails as [| m rest IH]; intros found n;
    cbn [forOf answers].
  - unfold resolve. cbn. rewrite app_nil_r. reflexivity.
  - unfold andThen. rewrite fetchAndTest_run.
    destruct (getEmailContent accessToken (GmailApi.id m) n)
      as [answer n1].
    cbn [fst snd]. rewrite IH.
    destruct (answers getEmailContent rest accessToken n1) as [others n2].
    cbn [fst snd]. unfold delivered. cbn [flat_map].
    rewrite app_nil_r, filter_app, app_assoc. reflexivity.
Qed.

Lemma accepted_not_promotional (m : EmailContent) :
  isTransactionalEmail m = true -> promotionalCount m < 3.
Proof.
  intros Hc.
  destruct (Z.lt_ge_cases (promotionalCount m) 3) as [Hlt | Hge];
    [ exact Hlt |].
  exfalso. revert Hc. unfold isTransactionalEmail. cbv zeta.
  fold (GmailSpec.content m). rewrite promotionalScore_count.
  apply Z.leb_le in Hge. rewrite Hge. discriminate.
Qed.

Lemma delivered_length (results : list (Result EmailContent)) :
  (List.length (delivered results) <= List.length results)%nat.
Proof.
  unfold delivered.
  induction results as [| [content | e] rest IH];
    cbn [flat_map app List.length]; lia.
Qed.

Lemma answers_length (emails : list GmailMessage) (accessToken : string)
  (n : N) :
  List.length (fst (answers getEmailContent emails accessToken n))
  = List.length emails.
Proof.
  revert n. induction emails as [| m rest IH]; intros n; cbn [answers];
    [ reflexivity |].
  destruct (getEmailContent accessToken (GmailApi.id m) n) as [answer n1].
  specialize (IH n1).
  destruct (answers getEmailContent rest accessToken n1) as [others n2].
  cbn [fst List.length] in *. rewrite IH. reflexivity.
Qed.

(** X6: the filter asks for every message, in order, whatever the
    requests before it answered, and never rejects: a message whose fetch
    fails is left out and the loop goes on.  It resolves with exactly the
    contents that were delivered and that the classifier accepts, in the
    order of the messages; so it returns none with three or more
    promotional keywords and no more emails than there are messages. *)
Theorem filterTransactionalEmails_skips_failed (emails : list GmailMessage)
  (accessToken : string) (n : N) :
  exists found,
    filterTransactionalEmails getEmailContent emails accessToken n
    = (Ok found, snd (answers getEmailContent emails accessToken n)) /\
    found = filter isTransactionalEmail
              (delivered (fst (answers getEmailContent emails accessToken n))) /\
    Forall (fun e => isTransactionalEmail e = true /\ promotionalCount e < 3)
      found /\
    (List.length found <= List.length emails)%nat.
Proof.
  eexists. split; [ unfold filterTransactionalEmails; apply forOf_run |].
  cbn [app]. split; [ reflexivity |]. split.
  - apply Forall_forall. intros e He. apply filter_In in He.
    destruct He as [_ He]. split; [ exact He |].
    apply accepted_not_promotional. exact He.
  - etransitivity; [ apply filter_length_le |].
    etransitivity; [ apply delivered_length |].
    rewrite answers_length. reflexivity.
Qed.

(** A mailbox where the second of four messages cannot be fetched and the
    third is an invoice with a promotional footer: the first and the
    fourth are returned, after four requests. *)
Example filterTransactionalEmails_inbox :
  filterTransactionalEmails mailbox inbox "token" 0%nat
  = (Ok [ invoicePlain; confirmation ], 4%nat).
Proof. vm_compute. reflexivity. Qed.

End GmailApiMore.

(* ================================================================= *)
(** ** Validation of the AI response: what is returned *)

Section AiMore.
Import Json Ai AiSpec.

(** X7: whatever the payload, an analysis that the validator returns has a
    title that is not blank and at least one summary bullet, carries no
    risk score and no scam indicators, and its due date, if any, is a text
    that parses to a date whose local year lies in 2000..2100. *)
Theorem validateDocumentAnalysis_returns_wellformed
  (host : JsDate.Host) (response : value) (r : DocumentAnalysis.t) :
  validateDocumentAnalysis host response = Ok r ->
  Js.trim (DocumentAnalysis.title r) <> "" /\
  DocumentAnalysis.summary_bullets r <> [] /\
  DocumentAnalysis.risk_score r = None /\
  DocumentAnalysis.scam_indicators r = None /\
  forall dueDate,
    DocumentAnalysis.due_date r = Some dueDate ->
    exists t,
      JsDate.parse host dueDate = Some t /\
      2000 <= JsDate.getFullYear host t <= 2100.
Proof.
  unfold validateDocumentAnalysis.
  destruct response as [| b | n | s | items | fields]; cbn [typeof];
    try discriminate.
  destruct (prop (JObj fields) "title") as [[| | | title | |]|];
    try discriminate.
  destruct (String.eqb (Js.trim title) "") eqn:Hblank; [ discriminate |].
  intros H. inversion H; subst r; clear H.
  cbn [DocumentAnalysis.title DocumentAnalysis.summary_bullets
       DocumentAnalysis.risk_score DocumentAnalysis.scam_indicators
       DocumentAnalysis.due_date].
  split; [ apply String.eqb_neq; exact Hblank |].
  split.
  { destruct (assoc "summary_bullets" fields) as [[| | | | l |]|];
      cbv iota; try (intros Heq; discriminate Heq).
    destruct (stringItems l) eqn:Hitems; cbv iota;
      intros Heq; discriminate Heq. }
  split; [ reflexivity |]. split; [ reflexivity |].
  intros dueDate Hdue.
  destruct (assoc "due_date" fields) as [[| | | d | |]|];
    try discriminate Hdue.
  destruct (JsDate.parse host d) as [t |] eqn:Hparse;
    [| discriminate Hdue ].
  destruct ((JsDate.getFullYear host t <? 2000)
            || (2100 <? JsDate.getFullYear host t)) eqn:Hyear;
    [ discriminate Hdue |].
  inversion Hdue; subst dueDate. exists t. split; [ exact Hparse |].
  apply orb_false_iff in Hyear. destruct Hyear as [Hlo Hhi].
  apply Z.ltb_ge in Hlo. apply Z.ltb_ge in Hhi. lia.
Qed.

(** X7 at the payload of a bill, on a device in India. *)
Lemma validateDocumentAnalysis_returns_wellformed_witness :
  validateDocumentAnalysis kolkata (billDue "2026-11-05") = Ok billAnalysis /\
  Js.trim (DocumentAnalysis.title billAnalysis) <> "" /\
  DocumentAnalysis.summary_bullets billAnalysis <> [].
Proof.
  assert (H : validateDocumentAnalysis kolkata (billDue "2026-11-05")
              = Ok billAnalysis) by (vm_compute; reflexivity).
  split; [ exact H |].
  apply validateDocumentAnalysis_returns_wellformed in H.
  split; apply H.
Defined.

End AiMore.

(* ================================================================= *)
(** ** Dates read from a document *)

Section OcrMore.
Import Ocr OcrSpec.

Lemma isDigit_not_separator (c : ascii) :
  Js.isDigit c = true -> isSeparator c = false.
Proof.
  destruct c as [[] [] [] [] [] [] [] []]; vm_compute; congruence.
Qed.

Lemma matchDDMMYYYY_Some (s day month year : string) :
  matchDDMMYYYY s = Some (day, month, year) ->
  exists d1 d2 m1 m2 y1 y2 y3 y4,
    day = two d1 d2 /\ month = two m1 m2 /\
    year = two y1 y2 +++ two y3 y4 /\
    Js.isDigit d1 = true /\ Js.isDigit d2 = true /\
    Js.isDigit m1 = true /\ Js.isDigit m2 = true /\
    Js.isDigit y1 = true /\ Js.isDigit y2 = true /\
    Js.isDigit y3 = true /\ Js.isDigit y4 = true.
Proof.
  unfold matchDDMMYYYY.
  do 10 (destruct s as [| ? s]; [ discriminate |]).
  destruct s; [| discriminate ].
  match goal with
  | |- (if ?c then _ else _) = _ -> _ => destruct c eqn:Hc; [| discriminate ]
  end.
  intros H. inversion H; subst; clear H.
  do 9 (apply andb_true_iff in Hc; destruct Hc as [Hc ?]).
  do 8 eexists. repeat split; first [ reflexivity | eassumption ].
Qed.

Lemma matchDDMMYY_Some (s day month yy : string) (n : Z) :
  matchDDMMYY s = Some (day, month, yy, n) ->
  exists d1 d2 m1 m2 y1 y2,
    day = two d1 d2 /\ month = two m1 m2 /\ yy = two y1 y2 /\
    JsDate.digits2 y1 y2 = Some n /\
    Js.isDigit d1 = true /\ Js.isDigit d2 = true /\
    Js.isDigit m1 = true /\ Js.isDigit m2 = true.
Proof.
  unfold matchDDMMYY.
  do 8 (destruct s as [| ? s]; [ discriminate |]).
  destruct s; [| discriminate ].
  match goal with
  | |- match ?d with _ => _ end = _ -> _ =>
      destruct d as [k |] eqn:Hd; [| discriminate ]
  end.
  match goal with
  | |- (if ?c then _ else _) = _ -> _ => destruct c eqn:Hc; [| discriminate ]
  end.
  intros H. inversion H; subst; clear H.
  do 5 (apply andb_true_iff in Hc; destruct Hc as [Hc ?]).
  do 6 eexists. repeat split; first [ reflexivity | eassumption ].
Qed.

Lemma digits2_isDigit (a b : ascii) (n : Z) :
  JsDate.digits2 a b = Some n -> Js.isDigit a = true /\ Js.isDigit b = true.
Proof.
  unfold JsDate.digits2, JsDate.digitVal.
  destruct (Js.isDigit a); destruct (Js.isDigit b); try discriminate.
  split; reflexivity.
Qed.

Lemma isISODate_of_fields (y1 y2 y3 y4 m1 m2 d1 d2 : ascii) :
  Js.isDigit y1 = true -> Js.isDigit y2 = true ->
  Js.isDigit y3 = true -> Js.isDigit y4 = true ->
  Js.isDigit m1 = true -> Js.isDigit m2 = true ->
  Js.isDigit d1 = true -> Js.isDigit d2 = true ->
  convertDateFormat
    ((two y1 y2 +++ two y3 y4) +++ "-" +++ two m1 m2 +++ "-" +++ two d1 d2)
  = Some ((two y1 y2 +++ two y3 y4) +++ "-" +++ two m1 m2 +++ "-"
          +++ two d1 d2) /\
  isISODate
    ((two y1 y2 +++ two y3 y4) +++ "-" +++ two m1 m2 +++ "-" +++ two d1 d2)
  = true.
Proof.
  intros Hy1 Hy2 Hy3 Hy4 Hm1 Hm2 Hd1 Hd2.
  assert (Hiso :
    isISODate
      ((two y1 y2 +++ two y3 y4) +++ "-" +++ two m1 m2 +++ "-" +++ two d1 d2)
    = true).
  { cbn [two String.append isISODate].
    rewrite Hy1, Hy2, Hy3, Hy4, Hm1, Hm2, Hd1, Hd2. reflexivity. }
  split; [| exact Hiso ].
  unfold convertDateFormat. rewrite Hiso.
  cbn [two String.append matchDDMMYYYY matchDDMMYY].
  rewrite (isDigit_not_separator y3 Hy3), Hy1, Hy2.
  cbn [andb]. reflexivity.
Qed.

(** X8: a date that the conversion returns is in the form YYYY-MM-DD, and
    the conversion maps it to itself. *)
Theorem convertDateFormat_fixed_point (dateStr converted : string) :
  convertDateFormat dateStr = Some converted ->
  isISODate converted = true /\
  convertDateFormat converted = Some converted.
Proof.
  unfold convertDateFormat.
  destruct (matchDDMMYYYY dateStr) as [[[day month] year] |] eqn:H4.
  { intros H. inversion H; subst converted; clear H.
    apply matchDDMMYYYY_Some in H4.
    destruct H4 as (d1 & d2 & m1 & m2 & y1 & y2 & y3 & y4 & -> & -> & -> & H).
    destruct H as (? & ? & ? & ? & ? & ? & ? & ?).
    destruct (isISODate_of_fields y1 y2 y3 y4 m1 m2 d1 d2) as [Hc Hi];
      try assumption.
    split; [ exact Hi | exact Hc ]. }
  destruct (matchDDMMYY dateStr) as [[[[day month] yy] n] |] eqn:H2.
  { intros H. inversion H; subst converted; clear H.
    apply matchDDMMYY_Some in H2.
    destruct H2 as (d1 & d2 & m1 & m2 & y1 & y2 & -> & -> & -> & Hn & H).
    destruct H as (? & ? & ? & ?).
    destruct (digits2_isDigit y1 y2 n Hn) as [Hy1 Hy2].
    destruct (50 <? n).
    - destruct (isISODate_of_fields "1" "9" y1 y2 m1 m2 d1 d2) as [Hc Hi];
        try assumption; try reflexivity.
      split; [ exact Hi | exact Hc ].
    - destruct (isISODate_of_fields "2" "0" y1 y2 m1 m2 d1 d2) as [Hc Hi];
        try assumption; try reflexivity.
      split; [ exact Hi | exact Hc ]. }
  destruct (isISODate dateStr) eqn:Hiso; [| discriminate ].
  intros H. inversion H; subst converted; clear H.
  split; [ exact Hiso |].
  rewrite H4, H2, Hiso. reflexivity.
Qed.

(** X8 at a date with slashes. *)
Lemma convertDateFormat_fixed_point_witness :
  convertDateFormat "15/01/2026" = Some "2026-01-15" /\
  convertDateFormat "2026-01-15" = Some "2026-01-15".
Proof.
  assert (H : convertDateFormat "15/01/2026" = Some "2026-01-15")
    by reflexivity.
  split; [ exact H |].
  apply (convertDateFormat_fixed_point "15/01/2026" "2026-01-15" H).
Defined.




(** The pivot: 50 is read as 2050 and 51 as 1951. *)
Lemma convertDateFormat_pivot :
  convertDateFormat "31/12/50" = Some "2050-12-31" /\
  convertDateFormat "01/01/51" = Some "1951-01-01".
Proof. split; reflexivity. Qed.

End OcrMore.

(* ================================================================= *)
(** ** The JSON text of an answer *)

Section ExtractionFacts.
Import JsSpec Stores.

Lemma startsWith_empty (s : string) : Js.startsWith s "" = true.
Proof. destruct s; reflexivity. Qed.

Lemma startsWith_append (t r : string) : Js.startsWith (t +++ r) t = true.
Proof.
  induction t as [| c t IH]; cbn [String.append Js.startsWith].
  - apply startsWith_empty.
  - rewrite Ascii.eqb_refl, IH. reflexivity.
Qed.

Lemma length_of_append (t r : string) :
  String.length (t +++ r) = (String.length t + String.length r)%nat.
Proof. induction t as [| c t IH]; cbn; [ reflexivity | rewrite IH; reflexivity ]. Qed.

Lemma substring_whole (r : string) : String.substring 0 (String.length r) r = r.
Proof. induction r as [| c r IH]; cbn; [ reflexivity | rewrite IH; reflexivity ]. Qed.

Lemma substring_append (t r : string) :
  String.substring (String.length t)
    (String.length (t +++ r) - String.length t) (t +++ r) = r.
Proof.
  rewrite length_of_append.
  replace (String.length t + String.length r - String.length t)%nat
    with (String.length r) by lia.
  induction t as [| c t IH]; cbn [String.length String.append String.substring].
  - apply substring_whole.
  - exact IH.
Qed.

(** *** What [trim] strips *)

Lemma isSpace2_spaceByte (c1 c2 : ascii) :
  Js.isSpace2 c1 c2 = true -> spaceByte c1 = true /\ spaceByte c2 = true.
Proof.
  unfold Js.isSpace2, spaceByte. intros H.
  apply andb_true_iff in H. destruct H as [H1 H2].
  apply Z.eqb_eq in H1. apply Z.eqb_eq in H2. rewrite H1, H2.
  split; apply orb_true_r.
Qed.

Lemma isSpace3_spaceByte (c1 c2 c3 : ascii) :
  Js.isSpace3 c1 c2 c3 = true ->
  spaceByte c1 = true /\ spaceByte c2 = true /\ spaceByte c3 = true.
Proof.
  unfold Js.isSpace3, spaceByte, Js.inRange. intros H.
  assert (Hge : 128 <= Js.code c1 /\ 128 <= Js.code c2 /\ 128 <= Js.code c3).
  { repeat match type of H with
           | (_ || _) = true => apply orb_true_iff in H; destruct H as [H | H]
           end;
      repeat match goal with
             | Hc : (_ && _) = true |- _ =>
                 apply andb_true_iff in Hc; destruct Hc
             | Hc : (_ || _) = true |- _ =>
                 apply orb_true_iff in Hc; destruct Hc
             | Hc : (_ =? _) = true |- _ => apply Z.eqb_eq in Hc
             | Hc : (_ <=? _) = true |- _ => apply Z.leb_le in Hc
             end; lia. }
  destruct Hge as (H1 & H2 & H3).
  apply Z.leb_le in H1. apply Z.leb_le in H2. apply Z.leb_le in H3.
  rewrite H1, H2, H3. repeat split; apply orb_true_r.
Qed.

(** [trimStart] returns the text from some position on, and every byte
    before that position is a byte that [trim] may strip. *)
Lemma trimStart_strips (P : string -> string -> Prop) :
  (forall s, P s s) ->
  (forall c s x, spaceByte c = true -> P s x -> P (String c s) x) ->
  forall s, P s (Js.trimStart s).
Proof.
  intros Hbase Hstep.
  assert (H : forall n s, (String.length s <= n)%nat -> P s (Js.trimStart s)).
  { induction n as [| n IH]; intros s Hlen.
    - destruct s; [ apply Hbase | cbn in Hlen; lia ].
    - destruct s as [| c1 r1]; [ apply Hbase |].
      cbn [String.length] in Hlen. cbn [Js.trimStart].
      destruct (Js.isSpace1 c1) eqn:H1.
      { apply Hstep; [ unfold spaceByte; rewrite H1; reflexivity |].
        apply IH. lia. }
      destruct r1 as [| c2 r2]; [ apply Hbase |].
      cbn [String.length] in Hlen.
      destruct (Js.isSpace2 c1 c2) eqn:H2.
      { destruct (isSpace2_spaceByte c1 c2 H2) as [Hb1 Hb2].
        apply Hstep; [ exact Hb1 |]. apply Hstep; [ exact Hb2 |].
        apply IH. lia. }
      destruct r2 as [| c3 r3]; [ apply Hbase |].
      cbn [String.length] in Hlen.
      destruct (Js.isSpace3 c1 c2 c3) eqn:H3; [| apply Hbase ].
      destruct (isSpace3_spaceByte c1 c2 c3 H3) as (Hb1 & Hb2 & Hb3).
      apply Hstep; [ exact Hb1 |]. apply Hstep; [ exact Hb2 |].
      apply Hstep; [ exact Hb3 |]. apply IH. lia. }
  intros s. apply (H (String.length s)). lia.
Qed.

Lemma trimStart_visible (c : ascii) (s : string) :
  spaceByte c = false -> Js.trimStart (String c s) = String c s.
Proof.
  intros Hc.
  apply (trimStart_strips
           (fun s0 x => s0 = String c s -> x = String c s)); auto.
  intros c0 s0 x Hb _ Heq. inversion Heq; subst. congruence.
Qed.

(** In a text that has no backtick before its closing brace, no closing
    fence follows white space alone. *)
Lemma no_fence_before_brace (u tail : string) :
  Js.includes u "`" = false ->
  Js.startsWith (Js.trimStart (u +++ String "}" tail)) fence = false.
Proof.
  apply (trimStart_strips
           (fun s x => forall u tail,
              s = u +++ String "}" tail -> Js.includes u "`" = false ->
              Js.startsWith x fence = false)
           ) with (s := u +++ String "}" tail) (u := u) (tail := tail);
    [ | | reflexivity ].
  - intros s u0 tail0 -> Hu.
    destruct u0 as [| c u0]; [ reflexivity |].
    apply includes_cons_false in Hu. destruct Hu as [Hc _].
    cbn [String.append fence Js.startsWith].
    rewrite Ascii.eqb_sym, Hc. reflexivity.
  - intros c s x Hb IH u0 tail0 Heq Hu.
    destruct u0 as [| c0 u0].
    + cbn [String.append] in Heq. inversion Heq; subst.
      vm_compute in Hb. discriminate Hb.
    + cbn [String.append] in Heq. inversion Heq; subst.
      apply includes_cons_false in Hu. destruct Hu as [_ Hu].
      apply (IH u0 tail0); [ reflexivity | exact Hu ].
Qed.

Lemma leadingSpace_newline (s : string) :
  Js.trimStart s = s -> leadingSpace (newline +++ s) = newline.
Proof.
  intros Hs. unfold leadingSpace, newline.
  cbn [String.append Js.trimStart String.length].
  change (Js.isSpace1 (ascii_of_nat 10)) with true. cbv iota. rewrite Hs.
  replace (S (String.length s) - String.length s)%nat with 1%nat by lia.
  cbn [String.substring]. destruct s; reflexivity.
Qed.

Lemma lazyToFence_eq (s : string) :
  lazyToFence s =
  if Js.startsWith (Js.trimStart s) fence then
    Some ("", leadingSpace s +++ fence)
  else
    match s with
    | EmptyString => None
    | String c r =>
        match lazyToFence r with
        | Some (g, closing) => Some (String c g, closing)
        | None => None
        end
    end.
Proof. destruct s; reflexivity. Qed.

Lemma trimStart_space (c : ascii) (s : string) :
  Js.isSpace1 c = true -> Js.trimStart (String c s) = Js.trimStart s.
Proof. intros H. cbn [Js.trimStart]. rewrite H. reflexivity. Qed.

Lemma trimStart_fence (post : string) :
  Js.trimStart (fence +++ post) = fence +++ post.
Proof.
  change (fence +++ post) with (String "`" ("``" +++ post)).
  apply trimStart_visible. reflexivity.
Qed.

(** At a new line and the closing fence the lazy group ends. *)
Lemma lazyToFence_closing (post : string) :
  lazyToFence (newline +++ fence +++ post) = Some ("", newline +++ fence).
Proof.
  rewrite lazyToFence_eq.
  assert (Hstrip : Js.trimStart (newline +++ fence +++ post) = fence +++ post).
  { change (newline +++ fence +++ post)
      with (String (ascii_of_nat 10) (fence +++ post)).
    rewrite trimStart_space by reflexivity. apply trimStart_fence. }
  rewrite Hstrip, startsWith_append.
  rewrite (leadingSpace_newline (fence +++ post) (trimStart_fence post)).
  reflexivity.
Qed.

(** The lazy group runs to the closing brace that the closing fence
    follows. *)
Lemma lazyToFence_object (u rest closing : string) :
  Js.includes u "`" = false ->
  lazyToFence rest = Some ("", closing) ->
  lazyToFence (u +++ String "}" rest) = Some (u +++ "}", closing).
Proof.
  intros Hu Hrest. induction u as [| c u IH].
  - change ("" +++ String "}" rest) with (String "}" rest).
    rewrite lazyToFence_eq.
    rewrite (no_fence_before_brace "" rest eq_refl
             : Js.startsWith (Js.trimStart (String "}" rest)) fence = false).
    rewrite Hrest. reflexivity.
  - change (String c u +++ String "}" rest)
      with (String c (u +++ String "}" rest)).
    rewrite lazyToFence_eq.
    rewrite (no_fence_before_brace (String c u) rest Hu
             : Js.startsWith
                 (Js.trimStart (String c (u +++ String "}" rest))) fence
               = false).
    apply includes_cons_false in Hu. destruct Hu as [_ Hu].
    rewrite (IH Hu). reflexivity.
Qed.

Lemma matchFence_eq (tag s : string) :
  matchFence tag s =
  match
    (if Js.startsWith s tag then
       let rest :=
         String.substring (String.length tag)
           (String.length s - String.length tag) s in
       match lazyToFence (Js.trimStart rest) with
       | Some (g, closing) =>
           Some (tag +++ leadingSpace rest +++ g +++ closing, g)
       | None => None
       end
     else None)
  with
  | Some m => Some m
  | None =>
      match s with
      | EmptyString => None
      | String _ r => matchFence tag r
      end
  end.
Proof. destruct s; reflexivity. Qed.

(** A text without backticks holds no fence, and is passed over on the way
    to one. *)
Lemma matchFence_none (tag s : string) :
  Js.includes s "`" = false -> matchFence (String "`" tag) s = None.
Proof.
  induction s as [| c s IH]; intros Hs; [ reflexivity |].
  apply includes_cons_false in Hs. destruct Hs as [Hc Hs].
  rewrite matchFence_eq. cbn [Js.startsWith].
  rewrite Ascii.eqb_sym, Hc. cbn [andb]. apply IH. exact Hs.
Qed.

Lemma matchFence_after (tag pre s : string) :
  Js.includes pre "`" = false ->
  matchFence (String "`" tag) (pre +++ s) = matchFence (String "`" tag) s.
Proof.
  induction pre as [| c pre IH]; intros Hp; [ reflexivity |].
  apply includes_cons_false in Hp. destruct Hp as [Hc Hp].
  cbn [String.append]. rewrite matchFence_eq. cbn [Js.startsWith].
  rewrite Ascii.eqb_sym, Hc. cbn [andb]. apply IH. exact Hp.
Qed.

Lemma matchFence_object (tag body post : string) :
  Js.includes body "`" = false ->
  exists whole,
    matchFence tag
      (tag +++ String (ascii_of_nat 10)
         (String "{" (body +++ String "}" (newline +++ fence +++ post))))
    = Some (whole, String "{" (body +++ "}")).
Proof.
  intros Hb. rewrite matchFence_eq, startsWith_append, substring_append.
  cbv zeta.
  rewrite trimStart_space by reflexivity.
  rewrite trimStart_visible by reflexivity.
  assert (Hgroup :
    lazyToFence (String "{" (body +++ String "}" (newline +++ fence +++ post)))
    = Some (String "{" (body +++ "}"), newline +++ fence)).
  { apply (lazyToFence_object (String "{" body)
             (newline +++ fence +++ post) (newline +++ fence)).
    - cbn [Js.includes Js.startsWith Ascii.eqb Bool.eqb andb orb].
      exact Hb.
    - apply lazyToFence_closing. }
  rewrite Hgroup. eexists. reflexivity.
Qed.

(** *** The end of an object *)

Lemma append_nothing (s : string) : s +++ "" = s.
Proof.
  induction s as [| c s IH]; cbn [String.append];
    [ reflexivity | rewrite IH; reflexivity ].
Qed.

Lemma append_grouping (a b c : string) :
  (a +++ b) +++ c = a +++ b +++ c.
Proof.
  induction a as [| x a IH]; cbn [String.append];
    [ reflexivity | rewrite IH; reflexivity ].
Qed.

Lemma rev_of_append (a b : string) : Js.rev (a +++ b) = Js.rev b +++ Js.rev a.
Proof.
  induction a as [| c a IH]; cbn [String.append Js.rev].
  - rewrite append_nothing. reflexivity.
  - rewrite IH, append_grouping. reflexivity.
Qed.

Lemma rev_twice (s : string) : Js.rev (Js.rev s) = s.
Proof.
  induction s as [| c s IH]; cbn [Js.rev]; [ reflexivity |].
  rewrite rev_of_append, IH. reflexivity.
Qed.

Lemma trimStartRev_brace (x : string) :
  Js.trimStartRev (String "}" x) = String "}" x.
Proof.
  destruct x as [| c2 [| c3 r]]; cbn [Js.trimStartRev];
    change (Js.isSpace1 "}") with false; cbv iota; try reflexivity;
    unfold Js.isSpace2, Js.isSpace3; change (Js.code "}") with 125;
    change (Js.inRange 128 138 "}") with false;
    change (Js.inRange 168 169 "}") with false;
    cbn [Z.eqb Pos.eqb orb]; rewrite ?andb_false_r; reflexivity.
Qed.

Lemma trim_object (body : string) :
  Js.trim (String "{" (body +++ "}")) = String "{" (body +++ "}").
Proof.
  unfold Js.trim, Js.trimEnd.
  rewrite trimStart_visible by reflexivity.
  cbn [Js.rev]. rewrite rev_of_append. cbn [Js.rev String.append].
  rewrite trimStartRev_brace.
  replace (String "}" (Js.rev body +++ "{"))
    with (Js.rev (String "{" (body +++ "}")))
    by (cbn [Js.rev]; rewrite rev_of_append; reflexivity).
  apply rev_twice.
Qed.

(** X10: an object in a fence marked json is taken out whole: when the
    answer is some text without backticks, the opening fence, a new line,
    an object without backticks, a new line and the closing fence, followed
    by anything, then the JSON text is the object, and it is what is
    parsed. *)
Theorem parseResponse_fenced_object (platform : Platform)
  (pre body post : string) :
  Js.includes pre "`" = false ->
  Js.includes body "`" = false ->
  jsonString
    (pre +++ fence +++ "json" +++ newline +++ "{" +++ body +++ "}" +++
     newline +++ fence +++ post) = "{" +++ body +++ "}" /\
  parseResponse platform
    (pre +++ fence +++ "json" +++ newline +++ "{" +++ body +++ "}" +++
     newline +++ fence +++ post)
  = match JSON_parse platform ("{" +++ body +++ "}") with
    | Some parsed => Ok parsed
    | None => Throw (Error "Failed to parse AI response")
    end.
Proof.
  intros Hpre Hbody.
  assert (Hjson :
    jsonString
      (pre +++ fence +++ "json" +++ newline +++ "{" +++ body +++ "}" +++
       newline +++ fence +++ post) = "{" +++ body +++ "}").
  { unfold jsonString.
    destruct (matchFence_object "```json" body post Hbody) as [whole Hm].
    change (fence +++ "json") with "```json".
    change (pre +++ fence +++ "json" +++ newline +++ "{" +++ body +++ "}" +++
            newline +++ fence +++ post)
      with (pre +++ "```json" +++ String (ascii_of_nat 10)
              (String "{" (body +++ String "}" (newline +++ fence +++ post)))).
    rewrite (matchFence_after "``json" pre _ Hpre), Hm.
    reflexivity. }
  split; [ exact Hjson |].
  unfold parseResponse. rewrite Hjson.
  change ("{" +++ body +++ "}") with (String "{" (body +++ "}")).
  rewrite trim_object. reflexivity.
Qed.

(** X10 at an answer with a sentence before the fence and one after. *)
Lemma parseResponse_fenced_object_witness :
  jsonString
    ("Here is the result:" +++ newline +++ fence +++ "json" +++ newline +++
     "{" +++ " title: Electricity Bill " +++ "}" +++ newline +++ fence +++
     newline +++ "Let me know if you need more.")
  = "{ title: Electricity Bill }".
Proof.
  apply (parseResponse_fenced_object StoresSpec.device
           ("Here is the result:" +++ newline) " title: Electricity Bill "
           (newline +++ "Let me know if you need more."));
    reflexivity.
Defined.

Lemma toLastBrace_none (post : string) :
  Js.includes post "}" = false -> toLastBrace post = None.
Proof.
  induction post as [| c post IH]; intros H; [ reflexivity |].
  apply includes_cons_false in H. destruct H as [Hc Hp].
  cbn [toLastBrace]. rewrite (IH Hp), Hc. reflexivity.
Qed.

Lemma toLastBrace_object (body post : string) :
  Js.includes post "}" = false ->
  toLastBrace (body +++ String "}" post) = Some (body +++ "}").
Proof.
  intros Hp. induction body as [| c body IH]; cbn [String.append toLastBrace].
  - rewrite (toLastBrace_none post Hp). reflexivity.
  - rewrite IH. reflexivity.
Qed.

Lemma matchBraces_after (pre s : string) :
  Js.includes pre "{" = false -> matchBraces (pre +++ s) = matchBraces s.
Proof.
  induction pre as [| c pre IH]; intros H; [ reflexivity |].
  apply includes_cons_false in H. destruct H as [Hc Hp].
  cbn [String.append matchBraces]. rewrite Hc. apply IH. exact Hp.
Qed.

(** X11: without any fence the JSON text runs from the first opening
    brace to the last closing brace: for an answer without backticks that
    is some text without an opening brace, an object, and some text
    without a closing brace, the JSON text is the object. *)
Theorem jsonString_bare_object (pre body post : string) :
  Js.includes (pre +++ "{" +++ body +++ "}" +++ post) "`" = false ->
  Js.includes pre "{" = false ->
  Js.includes post "}" = false ->
  jsonString (pre +++ "{" +++ body +++ "}" +++ post) = "{" +++ body +++ "}".
Proof.
  intros Htick Hpre Hpost. unfold jsonString.
  change (fence +++ "json") with "```json". unfold fence.
  rewrite !matchFence_none by exact Htick.
  rewrite (matchBraces_after pre _ Hpre).
  cbn [String.append matchBraces Ascii.eqb Bool.eqb].
  rewrite (toLastBrace_object body post Hpost). reflexivity.
Qed.

(** X11 at an object between two sentences. *)
Lemma jsonString_bare_object_witness :
  jsonString "Sure. { title: Bill, tags: {} } Done."
  = "{ title: Bill, tags: {} }".
Proof.
  apply (jsonString_bare_object "Sure. " " title: Bill, tags: {} " " Done.");
    reflexivity.
Defined.

End ExtractionFacts.

(* ================================================================= *)
(** ** The rate limiter: the spacing of the calls *)

Section RateLimiterMore.
Import RateLimiter RateLimiterSpec.
Context {World Value Reason : Type}.
Implicit Types (s : State World Value Reason).

(** The head of the loop calls a request only when [minDelayMs] have
    passed since the last call. *)
Lemma next_call (now : Z) s :
  (dispatched (next now s) = dispatched s /\
   lastRequestTime (next now s) = lastRequestTime s) \/
  (List.length (dispatched (next now s)) = S (List.length (dispatched s)) /\
   lastRequestTime (next now s) = now /\
   lastRequestTime s + minDelayMs <= now).
Proof.
  unfold next. destruct (queue s) as [| item rest].
  - left. split; reflexivity.
  - cbv zeta.
    destruct (Z.ltb_spec 0 (Z.max 0 (minDelayMs - (now - lastRequestTime s))))
      as [Hwait | Hgo].
    + left. split; reflexivity.
    + right. cbn [call dispatched lastRequestTime].
      rewrite length_app. cbn [List.length].
      split; [ lia |]. split; [ reflexivity | lia ].
Qed.

(** The head of the loop sets the timer to end [minDelayMs] after the
    last call. *)
Lemma next_sleepsLongEnough (now : Z) s : sleepsLongEnough (next now s).
Proof.
  unfold next, sleepsLongEnough. destruct (queue s) as [| item rest].
  - exact I.
  - cbv zeta.
    destruct (Z.ltb_spec 0 (Z.max 0 (minDelayMs - (now - lastRequestTime s))))
      as [Hwait | Hgo].
    + cbn [worker lastRequestTime]. lia.
    + exact I.
Qed.

Lemma step_sleepsLongEnough (e : Event World Value Reason) s :
  sleepsLongEnough s -> sleepsLongEnough (step s e).
Proof.
  intros Hs. destruct e as [r now | now]; cbn [step].
  - unfold queueRequest, processQueue. cbn [isProcessing queue].
    destruct (isProcessing s
              || (Z.of_nat (List.length (queue s ++ [ {| request := r;
                     promise := List.length (promises s) |} ])) =? 0)).
    + exact Hs.
    + apply next_sleepsLongEnough.
  - unfold resume. destruct (worker s) as [| item since delayNeeded | item].
    + exact Hs.
    + exact I.
    + destruct (request item (world s)) as [outcome w].
      apply next_sleepsLongEnough.
Qed.

(** A step calls a request only when [minDelayMs] have passed since the
    last call: at the head of the loop by the test of [delayNeeded], and
    after the timer because the timer was set long enough and did not
    fire early. *)
Lemma step_call (e : Event World Value Reason) s :
  sleepsLongEnough s ->
  match e, worker s with
  | Resume now, Sleeping _ since delayNeeded => since + delayNeeded <= now
  | _, _ => True
  end ->
  (dispatched (step s e) = dispatched s /\
   lastRequestTime (step s e) = lastRequestTime s) \/
  (List.length (dispatched (step s e)) = S (List.length (dispatched s)) /\
   lastRequestTime s + minDelayMs <= lastRequestTime (step s e)).
Proof.
  intros Hs. destruct e as [r now | now]; cbn [step].
  - intros _. unfold queueRequest, processQueue.
    cbn [isProcessing queue].
    destruct (isProcessing s
              || (Z.of_nat (List.length (queue s ++ [ {| request := r;
                     promise := List.length (promises s) |} ])) =? 0)).
    + left. split; reflexivity.
    + match goal with
      | |- context [next now ?s0] =>
          destruct (next_call now s0) as [[Hd Ht] | (Hd & Ht & Hle)]
      end.
      * left. rewrite Hd, Ht. split; reflexivity.
      * right. rewrite Hd, Ht. split; [ reflexivity | exact Hle ].
  - unfold resume. unfold sleepsLongEnough in Hs.
    destruct (worker s) as [| item since delayNeeded | item].
    + intros _. left. split; reflexivity.
    + intros Htimer. right. cbn [call dispatched lastRequestTime].
      rewrite length_app. cbn [List.length]. split; lia.
    + intros _. destruct (request item (world s)) as [outcome w].
      match goal with
      | |- context [next now ?s0] =>
          destruct (next_call now s0) as [[Hd Ht] | (Hd & Ht & Hle)]
      end.
      * left. rewrite Hd, Ht. split; reflexivity.
      * right. rewrite Hd, Ht. split; [ reflexivity | exact Hle ].
Qed.

(** X12: the limiter keeps the requests apart: in every run of calls of
    [queueRequest] and resumptions, from a new limiter or from any state
    whose timer, if the coroutine sleeps, ends [minDelayMs] after the last
    call or later, in which no timer fires before the delay that
    [processQueue] gave it has passed, each request is called at least
    2000 ms after the request before it, whatever the times of the
    submissions and however long the requests take. *)
Theorem queueRequest_calls_spaced
  (events : list (Event World Value Reason)) s :
  sleepsLongEnough s ->
  timely events s -> spaced (lastRequestTime s) (callTimes events s).
Proof.
  revert s. induction events as [| e rest IH]; intros s Hs;
    cbn [timely callTimes].
  - intros _. exact I.
  - intros [Htimer Hrest].
    specialize (IH (step s e) (step_sleepsLongEnough e s Hs) Hrest).
    destruct (step_call e s Hs Htimer) as [[Hd Ht] | [Hd Hle]].
    + rewrite Hd, Nat.ltb_irrefl. cbn [app]. rewrite <- Ht. exact IH.
    + rewrite Hd.
      replace (List.length (dispatched s) <? S (List.length (dispatched s)))%nat
        with true by (symmetry; apply Nat.ltb_lt; lia).
      cbn [app spaced]. split; [ exact Hle | exact IH ].
Qed.

End RateLimiterMore.

(** X12 at three requests submitted to a new limiter within 1100 ms. *)
Lemma queueRequest_calls_spaced_witness :
  RateLimiterSpec.callTimes
    (RateLimiterSpec.threeCalls
     ++ map RateLimiter.Resume RateLimiterSpec.sixResumes)
    (RateLimiter.init 0) = [ 2000; 4000; 6000 ] /\
  RateLimiterSpec.spaced 0
    (RateLimiterSpec.callTimes
       (RateLimiterSpec.threeCalls
        ++ map RateLimiter.Resume RateLimiterSpec.sixResumes)
       (RateLimiter.init 0)).
Proof.
  split; [ vm_compute; reflexivity |].
  apply (queueRequest_calls_spaced
           (RateLimiterSpec.threeCalls
            ++ map RateLimiter.Resume RateLimiterSpec.sixResumes)
           (RateLimiter.init 0)).
  - vm_compute. exact I.
  - vm_compute. repeat split; try exact I; discriminate.
Defined.

(** A timer that fires early breaks the spacing: the coroutine calls the
    request when it is resumed, without a second look at the clock. *)
Example queueRequest_early_timer :
  RateLimiterSpec.callTimes
    [ RateLimiter.QueueRequest RateLimiterSpec.count 1000;
      RateLimiter.Resume 1500 ]
    (RateLimiter.init 0) = [ 1500 ].
Proof. vm_compute. reflexivity. Qed.

(* ================================================================= *)
(** ** The guardian store: failures *)

Section GuardianFailures.
Import Stores StoresSpec.
Context {Remote : Type} (supabase : Supabase Remote) (platform : Platform).

Lemma neverThrows_modify (f : World Remote -> World Remote) :
  neverThrows (modify Remote f).
Proof. intros w. exists tt, (f w). reflexivity. Qed.

Lemma neverThrows_ret {A} (a : A) : neverThrows (ret Remote a).
Proof. intros w. exists a, w. reflexivity. Qed.

Lemma neverThrows_gets {A} (f : World Remote -> A) :
  neverThrows (gets Remote f).
Proof. intros w. exists (f w), w. reflexivity. Qed.

Lemma neverThrows_bind {A B} (m : M Remote A) (k : A -> M Remote B) :
  neverThrows m -> (forall a, neverThrows (k a)) ->
  neverThrows (bind Remote m k).
Proof.
  intros Hm Hk w. destruct (Hm w) as (a & w1 & Hrun).
  destruct (Hk a w1) as (b & w2 & Hrun2).
  exists b, w2. unfold bind. rewrite Hrun. exact Hrun2.
Qed.

(** A [catch] block that does not throw makes the whole resolve. *)
Lemma neverThrows_try {A} (m : M Remote A) (handler : Exn -> M Remote A) :
  (forall e, neverThrows (handler e)) -> neverThrows (try Remote m handler).
Proof.
  intros Hh w. unfold try. destruct (m w) as [[a | e] w1].
  - exists a, w1. reflexivity.
  - apply Hh.
Qed.

Lemma neverThrows_forEach {A} (l : list A) (body : A -> M Remote unit) :
  (forall x, neverThrows (body x)) -> neverThrows (forEach Remote l body).
Proof.
  intros Hbody. induction l as [| x rest IH]; cbn [forEach].
  - apply neverThrows_ret.
  - apply neverThrows_bind; [ apply Hbody | intros _; exact IH ].
Qed.

(** X13: the actions of the guardian store never reject: whatever the
    device and the database do, fetching the alerts, checking the
    deadlines, creating an alert, dismissing an alert and dismissing the
    alerts of a document resolve; a failure is caught inside. *)
Theorem guardian_actions_never_reject
  (userId itemId alertId : string)
  (notificationSettings : option NotificationSettings)
  (alertType : GuardianAlertType) (triggerDate : option Z) :
  neverThrows (fetchAlerts supabase userId) /\
  neverThrows (checkDeadlines supabase platform userId notificationSettings) /\
  neverThrows
    (createAlert supabase platform userId itemId alertType triggerDate) /\
  neverThrows (dismissAlert supabase alertId) /\
  neverThrows (dismissAlertsForItem supabase itemId).
Proof.
  assert (Hdismiss : forall id, neverThrows (dismissAlert supabase id)).
  { intros id. unfold dismissAlert. apply neverThrows_try.
    intros e. apply neverThrows_modify. }
  split; [| split; [| split; [| split ] ] ].
  - unfold fetchAlerts. apply neverThrows_bind; [ apply neverThrows_modify |].
    intros _. apply neverThrows_try. intros e.
    destruct (negb (Js.includes (message e) "uuid") &&
              negb (match code e with
                    | Some c => Js.includes c "22P02"
                    | None => false
                    end)); apply neverThrows_modify.
  - unfold checkDeadlines.
    apply neverThrows_bind; [ apply neverThrows_modify |].
    intros _. apply neverThrows_try. intros e. apply neverThrows_modify.
  - unfold createAlert. apply neverThrows_try. intros e.
    apply neverThrows_ret.
  - apply Hdismiss.
  - unfold dismissAlertsForItem.
    apply neverThrows_bind; [ apply neverThrows_gets |].
    intros alerts. apply neverThrows_forEach. intros a. apply Hdismiss.
Qed.

(** X14: with push notifications switched off a check of the deadlines
    creates and changes no alert, on the device or in the store, and leaves
    the unread count, whatever the documents are and whether or not the
    device works. *)
Theorem checkDeadlines_push_disabled (userId : string)
  (notificationSettings : option NotificationSettings) :
  push_notifications_enabled (settingsOr notificationSettings) = false ->
  preserves
    (fun w : World Remote =>
       (AsyncStorage.ALERTS (storage w),
        GuardianState.alerts (guardian w),
        GuardianState.unreadCount (guardian w)))
    (checkDeadlines supabase platform userId notificationSettings).
Proof.
  intros Hpush. unfold checkDeadlines, setMonitoring, setGuardian,
    getLocalItems, getItem.
  fold (settingsOr notificationSettings). rewrite Hpush. cbn [negb].
  repeat frame_step.
Qed.

End GuardianFailures.

(** X14 at the settings with push switched off. *)
Lemma checkDeadlines_push_disabled_witness :
  StoresSpec.preserves
    (fun w : Stores.World unit =>
       (AsyncStorage.ALERTS (Stores.storage w),
        GuardianState.alerts (Stores.guardian w),
        GuardianState.unreadCount (Stores.guardian w)))
    (Stores.checkDeadlines StoresSpec.offline StoresSpec.device "user-1"
       (Some StoresSpec.muted)).
Proof.
  apply (checkDeadlines_push_disabled StoresSpec.offline StoresSpec.device
           "user-1" (Some StoresSpec.muted)).
  reflexivity.
Defined.

(* ================================================================= *)
(** ** The guardian store: the kinds of the alerts *)

Section GuardianKinds.
Import Stores StoresSpec.
Context {Remote : Type} (supabase : Supabase Remote) (platform : Platform).
Implicit Types (w : World Remote).

(** The body of the loop follows the deadline state machine. *)
Lemma checkItem_due userId settings snapshot now item :
  checkItem supabase platform userId settings snapshot now item =
  if creates platform settings now snapshot item then
    match due platform settings now item with
    | Some kind =>
        createAlert supabase platform userId (Item.id item) kind
          (dueDateOf platform item)
    | None => ret Remote tt
    end
  else ret Remote tt.
Proof.
  unfold checkItem, creates, due, dueDateOf. rewrite hasActive_find.
  destruct (noDueDate item || isPaidOrArchived item).
  { rewrite andb_false_r. reflexivity. }
  destruct (find _ snapshot) as [existing |]; [ reflexivity |].
  cbn [negb andb].
  destruct (JsDate.parse (host platform) _) as [t |]; cbn [daysUntilDue];
    [| reflexivity ].
  set (days := - ((now - t) / JsDate.msPerDay)).
  unfold alertKind.
  destruct (Z.ltb_spec days 0); [ reflexivity |].
  destruct (Z.leb_spec days 1); cbn [andb].
  { destruct (reminder_1day_enabled settings); [ reflexivity |].
    destruct (Z.leb_spec days 7); destruct (Z.ltb_spec 1 days);
      try lia; reflexivity. }
  destruct (Z.leb_spec days 7); destruct (Z.ltb_spec 1 days);
    try lia; cbn [andb]; [| reflexivity ].
  destruct (reminder_7day_enabled settings); reflexivity.
Qed.

Lemma createAlert_fields userId itemId kind (t : Z) w :
  faults w = [] ->
  exists a w',
    createAlert supabase platform userId itemId kind (Some t) w = (Ok tt, w') /\
    Grows userId [a] w w' /\
    GuardianAlert.item_id a = itemId /\
    GuardianAlert.alert_type a = kind /\
    GuardianAlert.trigger_date a = JsDate.toISOString t /\
    GuardianAlert.is_dismissed a = false /\
    GuardianAlert.is_sent a = false.
Proof.
  intros Hf.
  unfold createAlert, try, bind, toISOString, ret, gets, isTestUser.
  replace (if isLocalAuthUser w then true else true) with true
    by (destruct (isLocalAuthUser w); reflexivity).
  unfold createLocalAlert, bind, generateUUID, nowISOString, gets.
  destruct (fillTemplate platform _ (draws w)) as [id n].
  rewrite getAllLocalAlerts_run by exact Hf.
  rewrite setItem_run by exact Hf.
  unfold ret, setGuardian, modify.
  eexists. eexists. split; [ reflexivity |].
  split.
  - unfold Grows, storedAlerts. cbn.
    repeat split; try assumption; try reflexivity.
    repeat constructor.
  - repeat split; reflexivity.
Qed.

Lemma checkItem_expects userId settings snapshot now item w :
  faults w = [] ->
  exists created w',
    checkItem supabase platform userId settings snapshot now item w
      = (Ok tt, w') /\
    Grows userId created w w' /\
    Forall2 (expects platform settings now) created
      (if creates platform settings now snapshot item then [ item ] else []).
Proof.
  intros Hf. rewrite checkItem_due.
  destruct (creates platform settings now snapshot item) eqn:Hcreates.
  2: { exists [], w. split; [ reflexivity |].
       split; [ apply Grows_refl; exact Hf | constructor ]. }
  unfold creates in Hcreates. apply andb_true_iff in Hcreates.
  destruct Hcreates as [_ Hdue].
  destruct (due platform settings now item) as [kind |] eqn:Hkind;
    [| discriminate Hdue ].
  assert (Hparse : exists t, dueDateOf platform item = Some t).
  { revert Hkind. unfold due.
    destruct (noDueDate item || isPaidOrArchived item); [ discriminate |].
    destruct (dueDateOf platform item) as [t |]; [| discriminate ].
    intros _. exists t. reflexivity. }
  destruct Hparse as [t Ht]. rewrite Ht.
  destruct (createAlert_fields userId (Item.id item) kind t w Hf)
    as (a & w' & Hrun & Hg & Hitem & Hk & Htrigger & Hd & Hs).
  exists [a], w'. split; [ exact Hrun |]. split; [ exact Hg |].
  constructor; [| constructor ].
  unfold expects. rewrite Hitem, Hkind, Hk, Ht, Htrigger, Hd, Hs.
  repeat split; reflexivity.
Qed.

Lemma forEach_checkItem_expects userId settings snapshot now items w :
  faults w = [] ->
  exists created w',
    forEach Remote items
      (checkItem supabase platform userId settings snapshot now) w
      = (Ok tt, w') /\
    Grows userId created w w' /\
    Forall2 (expects platform settings now) created
      (filter (creates platform settings now snapshot) items).
Proof.
  revert w. induction items as [| item rest IH]; intros w Hf.
  - exists [], w. split; [ reflexivity |].
    split; [ apply Grows_refl; exact Hf | constructor ].
  - destruct (checkItem_expects userId settings snapshot now item w Hf)
      as (c1 & w1 & Hrun1 & Hg1 & Hc1).
    assert (Hf1 : faults w1 = []) by apply Hg1.
    destruct (IH w1 Hf1) as (c2 & w2 & Hrun2 & Hg2 & Hc2).
    exists (c1 ++ c2), w2. cbn [forEach]. unfold bind. rewrite Hrun1.
    split; [ exact Hrun2 |].
    split; [ exact (Grows_trans _ _ _ _ _ _ Hg1 Hg2) |].
    cbn [filter].
    destruct (creates platform settings now snapshot item).
    + apply (Forall2_app Hc1 Hc2).
    + inversion Hc1; subst. exact Hc2.
Qed.

(** X15: on a working device with push notifications on, a check of the
    deadlines adds, for each document of the user that calls for an alert
    and has no active alert in the store, one alert, in the order of the
    documents: it is of the document, of the kind the state machine gives
    (overdue before the due date has passed whatever the toggles, the 1-day
    kind up to one day ahead, the 7-day kind up to seven), triggered at the
    due instant, active and not sent. *)
Theorem checkDeadlines_alert_kinds (userId : string)
  (notificationSettings : option NotificationSettings) w :
  faults w = [] ->
  push_notifications_enabled (settingsOr notificationSettings) = true ->
  exists created w',
    checkDeadlines supabase platform userId notificationSettings w
      = (Ok tt, w') /\
    storedAlerts w' = storedAlerts w ++ created /\
    Forall2 (expects platform (settingsOr notificationSettings) (time w))
      created
      (filter (creates platform (settingsOr notificationSettings) (time w)
                 (GuardianState.alerts (guardian w)))
         (userItems userId w)).
Proof.
  intros Hf Hpush. unfold checkDeadlines.
  unfold bind at 1. unfold setMonitoring at 1. unfold setGuardian, modify.
  set (w0 := withGuardian Remote _ w).
  assert (Hf0 : faults w0 = []) by exact Hf.
  unfold try, bind at 1, gets at 1, isTestUser.
  replace (if isLocalAuthUser w0 then true else true) with true
    by (destruct (isLocalAuthUser w0); reflexivity).
  unfold bind at 1. rewrite getLocalItems_run by exact Hf0.
  unfold bind at 1, gets at 1. unfold bind at 1, gets at 1.
  fold (settingsOr notificationSettings). rewrite Hpush. cbn [negb].
  destruct (forEach_checkItem_expects userId (settingsOr notificationSettings)
              (GuardianState.alerts (guardian w0)) (time w0)
              (userItems userId w0) w0 Hf0)
    as (created & w1 & Hloop & Hg & Hc).
  destruct Hg as (Hs1 & Hg1 & Hf1 & Ht1 & Hi1 & Hu1).
  destruct (fetchAlerts_run supabase userId w1 Hf1)
    as (w2 & Hfetch & Hs2 & Hf2 & Ht2 & Hg2).
  unfold bind. rewrite Hloop, Hfetch.
  unfold setMonitoring, setGuardian, modify.
  exists created. eexists. split; [ reflexivity |].
  unfold storedAlerts in *. cbn. rewrite Hs2.
  split; [ exact Hs1 | exact Hc ].
Qed.

End GuardianKinds.

Section GuardianKindsExample.
Import Stores StoresSpec.

(** X15 at a bill due in three days: the alert is of the 7-day kind. *)
Lemma checkDeadlines_alert_kinds_witness :
  exists created w',
    checkDeadlines offline device "user-1" None
      (worldWith [ document "item-1" "2026-11-05" ] []) = (Ok tt, w') /\
    storedAlerts w' = created /\
    Forall2 (expects device defaultSettings 1793577600000) created
      [ document "item-1" "2026-11-05" ].
Proof.
  destruct (checkDeadlines_alert_kinds offline device "user-1" None
              (worldWith [ document "item-1" "2026-11-05" ] []))
    as (created & w' & Hrun & Hstored & Hkinds);
    [ reflexivity | reflexivity |].
  exists created, w'. split; [ exact Hrun |]. split; [ exact Hstored |].
  exact Hkinds.
Defined.

End GuardianKindsExample.

(* ================================================================= *)
(** ** The guardian store: dismissing alerts *)

Section GuardianDismiss.
Import Stores StoresSpec.
Context {Remote : Type} (supabase : Supabase Remote).
Implicit Types (w : World Remote) (a : GuardianAlert.t).
Implicit Types (alerts : list GuardianAlert.t).

Lemma dismissed_of_dismissed a :
  GuardianAlert.is_dismissed a = true -> dismissed a = a.
Proof. destruct a; cbn. intros ->. reflexivity. Qed.

Lemma map_id_dismissWhere (p : GuardianAlert.t -> bool) alerts :
  map GuardianAlert.id (map (dismissWhere p) alerts)
  = map GuardianAlert.id alerts.
Proof.
  induction alerts as [| a rest IH]; cbn [map]; [ reflexivity |].
  rewrite IH. unfold dismissWhere. destruct (p a); reflexivity.
Qed.

Lemma find_id_In (alertId : string) alerts :
  In alertId (map GuardianAlert.id alerts) ->
  exists a, find (fun a => String.eqb (GuardianAlert.id a) alertId) alerts
            = Some a.
Proof.
  induction alerts as [| x rest IH]; cbn [map In find]; [ contradiction |].
  intros [Hx | Hrest].
  - rewrite Hx, String.eqb_refl. exists x. reflexivity.
  - destruct (String.eqb (GuardianAlert.id x) alertId);
      [ exists x; reflexivity | apply IH; exact Hrest ].
Qed.

(** With distinct identities, the update at the index of an identity is the
    update of the alert of that identity. *)
Lemma updateAt_findIndex (alertId : string)
  (f : GuardianAlert.t -> GuardianAlert.t) alerts :
  In alertId (map GuardianAlert.id alerts) ->
  NoDup (map GuardianAlert.id alerts) ->
  exists i,
    findIndex (fun a => String.eqb (GuardianAlert.id a) alertId) alerts
      = Some i /\
    updateAt i f alerts
    = map (fun a => if String.eqb (GuardianAlert.id a) alertId
                    then f a else a) alerts.
Proof.
  induction alerts as [| x rest IH]; cbn [map In]; [ contradiction |].
  intros Hin Hnd. inversion Hnd as [| y l Hnotin Hrest]; subst.
  cbn [findIndex]. destruct (String.eqb (GuardianAlert.id x) alertId) eqn:Hx.
  - exists O. split; [ reflexivity |]. cbn [updateAt]. f_equal.
    apply String.eqb_eq in Hx.
    clear IH Hin Hnd Hrest. induction rest as [| z rest IH]; [ reflexivity |].
    cbn [map] in *. assert (Hz : String.eqb (GuardianAlert.id z) alertId = false).
    { apply String.eqb_neq. intros Heq. apply Hnotin. left. congruence. }
    rewrite Hz. f_equal. apply IH. intros Hin. apply Hnotin. right. exact Hin.
  - destruct Hin as [Heq | Hin];
      [ rewrite Heq, String.eqb_refl in Hx; discriminate Hx |].
    destruct (IH Hin Hrest) as (i & Hi & Hupdate).
    exists (S i). rewrite Hi. split; [ reflexivity |].
    cbn [updateAt]. rewrite Hupdate. reflexivity.
Qed.

(** What dismissing an alert does on a working device, for an alert that
    the store and the device hold. *)
Lemma dismissAlert_run (alertId : string) w :
  faults w = [] ->
  In alertId (map GuardianAlert.id (GuardianState.alerts (guardian w))) ->
  In alertId (map GuardianAlert.id (storedAlerts w)) ->
  NoDup (map GuardianAlert.id (storedAlerts w)) ->
  exists w',
    dismissAlert supabase alertId w = (Ok tt, w') /\
    storedAlerts w'
    = map (dismissWhere (fun a => String.eqb (GuardianAlert.id a) alertId))
        (storedAlerts w) /\
    GuardianState.alerts (guardian w')
    = map (dismissWhere (fun a => String.eqb (GuardianAlert.id a) alertId))
        (GuardianState.alerts (guardian w)) /\
    GuardianState.unreadCount (guardian w')
    = Z.max 0 (GuardianState.unreadCount (guardian w) - 1) /\
    faults w' = [].
Proof.
  intros Hf Hstore Hdevice Hnd.
  destruct (find_id_In alertId _ Hstore) as [a Ha].
  destruct (updateAt_findIndex alertId dismissed _ Hdevice Hnd)
    as (i & Hi & Hupdate).
  unfold dismissAlert, try, bind, gets. rewrite Ha.
  unfold isTestUser.
  replace (if isLocalAuthUser w then true else true) with true
    by (destruct (isLocalAuthUser w); reflexivity).
  unfold updateLocalAlert, bind.
  rewrite getAllLocalAlerts_run by exact Hf. rewrite Hi.
  rewrite setItem_run by exact Hf.
  unfold setGuardian, modify.
  eexists. split; [ reflexivity |].
  unfold storedAlerts in *. cbn. rewrite Hupdate.
  repeat split; try reflexivity. exact Hf.
Qed.

Lemma dismissWhere_twice (p q : GuardianAlert.t -> bool) alerts :
  (forall a, q (dismissed a) = q a) ->
  map (dismissWhere q) (map (dismissWhere p) alerts)
  = map (dismissWhere (fun a => p a || q a)) alerts.
Proof.
  intros Hq. rewrite map_map. apply map_ext. intros a.
  unfold dismissWhere. destruct (p a); cbn [orb].
  - rewrite Hq. destruct (q a); reflexivity.
  - reflexivity.
Qed.

(** X16: dismissing an alert twice: on a working device, for an alert
    that the store and the device hold under an identity of its own, both
    dismissals resolve; the second changes no alert, on the device or in
    the store, and yet lowers the unread count a second time. *)
Theorem dismissAlert_twice (alertId : string) w :
  faults w = [] ->
  In alertId (map GuardianAlert.id (GuardianState.alerts (guardian w))) ->
  In alertId (map GuardianAlert.id (storedAlerts w)) ->
  NoDup (map GuardianAlert.id (storedAlerts w)) ->
  exists w1 w2,
    dismissAlert supabase alertId w = (Ok tt, w1) /\
    dismissAlert supabase alertId w1 = (Ok tt, w2) /\
    storedAlerts w2 = storedAlerts w1 /\
    GuardianState.alerts (guardian w2) = GuardianState.alerts (guardian w1) /\
    GuardianState.unreadCount (guardian w1)
    = Z.max 0 (GuardianState.unreadCount (guardian w) - 1) /\
    GuardianState.unreadCount (guardian w2)
    = Z.max 0 (GuardianState.unreadCount (guardian w) - 2).
Proof.
  intros Hf Hstore Hdevice Hnd.
  destruct (dismissAlert_run alertId w Hf Hstore Hdevice Hnd)
    as (w1 & Hrun1 & Hs1 & Hg1 & Hu1 & Hf1).
  assert (Hstore1 :
    In alertId (map GuardianAlert.id (GuardianState.alerts (guardian w1))))
    by (rewrite Hg1, map_id_dismissWhere; exact Hstore).
  assert (Hdevice1 : In alertId (map GuardianAlert.id (storedAlerts w1)))
    by (rewrite Hs1, map_id_dismissWhere; exact Hdevice).
  assert (Hnd1 : NoDup (map GuardianAlert.id (storedAlerts w1)))
    by (rewrite Hs1, map_id_dismissWhere; exact Hnd).
  destruct (dismissAlert_run alertId w1 Hf1 Hstore1 Hdevice1 Hnd1)
    as (w2 & Hrun2 & Hs2 & Hg2 & Hu2 & Hf2).
  exists w1, w2. split; [ exact Hrun1 |]. split; [ exact Hrun2 |].
  assert (Hsame : forall alerts,
    map (dismissWhere (fun a => String.eqb (GuardianAlert.id a) alertId))
      (map (dismissWhere (fun a => String.eqb (GuardianAlert.id a) alertId))
         alerts)
    = map (dismissWhere (fun a => String.eqb (GuardianAlert.id a) alertId))
        alerts).
  { intros alerts. rewrite dismissWhere_twice by reflexivity.
    apply map_ext. intros a. unfold dismissWhere.
    rewrite orb_diag. reflexivity. }
  split; [ rewrite Hs2, Hs1; apply Hsame |].
  split; [ rewrite Hg2, Hg1; apply Hsame |].
  split; [ exact Hu1 |]. rewrite Hu2, Hu1. lia.
Qed.

Lemma inIds_dismissed (todo : list GuardianAlert.t) a :
  inIds todo (dismissed a) = inIds todo a.
Proof. reflexivity. Qed.

(** The loop of [dismissAlertsForItem] over the alerts [todo]. *)
Lemma forEach_dismissAlert (todo : list GuardianAlert.t) w :
  faults w = [] ->
  NoDup (map GuardianAlert.id (storedAlerts w)) ->
  (forall t, In t todo ->
     In (GuardianAlert.id t)
       (map GuardianAlert.id (GuardianState.alerts (guardian w))) /\
     In (GuardianAlert.id t) (map GuardianAlert.id (storedAlerts w))) ->
  exists w',
    forEach Remote todo
      (fun alert => dismissAlert supabase (GuardianAlert.id alert)) w
      = (Ok tt, w') /\
    storedAlerts w' = map (dismissWhere (inIds todo)) (storedAlerts w) /\
    GuardianState.alerts (guardian w')
    = map (dismissWhere (inIds todo)) (GuardianState.alerts (guardian w)) /\
    faults w' = [].
Proof.
  revert w. induction todo as [| t rest IH]; intros w Hf Hnd Hheld.
  - exists w. split; [ reflexivity |].
    assert (Hid : forall alerts, map (dismissWhere (inIds [])) alerts = alerts)
      by (intros alerts; rewrite <- (map_id alerts) at 2; apply map_ext;
          intros a; reflexivity).
    rewrite !Hid. repeat split; auto.
  - destruct (Hheld t (or_introl eq_refl)) as [Hstore Hdevice].
    destruct (dismissAlert_run (GuardianAlert.id t) w Hf Hstore Hdevice Hnd)
      as (w1 & Hrun1 & Hs1 & Hg1 & _ & Hf1).
    assert (Hnd1 : NoDup (map GuardianAlert.id (storedAlerts w1)))
      by (rewrite Hs1, map_id_dismissWhere; exact Hnd).
    assert (Hheld1 : forall t', In t' rest ->
      In (GuardianAlert.id t')
        (map GuardianAlert.id (GuardianState.alerts (guardian w1))) /\
      In (GuardianAlert.id t') (map GuardianAlert.id (storedAlerts w1))).
    { intros t' Hin. rewrite Hg1, Hs1, !map_id_dismissWhere.
      apply Hheld. right. exact Hin. }
    destruct (IH w1 Hf1 Hnd1 Hheld1) as (w2 & Hrun2 & Hs2 & Hg2 & Hf2).
    exists w2. cbn [forEach]. unfold bind. rewrite Hrun1.
    split; [ exact Hrun2 |].
    rewrite Hs2, Hs1, Hg2, Hg1.
    rewrite !dismissWhere_twice by (intros a; apply inIds_dismissed).
    repeat split; auto.
Qed.

Lemma NoDup_id_eq alerts a b :
  NoDup (map GuardianAlert.id alerts) ->
  In a alerts -> In b alerts -> GuardianAlert.id a = GuardianAlert.id b ->
  a = b.
Proof.
  induction alerts as [| x rest IH]; cbn [map In]; [ contradiction |].
  intros Hnd Ha Hb Heq. inversion Hnd as [| y l Hnotin Hrest]; subst.
  destruct Ha as [Ha | Ha]; destruct Hb as [Hb | Hb]; subst.
  - reflexivity.
  - exfalso. apply Hnotin. rewrite Heq. apply in_map. exact Hb.
  - exfalso. apply Hnotin. rewrite <- Heq. apply in_map. exact Ha.
  - apply IH; assumption.
Qed.

Lemma inIds_In (todo : list GuardianAlert.t) a :
  inIds todo a = true ->
  exists t, In t todo /\ GuardianAlert.id a = GuardianAlert.id t.
Proof.
  unfold inIds. intros H. apply existsb_exists in H.
  destruct H as (t & Hin & Heq). apply String.eqb_eq in Heq.
  exists t. split; assumption.
Qed.

Lemma In_inIds (todo : list GuardianAlert.t) a :
  In a todo -> inIds todo a = true.
Proof.
  intros Hin. unfold inIds. apply existsb_exists.
  exists a. split; [ exact Hin | apply String.eqb_refl ].
Qed.

(** The alerts of a user have distinct identities when all alerts have. *)
Lemma ofUser_NoDup (userId : string) alerts :
  NoDup (map GuardianAlert.id alerts) ->
  NoDup (map GuardianAlert.id (ofUser userId alerts)).
Proof.
  unfold ofUser. induction alerts as [| x rest IH]; cbn [map filter]; [ auto |].
  intros Hnd. inversion Hnd as [| y l' Hnotin Hrest]; subst.
  destruct (String.eqb (GuardianAlert.user_id x) userId);
    [| apply IH; exact Hrest ].
  cbn [map]. constructor; [| apply IH; exact Hrest ].
  intros Hin. apply Hnotin. apply in_map_iff in Hin.
  destruct Hin as (z & Hz & Hin). apply filter_In in Hin.
  rewrite <- Hz. apply in_map. apply Hin.
Qed.

(** X17: dismissing the alerts of a document: on a working device whose
    alerts have distinct identities, with the store holding the user's
    alerts of the device, the action resolves and dismisses every alert of
    the document, in the store and on the device; it leaves every other
    alert as it was, deletes none, and the store still holds the user's
    alerts of the device. *)
Theorem dismissAlertsForItem_dismisses_all (userId itemId : string) w :
  faults w = [] ->
  NoDup (map GuardianAlert.id (storedAlerts w)) ->
  GuardianState.alerts (guardian w) = ofUser userId (storedAlerts w) ->
  exists w',
    dismissAlertsForItem supabase itemId w = (Ok tt, w') /\
    GuardianState.alerts (guardian w')
    = map (dismissFor itemId) (GuardianState.alerts (guardian w)) /\
    storedAlerts w'
    = map (fun a => if String.eqb (GuardianAlert.user_id a) userId
                    then dismissFor itemId a else a) (storedAlerts w) /\
    activeFor itemId (GuardianState.alerts (guardian w')) = [] /\
    GuardianState.alerts (guardian w') = ofUser userId (storedAlerts w').
Proof.
  intros Hf Hnd Hsync.
  set (G := GuardianState.alerts (guardian w)) in *.
  set (D := storedAlerts w) in *.
  set (todo := activeFor itemId G).
  assert (HGD : forall a, In a G -> In a D /\ GuardianAlert.user_id a = userId).
  { intros a Hin. rewrite Hsync in Hin. apply filter_In in Hin.
    destruct Hin as [Hin Hu]. apply String.eqb_eq in Hu. split; assumption. }
  assert (HndG : NoDup (map GuardianAlert.id G))
    by (rewrite Hsync; apply ofUser_NoDup; exact Hnd).
  assert (Htodo : forall t, In t todo ->
            In t G /\ GuardianAlert.item_id t = itemId /\
            GuardianAlert.is_dismissed t = false).
  { intros t Hin. apply filter_In in Hin. destruct Hin as [Hin Hp].
    apply andb_true_iff in Hp. destruct Hp as [Hi Hd].
    apply String.eqb_eq in Hi. apply negb_true_iff in Hd. auto. }
  assert (Hheld : forall t, In t todo ->
            In (GuardianAlert.id t) (map GuardianAlert.id G) /\
            In (GuardianAlert.id t) (map GuardianAlert.id D)).
  { intros t Hin. destruct (Htodo t Hin) as (HinG & _ & _).
    split; apply in_map; [ exact HinG | apply HGD; exact HinG ]. }
  destruct (forEach_dismissAlert todo w Hf Hnd Hheld)
    as (w' & Hrun & Hs & Hg & Hf').
  fold D in Hs. fold G in Hg.
  (* in the store, the alerts dismissed are those of the document *)
  assert (Hpoint : forall a, In a G ->
            dismissWhere (inIds todo) a = dismissFor itemId a).
  { intros a Hin. unfold dismissFor, dismissWhere.
    destruct (inIds todo a) eqn:Hids.
    - apply inIds_In in Hids. destruct Hids as (t & Ht & Heq).
      destruct (Htodo t Ht) as (HtG & Hitem & _).
      assert (a = t) by (apply (NoDup_id_eq G); assumption). subst t.
      rewrite Hitem, String.eqb_refl. reflexivity.
    - destruct (String.eqb (GuardianAlert.item_id a) itemId) eqn:Hitem;
        [| reflexivity ].
      destruct (GuardianAlert.is_dismissed a) eqn:Hd;
        [ symmetry; apply dismissed_of_dismissed; exact Hd |].
      assert (Hin' : In a todo).
      { apply filter_In. split; [ exact Hin |]. rewrite Hitem, Hd. reflexivity. }
      rewrite (In_inIds todo a Hin') in Hids. discriminate Hids. }
  assert (HG : map (dismissWhere (inIds todo)) G = map (dismissFor itemId) G)
    by (apply map_ext_in; exact Hpoint).
  (* on the device, those of the document and of the user *)
  assert (HD : map (dismissWhere (inIds todo)) D
               = map (fun a => if String.eqb (GuardianAlert.user_id a) userId
                               then dismissFor itemId a else a) D).
  { apply map_ext_in. intros a Hin.
    destruct (String.eqb (GuardianAlert.user_id a) userId) eqn:Hu.
    - assert (HinG : In a G)
        by (rewrite Hsync; apply filter_In; split; assumption).
      apply Hpoint. exact HinG.
    - unfold dismissWhere. destruct (inIds todo a) eqn:Hids; [| reflexivity ].
      apply inIds_In in Hids. destruct Hids as (t & Ht & Heq).
      destruct (Htodo t Ht) as (HtG & _ & _).
      destruct (HGD t HtG) as [HtD Htu].
      assert (a = t) by (apply (NoDup_id_eq D); assumption). subst t.
      rewrite Htu, String.eqb_refl in Hu. discriminate Hu. }
  exists w'. unfold dismissAlertsForItem, bind, gets.
  fold G. fold todo. split; [ exact Hrun |].
  rewrite Hg, Hs, HG, HD.
  split; [ reflexivity |]. split; [ reflexivity |].
  split.
  - unfold activeFor. clear. induction G as [| a rest IH]; [ reflexivity |].
    cbn [map filter]. rewrite IH. unfold dismissFor, dismissWhere.
    destruct (String.eqb (GuardianAlert.item_id a) itemId) eqn:Hitem.
    + cbn. rewrite andb_false_r. reflexivity.
    + rewrite Hitem. reflexivity.
  - rewrite Hsync. unfold ofUser. clear.
    induction D as [| a rest IH]; [ reflexivity |].
    cbn [map filter].
    destruct (String.eqb (GuardianAlert.user_id a) userId) eqn:Hu.
    + assert (Hu' : String.eqb (GuardianAlert.user_id (dismissFor itemId a))
                      userId = true).
      { unfold dismissFor, dismissWhere.
        destruct (String.eqb (GuardianAlert.item_id a) itemId); exact Hu. }
      rewrite Hu'. cbn [map]. rewrite IH. reflexivity.
    + rewrite Hu. exact IH.
Qed.

End GuardianDismiss.

Section GuardianDismissExamples.
Import Stores StoresSpec.

(** X16 at a store with two active alerts. *)
Lemma dismissAlert_twice_witness :
  exists w1 w2,
    dismissAlert offline "a1"
      (worldWith [] [ alertFor "a1" "item-1"; alertFor "a2" "item-2" ])
      = (Ok tt, w1) /\
    dismissAlert offline "a1" w1 = (Ok tt, w2) /\
    GuardianState.alerts (guardian w2) = GuardianState.alerts (guardian w1) /\
    GuardianState.unreadCount (guardian w1) = 1 /\
    GuardianState.unreadCount (guardian w2) = 0.
Proof.
  destruct (dismissAlert_twice offline "a1"
              (worldWith [] [ alertFor "a1" "item-1"; alertFor "a2" "item-2" ]))
    as (w1 & w2 & Hrun1 & Hrun2 & _ & Hsame & Hu1 & Hu2).
  - reflexivity.
  - left. reflexivity.
  - left. reflexivity.
  - repeat constructor; cbn; intuition discriminate.
  - exists w1, w2. repeat split; assumption.
Defined.

(** X17 at the alerts of the repository's cascade test. *)
Lemma dismissAlertsForItem_dismisses_all_witness :
  exists w',
    dismissAlertsForItem offline "item-1"
      (worldWith [ document "item-1" "2026-11-05" ]
         [ alertFor "a1" "item-1"; alertFor "a2" "item-1";
           alertFor "a3" "item-2" ]) = (Ok tt, w') /\
    activeFor "item-1" (GuardianState.alerts (guardian w')) = [] /\
    GuardianState.alerts (guardian w')
    = [ dismissed (alertFor "a1" "item-1"); dismissed (alertFor "a2" "item-1");
        alertFor "a3" "item-2" ].
Proof.
  destruct (dismissAlertsForItem_dismisses_all offline "user-1" "item-1"
              (worldWith [ document "item-1" "2026-11-05" ]
                 [ alertFor "a1" "item-1"; alertFor "a2" "item-1";
                   alertFor "a3" "item-2" ]))
    as (w' & Hrun & Hg & _ & Hactive & _).
  - reflexivity.
  - repeat constructor; cbn; intuition discriminate.
  - reflexivity.
  - exists w'. split; [ exact Hrun |]. split; [ exact Hactive |].
    rewrite Hg. reflexivity.
Defined.

End GuardianDismissExamples.

(* ================================================================= *)
(** ** Local storage *)

Section LocalStorageMore.
Import Stores StoresSpec.
Context {Remote : Type} (platform : Platform).
Implicit Types (w : World Remote).

(** X18: a failed read loses the alerts of the device: when the read of
    the stored alerts fails and the write that follows succeeds, creating an
    alert resolves, and the device then holds the new alert and no other:
    the read gives the empty list in place of the failure, and the list
    with the new alert is written over what was stored. *)
Theorem createLocalAlert_after_failed_read (alert : AlertData.t)
  (later : list bool) w :
  faults w = true :: later ->
  hd false later = false ->
  exists a w',
    createLocalAlert platform alert w = (Ok a, w') /\
    storedAlerts w' = [ a ] /\
    GuardianAlert.item_id a = AlertData.item_id alert /\
    faults w' = tl later.
Proof.
  intros Hf Hwrite.
  unfold createLocalAlert, bind, generateUUID, nowISOString, gets.
  destruct (fillTemplate platform _ (draws w)) as [id n].
  unfold getAllLocalAlerts, try, bind, getItem, bind, storageCall.
  cbn [faults withDraws]. rewrite Hf.
  unfold ret, setItem, bind, storageCall. cbn [faults withFaults withDraws].
  destruct later as [| [|] rest]; [ | discriminate Hwrite | ];
    unfold modify; eexists; eexists;
    (split; [ reflexivity |]); repeat split; reflexivity.
Qed.

Lemma hexDigit_isHex (v : Z) : 0 <= v < 16 -> isHex (hexDigit v) = true.
Proof.
  intros H.
  assert (Hv : v = 0 \/ v = 1 \/ v = 2 \/ v = 3 \/ v = 4 \/ v = 5 \/ v = 6
               \/ v = 7 \/ v = 8 \/ v = 9 \/ v = 10 \/ v = 11 \/ v = 12
               \/ v = 13 \/ v = 14 \/ v = 15) by lia.
  repeat (destruct Hv as [-> | Hv]; [ reflexivity |]). subst v. reflexivity.
Qed.

Lemma hexDigit_variant (r : Z) :
  0 <= r < 16 ->
  Js.includes "89ab" (String (hexDigit (Z.lor (Z.land r 3) 8)) "") = true.
Proof.
  intros H.
  assert (Hr : r = 0 \/ r = 1 \/ r = 2 \/ r = 3 \/ r = 4 \/ r = 5 \/ r = 6
               \/ r = 7 \/ r = 8 \/ r = 9 \/ r = 10 \/ r = 11 \/ r = 12
               \/ r = 13 \/ r = 14 \/ r = 15) by lia.
  repeat (destruct Hr as [-> | Hr]; [ reflexivity |]). subst r. reflexivity.
Qed.

Lemma fillTemplate_shaped (template : string) (n : nat) :
  (forall k, 0 <= random16 platform k < 16) ->
  shaped template (fst (fillTemplate platform template n)) = true /\
  snd (fillTemplate platform template n) = (n + placeholders template)%nat.
Proof.
  intros Hrange. revert n.
  induction template as [| c rest IH]; intros n;
    cbn [fillTemplate placeholders shaped fst snd].
  - split; [ reflexivity | lia ].
  - destruct (Ascii.eqb c "x") eqn:Hx; cbn [orb].
    + destruct (IH (S n)) as [IHs IHn].
      destruct (fillTemplate platform rest (S n)) as [s n'].
      cbn [fst snd shaped] in *. rewrite ?Hx, IHs, IHn.
      rewrite (hexDigit_isHex _ (Hrange n)). split; [ reflexivity | lia ].
    + destruct (Ascii.eqb c "y") eqn:Hy.
      * destruct (IH (S n)) as [IHs IHn].
        destruct (fillTemplate platform rest (S n)) as [s n'].
        cbn [fst snd shaped] in *. rewrite ?Hx, ?Hy, IHs, IHn.
        rewrite (hexDigit_variant _ (Hrange n)). split; [ reflexivity | lia ].
      * destruct (IH n) as [IHs IHn].
        destruct (fillTemplate platform rest n) as [s n'].
        cbn [fst snd shaped] in *. rewrite ?Hx, ?Hy, IHs, IHn.
        rewrite Ascii.eqb_refl. split; [ reflexivity | lia ].
Qed.

(** X19: the identifiers of the local records have the shape of a UUID of
    version 4: with random draws in 0..15, the identifier has 36
    characters in five groups of hexadecimal digits in small letters, with
    4 at the head of the third group and one of 8, 9, a and b at the head
    of the fourth; it takes 31 draws. *)
Theorem generateUUID_shape w :
  (forall k, 0 <= random16 platform k < 16) ->
  exists id,
    fst (generateUUID platform w) = Ok id /\
    shaped "xxxxxxxx-xxxx-4xxx-yxxx-xxxxxxxxxxxx" id = true /\
    draws (snd (generateUUID platform w)) = (draws w + 31)%nat.
Proof.
  intros Hrange. unfold generateUUID.
  destruct (fillTemplate_shaped "xxxxxxxx-xxxx-4xxx-yxxx-xxxxxxxxxxxx"
              (draws w) Hrange) as [Hshape Hdraws].
  destruct (fillTemplate platform _ (draws w)) as [s n].
  cbn [fst snd] in *. exists s. split; [ reflexivity |].
  split; [ exact Hshape |]. cbn [draws withDraws]. rewrite Hdraws.
  reflexivity.
Qed.

End LocalStorageMore.

Section LocalStorageExamples.
Import Stores StoresSpec.

(** X18 at a device that holds one alert. *)
Lemma createLocalAlert_after_failed_read_witness :
  storedAlerts
    (withFaults [ true ] (worldWith [] [ alertFor "a1" "item-1" ]))
  = [ alertFor "a1" "item-1" ] /\
  exists a w',
    createLocalAlert device (alertData "item-2")
      (withFaults [ true ] (worldWith [] [ alertFor "a1" "item-1" ]))
    = (Ok a, w') /\
    storedAlerts w' = [ a ] /\
    GuardianAlert.item_id a = "item-2".
Proof.
  split; [ reflexivity |].
  destruct (createLocalAlert_after_failed_read device (alertData "item-2") []
              (withFaults [ true ] (worldWith [] [ alertFor "a1" "item-1" ])))
    as (a & w' & Hrun & Hstored & Hitem & _);
    [ reflexivity | reflexivity |].
  exists a, w'. repeat split; assumption.
Defined.

(** X19 on the device of the examples. *)
Lemma generateUUID_shape_witness :
  exists id,
    fst (generateUUID device (worldWith [] [])) = Ok id /\
    shaped "xxxxxxxx-xxxx-4xxx-yxxx-xxxxxxxxxxxx" id = true.
Proof.
  destruct (generateUUID_shape device (worldWith [] [])) as (id & Hid & Hs & _).
  - intros k. cbn [random16 device]. apply Z.mod_pos_bound. lia.
  - exists id. split; assumption.
Defined.

End LocalStorageExamples.

(* ================================================================= *)
(** ** The alert of a scanned document *)

Section ScanAlert.
Import Stores StoresSpec.
Context {Remote : Type} (supabase : Supabase Remote) (platform : Platform).
Implicit Types (w : World Remote).

(** What [createAlertForItem] does on a working device for a document
    whose due date parses. *)
Lemma createAlertForItem_run (item : Item.t) (userId : string) (t : Z) w :
  faults w = [] ->
  noDueDate item = false ->
  dueDateOf platform item = Some t ->
  exists a w',
    createAlertForItem supabase platform item userId w
    = (Ok {| AlertInfo.created := true;
             AlertInfo.alertType :=
               Some (immediateKind (- ((time w - t) / JsDate.msPerDay))) |},
       w') /\
    storedAlerts w' = storedAlerts w ++ [ a ] /\
    GuardianAlert.item_id a = Item.id item /\
    GuardianAlert.user_id a = userId /\
    GuardianAlert.alert_type a
    = immediateKind (- ((time w - t) / JsDate.msPerDay)) /\
    GuardianAlert.is_dismissed a = false /\
    guardian w' = guardian w /\
    faults w' = [] /\
    time w' = time w /\
    AsyncStorage.ITEMS (storage w') = AsyncStorage.ITEMS (storage w).
Proof.
  intros Hf Hdue Hparse. unfold createAlertForItem. rewrite Hdue.
  unfold dueDateOf in Hparse. rewrite Hparse.
  unfold try, bind, gets, toISOString, ret, isTestUser. cbn [daysUntilDue].
  replace (if isLocalAuthUser w then true else true) with true
    by (destruct (isLocalAuthUser w); reflexivity).
  unfold createLocalAlert, bind, generateUUID, nowISOString, gets.
  destruct (fillTemplate platform _ (draws w)) as [id n].
  rewrite getAllLocalAlerts_run by exact Hf.
  rewrite setItem_run by exact Hf.
  unfold ret.
  assert (Hkind :
    (if - ((time w - t) / JsDate.msPerDay) <? 0 then overdue
     else if - ((time w - t) / JsDate.msPerDay) <=? 1 then deadline_1day
     else if - ((time w - t) / JsDate.msPerDay) <=? 7 then deadline_7day
     else deadline_7day)
    = immediateKind (- ((time w - t) / JsDate.msPerDay))).
  { unfold immediateKind.
    destruct (- ((time w - t) / JsDate.msPerDay) <? 0); [ reflexivity |].
    destruct (- ((time w - t) / JsDate.msPerDay) <=? 1); [ reflexivity |].
    destruct (- ((time w - t) / JsDate.msPerDay) <=? 7); reflexivity. }
  rewrite Hkind.
  eexists. eexists. split; [ reflexivity |].
  unfold storedAlerts. cbn.
  repeat split; try reflexivity; assumption.
Qed.

(** X20: the alert made at a scan: on a working device, for a document
    whose due date parses, [createAlertForItem] reports an alert created
    and adds one active alert of the document to the device, whatever the
    status of the document, the notification settings and the alerts that
    exist: overdue after the due date, of the 1-day kind up to one day
    ahead and of the 7-day kind otherwise, also when the due date is more
    than seven days away.  It does not add the alert to the guardian
    store. *)
Theorem createAlertForItem_creates (item : Item.t) (userId : string)
  (t : Z) w :
  faults w = [] ->
  noDueDate item = false ->
  dueDateOf platform item = Some t ->
  exists a w',
    createAlertForItem supabase platform item userId w
    = (Ok {| AlertInfo.created := true;
             AlertInfo.alertType := Some (GuardianAlert.alert_type a) |}, w') /\
    GuardianAlert.alert_type a
    = immediateKind (- ((time w - t) / JsDate.msPerDay)) /\
    storedAlerts w' = storedAlerts w ++ [ a ] /\
    GuardianAlert.item_id a = Item.id item /\
    GuardianAlert.is_dismissed a = false /\
    guardian w' = guardian w.
Proof.
  intros Hf Hdue Hparse.
  destruct (createAlertForItem_run item userId t w Hf Hdue Hparse)
    as (a & w' & Hrun & Hs & Hi & _ & Hk & Hd & Hg & _).
  exists a, w'. rewrite Hk. repeat split; assumption.
Qed.

Lemma activeFor_single (itemId : string) (a : GuardianAlert.t) :
  GuardianAlert.item_id a = itemId ->
  GuardianAlert.is_dismissed a = false ->
  activeFor itemId [ a ] = [ a ].
Proof.
  intros Hi Hd. cbn. rewrite Hi, String.eqb_refl, Hd. reflexivity.
Qed.

Lemma ofUser_single (userId : string) (a : GuardianAlert.t) :
  GuardianAlert.user_id a = userId -> ofUser userId [ a ] = [ a ].
Proof. intros Hu. cbn. rewrite Hu, String.eqb_refl. reflexivity. Qed.

(** The alerts of a document that a check adds, counted. *)
Lemma checkDeadlines_adds (userId : string)
  (notificationSettings : option NotificationSettings) (item : Item.t) w :
  faults w = [] ->
  filter (fun i => String.eqb (Item.id i) (Item.id item)) (userItems userId w)
    = [ item ] ->
  exists created w',
    checkDeadlines supabase platform userId notificationSettings w
      = (Ok tt, w') /\
    storedAlerts w' = storedAlerts w ++ created /\
    Forall (fun a => GuardianAlert.user_id a = userId /\
                     GuardianAlert.is_dismissed a = false) created /\
    List.length (activeFor (Item.id item) created)
    = (if push_notifications_enabled (settingsOr notificationSettings)
          && creates platform (settingsOr notificationSettings) (time w)
               (GuardianState.alerts (guardian w)) item
       then 1%nat else 0%nat) /\
    GuardianState.alerts (guardian w')
    = (if push_notifications_enabled (settingsOr notificationSettings)
       then ofUser userId (storedAlerts w')
       else GuardianState.alerts (guardian w)).
Proof.
  intros Hf Hitem.
  destruct (checkDeadlines_run supabase platform userId notificationSettings
              w Hf)
    as (c & w' & Hrun & Hs & _ & _ & Hu & Hpost).
  exists c, w'. split; [ exact Hrun |]. split; [ exact Hs |].
  split; [ exact Hu |].
  destruct (push_notifications_enabled (settingsOr notificationSettings));
    cbn [andb].
  - destruct Hpost as [Hg Hc]. split; [| exact Hg ].
    rewrite (activeFor_created (Item.id item) userId c Hu), Hc, count_created.
    rewrite Hitem. cbn [filter].
    destruct (creates platform _ _ _ item); reflexivity.
  - destruct Hpost as [-> Hg]. split; [ reflexivity | exact Hg ].
Qed.

(** X21: the scan flow and the monitor agree: on a working device, for a
    new document of the user that has no active alert yet, creating its
    alert, fetching the alerts (as the scan screen does) and then checking
    the deadlines, at any later time and under any settings, leaves exactly
    one active alert of the document, on the device and in the store: the
    check finds the alert of the scan. *)
Theorem createAlertForItem_then_checkDeadlines
  (userId : string) (notificationSettings : option NotificationSettings)
  (later t : Z) (item : Item.t) w :
  faults w = [] ->
  noDueDate item = false ->
  dueDateOf platform item = Some t ->
  filter (fun i => String.eqb (Item.id i) (Item.id item)) (userItems userId w)
    = [ item ] ->
  activeFor (Item.id item) (storedAlerts w) = [] ->
  exists info w1 w2 w3,
    createAlertForItem supabase platform item userId w = (Ok info, w1) /\
    AlertInfo.created info = true /\
    fetchAlerts supabase userId w1 = (Ok tt, w2) /\
    checkDeadlines supabase platform userId notificationSettings
      (withTime later w2) = (Ok tt, w3) /\
    List.length (activeFor (Item.id item) (storedAlerts w3)) = 1%nat /\
    List.length
      (activeFor (Item.id item) (GuardianState.alerts (guardian w3))) = 1%nat.
Proof.
  intros Hf Hdue Hparse Hitem Hnone.
  destruct (createAlertForItem_run item userId t w Hf Hdue Hparse)
    as (a & w1 & Hrun1 & Hs1 & Hi & Hu & _ & Hd & _ & Hf1 & _ & Hitems1).
  destruct (fetchAlerts_run supabase userId w1 Hf1)
    as (w2 & Hrun2 & Hs2 & Hf2 & _ & Hg2).
  assert (Hstored2 : storedAlerts w2 = storedAlerts w ++ [ a ])
    by (unfold storedAlerts in *; rewrite Hs2; exact Hs1).
  assert (Hactive2 :
    activeFor (Item.id item) (GuardianState.alerts (guardian w2)) = [ a ]).
  { rewrite Hg2, Hs1, ofUser_app, activeFor_app.
    rewrite (activeFor_ofUser_nil _ _ _ Hnone).
    rewrite (ofUser_single userId a Hu).
    rewrite (activeFor_single (Item.id item) a Hi Hd). reflexivity. }
  assert (Hitem2 :
    filter (fun i => String.eqb (Item.id i) (Item.id item))
      (userItems userId (withTime later w2)) = [ item ]).
  { replace (userItems userId (withTime later w2)) with (userItems userId w);
      [ exact Hitem |].
    unfold userItems. cbn. rewrite Hs2, Hitems1. reflexivity. }
  destruct (checkDeadlines_adds userId notificationSettings item
              (withTime later w2) Hf2 Hitem2)
    as (c & w3 & Hrun3 & Hs3 & Hu3 & Hcount & Hg3).
  change (storedAlerts (withTime later w2)) with (storedAlerts w2) in Hs3.
  change (guardian (withTime later w2)) with (guardian w2) in Hcount, Hg3.
  assert (Hzero : List.length (activeFor (Item.id item) c) = 0%nat).
  { rewrite Hcount. unfold creates. rewrite hasActive_activeFor, Hactive2.
    cbn [negb andb]. rewrite andb_false_r. reflexivity. }
  eexists. exists w1, w2, w3.
  split; [ exact Hrun1 |]. split; [ reflexivity |].
  split; [ exact Hrun2 |]. split; [ exact Hrun3 |].
  assert (Hstored3 :
    List.length (activeFor (Item.id item) (storedAlerts w3)) = 1%nat).
  { rewrite Hs3, Hstored2, !activeFor_app, !length_app, Hnone, Hzero.
    rewrite (activeFor_single (Item.id item) a Hi Hd). reflexivity. }
  split; [ exact Hstored3 |].
  rewrite Hg3.
  destruct (push_notifications_enabled (settingsOr notificationSettings)).
  - rewrite Hs3, Hstored2, !ofUser_app, !activeFor_app, !length_app.
    rewrite (activeFor_ofUser_nil _ _ _ Hnone).
    rewrite (ofUser_single userId a Hu).
    rewrite (activeFor_single (Item.id item) a Hi Hd).
    rewrite (ofUser_created userId c Hu3), Hzero. reflexivity.
  - rewrite Hactive2. reflexivity.
Qed.

(** X22: without the fetch the monitor does not see the alert of the
    scan: on a working device with push notifications on, for a new
    document of the user that calls for an alert and has no active alert
    yet, creating its alert and then checking the deadlines, with the
    guardian store as it was, leaves two active alerts of the document on
    the device. *)
Theorem createAlertForItem_without_fetch
  (userId : string) (notificationSettings : option NotificationSettings)
  (t : Z) (item : Item.t) (kind : GuardianAlertType) w :
  faults w = [] ->
  noDueDate item = false ->
  dueDateOf platform item = Some t ->
  push_notifications_enabled (settingsOr notificationSettings) = true ->
  due platform (settingsOr notificationSettings) (time w) item = Some kind ->
  filter (fun i => String.eqb (Item.id i) (Item.id item)) (userItems userId w)
    = [ item ] ->
  activeFor (Item.id item) (storedAlerts w) = [] ->
  activeFor (Item.id item) (GuardianState.alerts (guardian w)) = [] ->
  exists info w1 w2,
    createAlertForItem supabase platform item userId w = (Ok info, w1) /\
    checkDeadlines supabase platform userId notificationSettings w1
      = (Ok tt, w2) /\
    List.length (activeFor (Item.id item) (storedAlerts w2)) = 2%nat.
Proof.
  intros Hf Hdue Hparse Hpush Hkind Hitem Hnone Hstore.
  destruct (createAlertForItem_run item userId t w Hf Hdue Hparse)
    as (a & w1 & Hrun1 & Hs1 & Hi & Hu & _ & Hd & Hg1 & Hf1 & Ht1 & Hitems1).
  assert (Hitem1 :
    filter (fun i => String.eqb (Item.id i) (Item.id item))
      (userItems userId w1) = [ item ]).
  { replace (userItems userId w1) with (userItems userId w); [ exact Hitem |].
    unfold userItems. rewrite Hitems1. reflexivity. }
  destruct (checkDeadlines_adds userId notificationSettings item w1 Hf1 Hitem1)
    as (c & w2 & Hrun2 & Hs2 & _ & Hcount & _).
  eexists. exists w1, w2.
  split; [ exact Hrun1 |]. split; [ exact Hrun2 |].
  rewrite Hs2, Hs1, !activeFor_app, !length_app, Hnone, Hcount.
  rewrite (activeFor_single (Item.id item) a Hi Hd).
  rewrite Hpush, Hg1, Ht1. unfold creates.
  rewrite hasActive_activeFor, Hstore, Hkind. reflexivity.
Qed.

End ScanAlert.

Section ScanAlertExamples.
Import Stores StoresSpec.

(** X20 at a paid bill due in three days, with an active alert of its
    own. *)
Lemma createAlertForItem_creates_witness :
  exists a w',
    createAlertForItem offline device
      (withStatus paid (document "item-1" "2026-11-05")) "user-1"
      (worldWith [ withStatus paid (document "item-1" "2026-11-05") ]
         [ alertFor "a1" "item-1" ])
    = (Ok {| AlertInfo.created := true;
             AlertInfo.alertType := Some (GuardianAlert.alert_type a) |}, w') /\
    GuardianAlert.alert_type a = deadline_7day /\
    storedAlerts w' = [ alertFor "a1" "item-1"; a ].
Proof.
  destruct (createAlertForItem_creates offline device
              (withStatus paid (document "item-1" "2026-11-05")) "user-1"
              1793836800000
              (worldWith [ withStatus paid (document "item-1" "2026-11-05") ]
                 [ alertFor "a1" "item-1" ]))
    as (a & w' & Hrun & Hkind & Hstored & _);
    [ reflexivity | reflexivity | vm_compute; reflexivity |].
  exists a, w'. split; [ exact Hrun |]. split; [ exact Hkind |].
  exact Hstored.
Defined.

(** X21 at a bill due in three days, checked a day later. *)
Lemma createAlertForItem_then_checkDeadlines_witness :
  exists info w1 w2 w3,
    createAlertForItem offline device (document "item-1" "2026-11-05")
      "user-1" (worldWith [ document "item-1" "2026-11-05" ] [])
    = (Ok info, w1) /\
    AlertInfo.created info = true /\
    fetchAlerts offline "user-1" w1 = (Ok tt, w2) /\
    checkDeadlines offline device "user-1" None (withTime 1793664000000 w2)
    = (Ok tt, w3) /\
    List.length (activeFor "item-1" (storedAlerts w3)) = 1%nat /\
    List.length (activeFor "item-1" (GuardianState.alerts (guardian w3)))
    = 1%nat.
Proof.
  apply (createAlertForItem_then_checkDeadlines offline device "user-1" None
           1793664000000 1793836800000 (document "item-1" "2026-11-05")
           (worldWith [ document "item-1" "2026-11-05" ] []));
    vm_compute; reflexivity.
Defined.

(** X22 at the same bill, checked without the fetch. *)
Lemma createAlertForItem_without_fetch_witness :
  exists info w1 w2,
    createAlertForItem offline device (document "item-1" "2026-11-05")
      "user-1" (worldWith [ document "item-1" "2026-11-05" ] [])
    = (Ok info, w1) /\
    checkDeadlines offline device "user-1" None w1 = (Ok tt, w2) /\
    List.length (activeFor "item-1" (storedAlerts w2)) = 2%nat.
Proof.
  apply (createAlertForItem_without_fetch offline device "user-1" None
           1793836800000 (document "item-1" "2026-11-05") deadline_7day
           (worldWith [ document "item-1" "2026-11-05" ] []));
    vm_compute; reflexivity.
Defined.

End ScanAlertExamples.

(* ================================================================= *)
(** ** The items store: paying, archiving and removing a document *)

Section ItemStatusMore.
Import Stores StoresSpec.
Context {Remote : Type} (supabase : Supabase Remote) (platform : Platform).
Context (deleteItem : string -> Remote -> Result unit * Remote).
Implicit Types (w : World Remote).

Lemma updateLocalItem_itemsStore (itemId : string) (updates : Item.t -> Item.t) :
  preserves (fun w => itemsStore w) (updateLocalItem Remote itemId updates).
Proof.
  unfold updateLocalItem, getAllLocalItems, getItem, setItem.
  repeat frame_step.
Qed.

(** X23: marking a document paid is all or nothing in the items store:
    when the action resolves, the document has the status paid in the list
    of the store and is gone from the upcoming documents, and nothing else
    of the store has changed; when it rejects, because the device or the
    database failed or the device does not hold the document, the store is
    as it was. *)
Theorem markAsPaid_all_or_nothing (itemId : string) w :
  match fst (markAsPaid supabase itemId w) with
  | Ok _ =>
      ItemsState.items (itemsStore (snd (markAsPaid supabase itemId w)))
      = map (fun item => if String.eqb (Item.id item) itemId
                         then withStatus paid item else item)
          (ItemsState.items (itemsStore w)) /\
      ItemsState.upcomingItems
        (itemsStore (snd (markAsPaid supabase itemId w)))
      = filter (fun item => negb (String.eqb (Item.id item) itemId))
          (ItemsState.upcomingItems (itemsStore w)) /\
      ItemsState.folders (itemsStore (snd (markAsPaid supabase itemId w)))
      = ItemsState.folders (itemsStore w) /\
      ItemsState.error (itemsStore (snd (markAsPaid supabase itemId w)))
      = ItemsState.error (itemsStore w)
  | Throw _ =>
      itemsStore (snd (markAsPaid supabase itemId w)) = itemsStore w
  end.
Proof.
  unfold markAsPaid, try, bind, gets.
  match goal with
  | |- context [match ?act w with _ => _ end] =>
      assert (Hkeep : itemsStore (snd (act w)) = itemsStore w);
      [| destruct (act w) as [[[] | e] w1] ]
  end.
  - destruct (find _ _) as [i |].
    + destruct (isTestUser Remote w (Item.user_id i)).
      * apply updateLocalItem_itemsStore.
      * apply (preserves_call (fun w => itemsStore w)). reflexivity.
    + apply (preserves_call (fun w => itemsStore w)). reflexivity.
  - cbn [snd] in Hkeep. cbn. rewrite Hkeep. repeat split; reflexivity.
  - cbn [snd] in Hkeep. cbn. exact Hkeep.
Qed.

(** X24: archiving and removing a document leave the upcoming documents
    and the alerts alone: whatever their outcome, neither action changes
    the list of upcoming documents of the items store, the guardian store
    or the alerts of the device; a document that is archived or removed
    stays among the upcoming documents, and its alerts stay active. *)
Theorem archiveItem_removeItem_frame (itemId : string) :
  preserves
    (fun w : World Remote =>
       (ItemsState.upcomingItems (itemsStore w), guardian w,
        AsyncStorage.ALERTS (storage w)))
    (archiveItem supabase itemId) /\
  preserves
    (fun w : World Remote =>
       (ItemsState.upcomingItems (itemsStore w), guardian w,
        AsyncStorage.ALERTS (storage w)))
    (removeItem platform deleteItem itemId).
Proof.
  split.
  - unfold archiveItem, updateLocalItem, getAllLocalItems, getItem, setItem,
      setItemsStore.
    repeat frame_step.
  - unfold removeItem, setLoading, deleteLocalItem, getAllLocalItems, getItem,
      setItem, setItemsStore.
    repeat frame_step.
Qed.

End ItemStatusMore.

(* ================================================================= *)
(** ** Folders *)

Section FolderMore.
Import Stores StoresSpec.

Lemma documentFolderMap_named :
  Forall (fun entry => snd entry <> "") documentFolderMap.
Proof. unfold documentFolderMap. repeat constructor; discriminate. Qed.

(** X25: a scanned document always has a folder name: for every title
    and category the name that the router gives is not empty, and it is a
    folder of the document-type table or the folder of one of the six
    categories. *)
Theorem determineFolderName_named (title : string) (category : ItemCategory) :
  determineFolderName title category <> "" /\
  In (determineFolderName title category)
    (map snd documentFolderMap ++ map categoryFolderMap Ai.VALID_CATEGORIES).
Proof.
  unfold determineFolderName. cbv zeta.
  destruct (find _ documentFolderMap) as [[keyword folderName] |] eqn:Hfind.
  - apply find_some in Hfind. destruct Hfind as [Hin _].
    split.
    + pose proof documentFolderMap_named as Hnamed.
      rewrite Forall_forall in Hnamed. exact (Hnamed _ Hin).
    + apply in_or_app. left.
      apply (in_map snd documentFolderMap (keyword, folderName) Hin).
  - split; [ destruct category; cbn; discriminate |].
    apply in_or_app. right.
    destruct category; cbn; auto 10.
Qed.

Lemma startsWith_self (s : string) : Js.startsWith s s = true.
Proof.
  induction s as [| c s IH]; cbn [Js.startsWith]; [ reflexivity |].
  rewrite Ascii.eqb_refl, IH. reflexivity.
Qed.

Lemma includes_self (s : string) : Js.includes s s = true.
Proof. destruct s; cbn [Js.includes]; rewrite startsWith_self; reflexivity. Qed.

Lemma searchTerms_category (category : ItemCategory) :
  In (Js.toLowerCase (categoryName category)) (searchTerms category).
Proof. destruct category; left; reflexivity. Qed.

(** X26: the folder of a category is found by the search terms alone:
    [findMatchingFolder] returns the first folder whose name in small
    letters contains a search term of the category, and no folder
    otherwise; the later look-up of a folder named as the category never
    finds one, because the name of each category is among its search
    terms. *)
Theorem findMatchingFolder_by_search_terms (category : ItemCategory)
  (folders : list VaultFolder.t) :
  findMatchingFolder category folders
  = find (fun folder =>
            existsb (fun term =>
                       Js.includes (Js.toLowerCase (VaultFolder.name folder))
                         term)
              (searchTerms category))
      folders.
Proof.
  unfold findMatchingFolder. cbv zeta.
  destruct (find _ folders) as [folder |] eqn:Hfirst; [ reflexivity |].
  destruct (find (fun f => String.eqb (Js.toLowerCase (VaultFolder.name f))
                             (Js.toLowerCase (categoryName category)))
              folders) as [f |] eqn:Hexact; [| reflexivity ].
  exfalso. apply find_some in Hexact. destruct Hexact as [Hin Hname].
  apply String.eqb_eq in Hname.
  pose proof (find_none _ _ Hfirst f Hin) as Hnone. cbv beta in Hnone.
  assert (Htrue :
    existsb (fun term =>
               Js.includes (Js.toLowerCase (VaultFolder.name f)) term)
      (searchTerms category) = true).
  { apply existsb_exists. exists (Js.toLowerCase (categoryName category)).
    split; [ apply searchTerms_category |].
    rewrite Hname. apply includes_self. }
  rewrite Htrue in Hnone. discriminate Hnone.
Qed.

End FolderMore.

(* ================================================================= *)
(** ** The scan *)

(** A sequence of two steps that resolves: the first step resolved. *)
Ltac bind_split H :=
  let a := fresh "a" in
  let w := fresh "w" in
  let Hm := fresh "Hm" in
  apply bind_Ok in H; destruct H as (a & w & Hm & H); cbv beta zeta in H.

Section ScanMore.
Import Stores StoresSpec.
Context {Remote : Type} (supabase : Supabase Remote) (platform : Platform).
Context (INDIAN_DOCUMENT_PROMPT : string).
Implicit Types (w : World Remote).

Lemma preserves_generateUUID {X} (part : World Remote -> X) :
  (forall n w, part (withDraws Remote n w) = part w) ->
  preserves part (generateUUID platform).
Proof.
  intros Hpart w. unfold generateUUID.
  destruct (fillTemplate platform _ (draws w)) as [s n]. apply Hpart.
Qed.

Lemma addFolder_error (name userId : string) :
  preserves (fun w => ItemsState.error (itemsStore w))
    (addFolder supabase platform name userId).
Proof.
  unfold addFolder, createLocalFolder, nowISOString, getAllLocalFolders,
    getItem, setItem, setItemsStore.
  repeat first [ frame_step
               | apply preserves_generateUUID; intros ? ?; reflexivity ].
Qed.

(** X27: a scan always ends the scanning state: whatever the outcome,
    after [scanDocument] the store is not scanning and shows no progress
    text; when the scan resolves the store holds no error, and when it
    rejects the store holds the user-friendly message of the error it
    rejects with. *)
Theorem scanDocument_settles (imageUri userId : string) w :
  ItemsState.isScanning
    (itemsStore
       (snd (scanDocument supabase platform INDIAN_DOCUMENT_PROMPT imageUri
               userId w))) = false /\
  ItemsState.scanProgress
    (itemsStore
       (snd (scanDocument supabase platform INDIAN_DOCUMENT_PROMPT imageUri
               userId w))) = "" /\
  ItemsState.error
    (itemsStore
       (snd (scanDocument supabase platform INDIAN_DOCUMENT_PROMPT imageUri
               userId w)))
  = match fst (scanDocument supabase platform INDIAN_DOCUMENT_PROMPT imageUri
                 userId w) with
    | Ok _ => None
    | Throw e => Some (getUserFriendlyMessage platform e)
    end.
Proof.
  remember (scanDocument supabase platform INDIAN_DOCUMENT_PROMPT imageUri
              userId w) as run eqn:Hrun.
  unfold scanDocument in Hrun.
  unfold bind at 1 in Hrun. unfold setScan at 1 in Hrun.
  unfold setItemsStore at 1 in Hrun. unfold modify at 1 in Hrun.
  set (w0 := withItemsStore Remote _ w) in Hrun.
  assert (Herr0 : ItemsState.error (itemsStore w0) = None) by reflexivity.
  clearbody w0.
  match type of Hrun with
  | context [try Remote ?b ?h w0] => set (body := b) in Hrun
  end.
  assert (Hframe :
    preserves (fun w => ItemsState.error (itemsStore w)) body).
  { subst body. unfold setScan, setItemsStore.
    repeat first [ frame_step | apply addFolder_error ]. }
  unfold try in Hrun. destruct (body w0) as [[result | e] w1] eqn:Hbody.
  - subst run. cbn [fst snd].
    pose proof (Hframe w0) as Herr. rewrite Hbody in Herr. cbn [snd] in Herr.
    rewrite Herr, Herr0.
    subst body. do 7 bind_split Hbody.
    unfold ret in Hbody. inversion Hbody; subst; clear Hbody.
    match goal with
    | Hlast : setScan _ (Some false) "" None _ = (Ok _, _) |- _ =>
        unfold setScan, setItemsStore, modify in Hlast;
        inversion Hlast; subst; clear Hlast
    end.
    repeat split; reflexivity.
  - subst run. unfold bind, setScan, setItemsStore, modify, throw.
    cbn. repeat split; reflexivity.
Qed.

(** Adding a folder on the device: the folders are read, a failed read
    counting as no folders, and written; the folder is added to the store
    when the write succeeds, and the action rejects when it fails. *)
Lemma addFolder_run (name userId : string) w :
  if secondCallFails w then
    exists e w',
      addFolder supabase platform name userId w = (Throw e, w') /\
      itemsStore w' = itemsStore w
  else
    exists f w',
      addFolder supabase platform name userId w = (Ok f, w') /\
      VaultFolder.name f = name /\
      VaultFolder.user_id f = userId /\
      ItemsState.folders (itemsStore w')
      = ItemsState.folders (itemsStore w) ++ [ f ].
Proof.
  unfold secondCallFails, addFolder, try, bind, gets, isTestUser.
  replace (if isLocalAuthUser w then true else true) with true
    by (destruct (isLocalAuthUser w); reflexivity).
  unfold createLocalFolder, bind, generateUUID, nowISOString, gets,
    getAllLocalFolders, try, bind, getItem, setItem, bind, storageCall,
    gets, modify, ret, setItemsStore, modify, throw.
  destruct w as [device calls now drawn localUser alerts store database].
  cbn [draws faults].
  destruct (fillTemplate platform _ drawn) as [id n].
  destruct calls as [| [] [| [] rest]]; cbn;
    eexists; eexists; repeat split; reflexivity.
Qed.

(** X28: a scan without text and without a network invents a document:
    when recognition fails or gives at most ten characters and the image
    host gives no address, [scanDocument] resolves with the analysis of
    the test mode, a driving licence of a test user valid until 2042,
    whatever the image shows.  The result is filed in the first folder of
    the store named Driving Licence, small and capital letters alike; when
    there is none, in a new folder Driving Licence of the user, added to
    the store, unless the write of the folders fails: then the result has
    no folder and the store is as it was. *)
Theorem scanDocument_mock_fallback (imageUri userId : string) w :
  unreadable platform imageUri ->
  unpublished platform imageUri ->
  exists result w',
    scanDocument supabase platform INDIAN_DOCUMENT_PROMPT imageUri userId w
    = (Ok result, w') /\
    ScanResult.analysis result = mockResponse /\
    ScanResult.imageUrl result = imageUri /\
    match folderOf mockResponse (ItemsState.folders (itemsStore w)) with
    | Some f =>
        ScanResult.autoAssignedFolderId result
        = orNull (Some (VaultFolder.id f)) /\
        ScanResult.autoAssignedFolderName result
        = orNull (Some (VaultFolder.name f)) /\
        ItemsState.folders (itemsStore w') = ItemsState.folders (itemsStore w)
    | None =>
        if secondCallFails w then
          ScanResult.autoAssignedFolderId result = None /\
          ScanResult.autoAssignedFolderName result = None /\
          ItemsState.folders (itemsStore w')
          = ItemsState.folders (itemsStore w)
        else
          exists f,
            VaultFolder.name f = "Driving Licence" /\
            VaultFolder.user_id f = userId /\
            ScanResult.autoAssignedFolderId result
            = orNull (Some (VaultFolder.id f)) /\
            ScanResult.autoAssignedFolderName result
            = Some "Driving Licence" /\
            ItemsState.folders (itemsStore w')
            = ItemsState.folders (itemsStore w) ++ [ f ]
    end.
Proof.
  unfold unreadable, unpublished. intros Hocr Hpublish.
  assert (Hfallback : forall w1,
    bind Remote
      (try Remote (await Remote (publishImage platform imageUri))
         (fun _ => ret Remote None))
      (fun published =>
         match orNull published with
         | Some publicImageUrl =>
             await Remote
               (analyzeDocument platform INDIAN_DOCUMENT_PROMPT
                  publicImageUrl false)
         | None =>
             await Remote
               (analyzeDocument platform INDIAN_DOCUMENT_PROMPT
                  imageUri true)
         end) w1 = (Ok mockResponse, w1)).
  { intros w1. unfold bind, try, await, ret.
    destruct (publishImage platform imageUri) as [url | e];
      [ rewrite Hpublish | ]; reflexivity. }
  unfold scanDocument.
  unfold bind at 1. unfold setScan at 1. unfold setItemsStore at 1.
  unfold modify at 1.
  set (w0 := withItemsStore Remote _ w).
  unfold try at 1. unfold bind at 1, gets at 1.
  unfold bind at 1.
  assert (Hfirst :
    try Remote
      (bind Remote (await Remote (extractTextFromImage platform imageUri))
         (fun r => ret Remote (Some r)))
      (fun _ => ret Remote None) w0
    = (Ok (match extractTextFromImage platform imageUri with
           | Ok r => Some r
           | Throw _ => None
           end), w0)).
  { unfold try, bind, await, ret.
    destruct (extractTextFromImage platform imageUri); reflexivity. }
  rewrite Hfirst.
  unfold bind at 1. unfold setScan at 1. unfold setItemsStore at 1.
  unfold modify at 1.
  set (w1 := withItemsStore Remote _ w0).
  unfold bind at 1.
  match goal with
  | |- context [match ?m w1 with _ => _ end] =>
      assert (Hrun : m w1 = (Ok mockResponse, w1))
  end.
  { destruct (extractTextFromImage platform imageUri) as [r | e].
    - apply Z.leb_le in Hocr. rewrite Z.leb_antisym in Hocr.
      apply negb_true_iff in Hocr. rewrite Hocr. apply Hfallback.
    - apply Hfallback. }
  rewrite Hrun.
  unfold bind at 1. unfold setScan at 1. unfold setItemsStore at 1.
  unfold modify at 1.
  set (w3 := withItemsStore Remote _ w1).
  assert (Hfolders3 :
    ItemsState.folders (itemsStore w3) = ItemsState.folders (itemsStore w))
    by reflexivity.
  assert (Hfaults3 : secondCallFails w3 = secondCallFails w) by reflexivity.
  assert (Hfolders0 :
    ItemsState.folders (itemsStore w0) = ItemsState.folders (itemsStore w))
    by reflexivity.
  rewrite Hfolders0. clearbody w3. clear Hfolders0 Hfirst Hrun. clearbody w0.
  unfold bind at 1.
  change (determineFolderName (DocumentAnalysis.title mockResponse)
            (DocumentAnalysis.category mockResponse))
    with "Driving Licence".
  unfold folderOf.
  change (determineFolderName (DocumentAnalysis.title mockResponse)
            (DocumentAnalysis.category mockResponse))
    with "Driving Licence".
  destruct (find _ (ItemsState.folders (itemsStore w))) as [f |].
  - unfold ret at 1. unfold bind, setScan, setItemsStore, modify, ret.
    eexists. eexists. split; [ reflexivity |].
    cbn. rewrite Hfolders3. repeat split; reflexivity.
  - cbn [String.eqb Ascii.eqb Bool.eqb].
    pose proof (addFolder_run "Driving Licence" userId w3) as Hadd.
    rewrite Hfaults3 in Hadd. unfold try at 1. unfold bind at 1.
    unfold bind at 1.
    destruct (secondCallFails w).
    + destruct Hadd as (e & w4 & Hadd & Hstore). rewrite Hadd.
      unfold bind, setScan, setItemsStore, modify, ret.
      eexists. eexists. split; [ reflexivity |].
      cbn. rewrite Hstore, Hfolders3. repeat split; reflexivity.
    + destruct Hadd as (f & w4 & Hadd & Hname & Huser & Hstore).
      rewrite Hadd.
      unfold bind, setScan, setItemsStore, modify, ret.
      eexists. eexists. split; [ reflexivity |].
      cbn. split; [ reflexivity |]. split; [ reflexivity |].
      exists f. rewrite Hname, Hstore, Hfolders3.
      repeat split; try reflexivity; exact Huser.
Qed.

(** X29: a scan files the document in a folder that exists: when the
    scan resolves and the store holds a folder whose name is the name for
    the analysis, small and capital letters alike, the scan assigns the
    first such folder, and creates none: the folders of the store and of
    the device are as they were. *)
Theorem scanDocument_reuses_folder (imageUri userId : string)
  (result : ScanResult.t) (f : VaultFolder.t) w w' :
  scanDocument supabase platform INDIAN_DOCUMENT_PROMPT imageUri userId w
  = (Ok result, w') ->
  folderOf (ScanResult.analysis result) (ItemsState.folders (itemsStore w))
  = Some f ->
  ScanResult.autoAssignedFolderId result = orNull (Some (VaultFolder.id f)) /\
  ScanResult.autoAssignedFolderName result
  = orNull (Some (VaultFolder.name f)) /\
  ItemsState.folders (itemsStore w') = ItemsState.folders (itemsStore w) /\
  AsyncStorage.FOLDERS (storage w') = AsyncStorage.FOLDERS (storage w).
Proof.
  unfold scanDocument, folderOf. intros H Hfound.
  (* the scanning state is set *)
  apply bind_Ok in H. destruct H as (u0 & wa & Ha & H). cbv beta in H.
  unfold setScan, setItemsStore, modify in Ha. inversion Ha; subst; clear Ha.
  apply try_Ok in H. destruct H as [H | (e & wx & _ & H)].
  2: { apply bind_Ok in H. destruct H as (u1 & wy & _ & H). discriminate H. }
  (* the folders are read *)
  apply bind_Ok in H. destruct H as (folders & wb & Hb & H). cbv beta in H.
  unfold gets in Hb. inversion Hb; subst; clear Hb.
  (* recognition and analysis leave the world alone *)
  apply bind_Ok in H. destruct H as (ocrResult & wc & Hc & H). cbv beta in H.
  match type of Hc with
  | ?m ?w2 = _ =>
      assert (Hsame : preserves (fun w => w) m) by repeat frame_step;
      pose proof (Hsame w2) as Hsnd; rewrite Hc in Hsnd; cbn [snd] in Hsnd;
      clear Hsame Hc; subst wc
  end.
  apply bind_Ok in H. destruct H as (u2 & wd & Hd & H). cbv beta in H.
  unfold setScan, setItemsStore, modify in Hd. inversion Hd; subst; clear Hd.
  apply bind_Ok in H. destruct H as (analysis & we & He & H).
  cbv beta zeta in H.
  match type of He with
  | ?m ?w2 = _ =>
      assert (Hsame : preserves (fun w => w) m)
        by (unfold analyzeDocumentText, analyzeDocument; repeat frame_step);
      pose proof (Hsame w2) as Hsnd; rewrite He in Hsnd; cbn [snd] in Hsnd;
      clear Hsame He; subst we
  end.
  apply bind_Ok in H. destruct H as (u3 & wf & Hf & H). cbv beta in H.
  unfold setScan, setItemsStore, modify in Hf. inversion Hf; subst; clear Hf.
  (* the folder is found *)
  apply bind_Ok in H. destruct H as (targetFolder & wg & Hg & H).
  cbv beta in H.
  apply bind_Ok in H. destruct H as (u4 & wh & Hh & H). cbv beta in H.
  unfold setScan, setItemsStore, modify in Hh. inversion Hh; subst; clear Hh.
  unfold ret in H. inversion H; subst; clear H.
  cbn [ScanResult.analysis ScanResult.autoAssignedFolderId
       ScanResult.autoAssignedFolderName] in *.
  cbn [itemsStore withItemsStore ItemsState.folders] in Hg.
  rewrite Hfound in Hg. unfold ret in Hg. inversion Hg; subst; clear Hg.
  cbn. repeat split; reflexivity.
Qed.

End ScanMore.

Section ScanExamples.
Import Stores StoresSpec.

(** X28 at a camera image without text, on a working device without a
    network and without folders. *)
Lemma scanDocument_mock_fallback_witness :
  exists result w',
    scanDocument offline blind prompt "content://scan.jpg" "user-1"
      (worldWith [] []) = (Ok result, w') /\
    ScanResult.analysis result = mockResponse /\
    ScanResult.imageUrl result = "content://scan.jpg" /\
    exists f,
      VaultFolder.name f = "Driving Licence" /\
      VaultFolder.user_id f = "user-1" /\
      ScanResult.autoAssignedFolderId result
      = orNull (Some (VaultFolder.id f)) /\
      ScanResult.autoAssignedFolderName result = Some "Driving Licence" /\
      ItemsState.folders (itemsStore w') = [ f ].
Proof.
  apply (scanDocument_mock_fallback offline blind prompt
           "content://scan.jpg" "user-1" (worldWith [] [])).
  - vm_compute. discriminate.
  - reflexivity.
Defined.

(** The same scan when the write of the folders fails: the invented
    document comes without a folder. *)
Example scanDocument_mock_fallback_failed_write :
  fst (scanDocument offline blind prompt "content://scan.jpg" "user-1"
         (withFaults [ false; true ] (worldWith [] [])))
  = Ok {| ScanResult.analysis := mockResponse;
          ScanResult.imageUrl := "content://scan.jpg";
          ScanResult.autoAssignedFolderId := None;
          ScanResult.autoAssignedFolderName := None;
          ScanResult.alertCreated := false;
          ScanResult.alertType := None |}.
Proof. vm_compute. reflexivity. Qed.

(** X29 at the scan of the electricity bill, with a folder for utility
    bills in capital letters. *)
Lemma scanDocument_reuses_folder_witness :
  fst (scanDocument offline device prompt "content://scan.jpg" "user-1"
         twoFolders) = Ok filed /\
  ScanResult.autoAssignedFolderId filed = Some "f-2" /\
  ItemsState.folders
    (itemsStore
       (snd (scanDocument offline device prompt "content://scan.jpg" "user-1"
               twoFolders)))
  = [ folder "f-1" "Receipts"; folder "f-2" "UTILITY BILLS" ].
Proof.
  assert (Hfst :
    fst (scanDocument offline device prompt "content://scan.jpg" "user-1"
           twoFolders) = Ok filed) by (vm_compute; reflexivity).
  split; [ exact Hfst |].
  destruct (scanDocument_reuses_folder offline device prompt
              "content://scan.jpg" "user-1" filed
              (folder "f-2" "UTILITY BILLS") twoFolders
              (snd (scanDocument offline device prompt "content://scan.jpg"
                      "user-1" twoFolders)))
    as (Hid & _ & Hfolders & _).
  - rewrite <- Hfst. apply surjective_pairing.
  - vm_compute. reflexivity.
  - split; [ exact Hid | exact Hfolders ].
Defined.

End ScanExamples.

(* ================================================================= *)
(** ** The stores and the database *)

Section LocalOnly.
Import Stores StoresSpec.
Context {Remote : Type} (supabase : Supabase Remote) (platform : Platform).
Context (INDIAN_DOCUMENT_PROMPT : string).

(** [isTestUser] answers yes for every user, so what follows a test of it
    is the branch of the device. *)
Lemma preserves_isTestUser {A X} (part : World Remote -> X)
  (userId : string) (k : bool -> M Remote A) :
  preserves part (k true) ->
  preserves part (bind Remote (gets Remote (fun w => isTestUser Remote w userId)) k).
Proof.
  intros Hk w. unfold bind, gets, isTestUser.
  replace (if isLocalAuthUser w then true else true) with true
    by (destruct (isLocalAuthUser w); reflexivity).
  apply Hk.
Qed.

(** X30: the stores work on the device alone: whatever the user, the
    device and the services do, fetching the alerts, checking the
    deadlines, creating an alert, adding a folder, creating the alert of a
    scanned document and scanning a document never call the database: its
    state is as before.  ([isTestUser] of the auth store answers yes for
    every user.) *)
Theorem stores_never_call_the_database
  (userId itemId name imageUri : string)
  (notificationSettings : option NotificationSettings)
  (alertType : GuardianAlertType) (triggerDate : option Z) (item : Item.t) :
  preserves (fun w : World Remote => remote w) (fetchAlerts supabase userId) /\
  preserves (fun w : World Remote => remote w)
    (checkDeadlines supabase platform userId notificationSettings) /\
  preserves (fun w : World Remote => remote w)
    (createAlert supabase platform userId itemId alertType triggerDate) /\
  preserves (fun w : World Remote => remote w)
    (addFolder supabase platform name userId) /\
  preserves (fun w : World Remote => remote w)
    (createAlertForItem supabase platform item userId) /\
  preserves (fun w : World Remote => remote w)
    (scanDocument supabase platform INDIAN_DOCUMENT_PROMPT imageUri userId).
Proof.
  assert (Hfetch : forall u,
    preserves (fun w : World Remote => remote w) (fetchAlerts supabase u)).
  { intros u. unfold fetchAlerts, setGuardian, getLocalAlerts, getItem.
    repeat first [ apply preserves_isTestUser; cbv beta iota | frame_step ]. }
  assert (Hcreate : forall u i k t,
    preserves (fun w : World Remote => remote w)
      (createAlert supabase platform u i k t)).
  { intros u i k t.
    unfold createAlert, toISOString, createLocalAlert, nowISOString,
      getAllLocalAlerts, getItem, setItem, setGuardian.
    repeat first [ apply preserves_isTestUser; cbv beta iota
                 | apply preserves_generateUUID; intros ? ?; reflexivity
                 | frame_step ]. }
  assert (Hfolder : forall n u,
    preserves (fun w : World Remote => remote w)
      (addFolder supabase platform n u)).
  { intros n u.
    unfold addFolder, createLocalFolder, nowISOString, getAllLocalFolders,
      getItem, setItem, setItemsStore.
    repeat first [ apply preserves_isTestUser; cbv beta iota
                 | apply preserves_generateUUID; intros ? ?; reflexivity
                 | frame_step ]. }
  split; [ apply Hfetch |]. split; [| split; [ apply Hcreate |] ].
  - unfold checkDeadlines, setMonitoring, setGuardian, getLocalItems, getItem,
      checkItem.
    repeat first [ apply preserves_isTestUser; cbv beta iota
                 | apply Hfetch | apply Hcreate | frame_step ].
  - split; [ apply Hfolder |]. split.
    + unfold createAlertForItem, toISOString, createLocalAlert, nowISOString,
        getAllLocalAlerts, getItem, setItem.
      repeat first [ apply preserves_isTestUser; cbv beta iota
                   | apply preserves_generateUUID; intros ? ?; reflexivity
                   | frame_step ].
    + unfold scanDocument, setScan, setItemsStore.
      repeat first [ apply Hfolder | frame_step ].
Qed.

End LocalOnly.
